(** * AutoNewsVideo: the media assembly pipeline

    A shallow embedding of [autovideo/video_generator.py],
    [autovideo/tts_generator.py], [autovideo/html_to_image.py],
    [autovideo/llm_client.py] and [autovideo/autovideo.py].

    Python methods become functions in a state-and-exception monad over a
    [world]: the set of existing files and the history of observable
    events (spawned processes, temporary files, deletions, log records,
    requests to the collaborators).  Everything the program cannot decide
    by itself (exit status of the media tool, names picked by [tempfile],
    the clock, the answers of the LLM, of the browser and of the speech
    provider) is read from an [Environment]; every theorem quantifies over
    it. *)

From Stdlib Require Import PrimFloat.
From stdpp Require Import gmap strings list fin_maps pretty numbers.

Set Default Proof Using "Type".

(** ** Python values and exceptions *)

(** The values stored in a news item ([Dict[str, Any]]). *)
Inductive pyval :=
| VStr (s : string)
| VInt (z : Z)
| VList (l : list string).

Abbreviation news_item := (gmap string pyval).

(** The exceptions the pipeline raises or lets through; all of them are
    subclasses of [Exception]. *)
Inductive exn :=
| CalledProcessError (cmd : list string) (stderr : string)
| FileNotFoundError (filename : string)
| ValueError (msg : string)
| KeyError (key : string)
| IndexError
| ExternalError (msg : string).

Inductive result (A : Type) :=
| Ok (a : A)
| Raise (e : exn).
Arguments Ok {A} a.
Arguments Raise {A} e.

Definition is_Ok {A} (r : result A) : Prop :=
  match r with Ok _ => True | Raise _ => False end.

Definition is_Raise {A} (r : result A) : Prop :=
  match r with Ok _ => False | Raise _ => True end.

(** ** The world *)

Inductive level := INFO | WARNING | ERROR.

Inductive llm_method := NewsJson | Summary | Introduction.

Inductive event :=
| Spawn (cmd : list string)              (* subprocess.run *)
| TempFile (name : string)               (* tempfile.NamedTemporaryFile(delete=False) *)
| WriteText (name : string) (text : string)
| Unlink (path : string)                 (* os.unlink *)
| Log (lv : level) (msg : string)        (* logger.info / warning / error *)
| LlmRequest (m : llm_method)            (* client.chat.completions.create *)
| RenderRequest (path : string)          (* template rendering and screenshot *)
| SpeechRequest (path : string).         (* edge-tts or SiliconFlow synthesis *)

#[global] Instance level_eq_dec : EqDecision level.
Proof. solve_decision. Defined.
#[global] Instance llm_method_eq_dec : EqDecision llm_method.
Proof. solve_decision. Defined.
#[global] Instance event_eq_dec : EqDecision event.
Proof. solve_decision. Defined.

(** [trace] holds the newest event first; [history] reads it in
    chronological order. *)
Record world := World {
  fs : gset string;
  trace : list event
}.

Definition history (w : world) : list event := rev (trace w).

Definition record_event (e : event) (w : world) : world :=
  World (fs w) (e :: trace w).

Definition is_spawn (e : event) : bool :=
  match e with Spawn _ => true | _ => false end.
Definition is_tempfile (e : event) : bool :=
  match e with TempFile _ => true | _ => false end.
Definition is_llm (m : llm_method) (e : event) : bool :=
  match e with LlmRequest m' => bool_decide (m = m') | _ => false end.
Definition is_render (e : event) : bool :=
  match e with RenderRequest _ => true | _ => false end.
Definition is_speech (e : event) : bool :=
  match e with SpeechRequest _ => true | _ => false end.

(** How many requests of one kind the run has made so far: the index of
    the next one. *)
Definition calls (kind : event → bool) (w : world) : nat :=
  length (List.filter kind (trace w)).

(** ** The environment *)

Inductive proc_outcome :=
| Exited0 (stdout : string)              (* exit status 0 *)
| ExitedNonZero (stderr : string)        (* check=True turns it into CalledProcessError *)
| NoSuchProgram.                         (* the executable is not on PATH *)

Inductive render_outcome :=
| Rendered
| TemplateFailed (e : exn)               (* raised by _generate_html_content *)
| ScreenshotFailed (e : exn).            (* raised inside _html_to_image *)

Class Environment := {
  (** outcome of the n-th spawned process, given its command line *)
  proc_oracle : nat → list string → proc_outcome;
  (** name of the n-th temporary file, given its suffix *)
  tmp_oracle : nat → string → string;
  (** [datetime.now().strftime(fmt)] after n events *)
  clock : nat → string → string;
  (** answers of the n-th request of each LLM method; the answer to a
      formatting request is the decoded JSON object that
      [response_format={"type": "json_object"}] asks for: an answer that
      decodes to another JSON value is not in this model *)
  llm_news_json : nat → news_item → exn + news_item;
  llm_summary : nat → list news_item → exn + string;
  llm_introduction : nat → news_item → exn + string;
  (** outcome of the n-th image rendering *)
  render_oracle : nat → render_outcome;
  (** outcome of the n-th speech synthesis: [None] is success *)
  tts_oracle : nat → option exn;
  (** [float(s.strip())]: [None] stands for ValueError *)
  py_float : string → option float;
  (** [str(x)] on a float and on an exception *)
  py_str_float : float → string;
  py_str_exn : exn → string
}.

(** ** The monad: state passing with exceptions *)

Definition M (A : Type) : Type := world → result A * world.

Definition ret {A} (a : A) : M A := fun w => (Ok a, w).
Definition raise {A} (e : exn) : M A := fun w => (Raise e, w).

Definition bind {A B} (m : M A) (k : A → M B) : M B :=
  fun w =>
    match m w with
    | (Ok a, w1) => k a w1
    | (Raise e, w1) => (Raise e, w1)
    end.

#[global] Instance M_ret : MRet M := @ret.
#[global] Instance M_bind : MBind M := fun A B k m => bind m k.

(** [try: body except Exception as e: handler e] *)
Definition try_except {A} (body : M A) (handler : exn → M A) : M A :=
  fun w =>
    match body w with
    | (Ok a, w1) => (Ok a, w1)
    | (Raise e, w1) => handler e w1
    end.

(** [try: body finally: cleanup]: the cleanup runs on both exits; an
    exception of the cleanup replaces the outcome of the body. *)
Definition try_finally {A} (body : M A) (cleanup : M unit) : M A :=
  fun w =>
    match body w with
    | (r, w1) =>
        match cleanup w1 with
        | (Ok _, w2) => (r, w2)
        | (Raise e, w2) => (Raise e, w2)
        end
    end.

(** [for x in l: body x] *)
Fixpoint for_each {A} (l : list A) (body : A → M unit) : M unit :=
  match l with
  | [] => ret tt
  | x :: l' => body x;; for_each l' body
  end.

(** [[f x for x in l]] *)
Fixpoint list_comp {A B} (l : list A) (f : A → M B) : M (list B) :=
  match l with
  | [] => ret []
  | x :: l' => y ← f x; ys ← list_comp l' f; ret (y :: ys)
  end.

(** ** Primitive effects *)

Definition emit (e : event) : M unit := fun w => (Ok tt, record_event e w).

Definition logger_info (msg : string) : M unit := emit (Log INFO msg).
Definition logger_warning (msg : string) : M unit := emit (Log WARNING msg).
Definition logger_error (msg : string) : M unit := emit (Log ERROR msg).

Definition os_path_exists (p : string) : M bool :=
  fun w => (Ok (bool_decide (p ∈ fs w)), w).

Definition os_unlink (p : string) : M unit :=
  fun w =>
    if bool_decide (p ∈ fs w)
    then (Ok tt, World (fs w ∖ {[p]}) (Unlink p :: trace w))
    else (Raise (FileNotFoundError p), w).

(** [if os.path.exists(p): os.unlink(p)] *)
Definition unlink_if_exists (p : string) : M unit :=
  bind (os_path_exists p) (fun b : bool => if b then os_unlink p else ret tt).

Definition create_file (p : string) (w : world) : world :=
  World ({[p]} ∪ fs w) (trace w).

(** The files a process leaves behind when it exits with status 0: the
    media tool writes its last argument, the prober writes nothing.  A
    process that exits otherwise is recorded with the files as they
    were: what a failed encode may have written of its output is not in
    this model. *)
Definition process_output (cmd : list string) : list string :=
  if bool_decide (head cmd = Some "ffmpeg")
  then match list.last cmd with Some out => [out] | None => [] end
  else [].

Section primitives.
Context {env : Environment}.

(** [datetime.now().strftime(fmt)] *)
Definition strftime_now (fmt : string) : M string :=
  fun w => (Ok (clock (length (trace w)) fmt), w).

(** [if output_path is None: output_path = f"{prefix}{timestamp}{suffix}"],
    with [timestamp = datetime.now().strftime("%Y%m%d_%H%M%S")]. *)
Definition default_path (output_path : option string) (prefix suffix : string)
    : M string :=
  match output_path with
  | None =>
      timestamp ← strftime_now "%Y%m%d_%H%M%S";
      mret (prefix +:+ timestamp +:+ suffix)
  | Some p => mret p
  end.

(** [subprocess.run(command, check=True, capture_output=True, text=True)],
    returning [result.stdout]. *)
Definition subprocess_run (command : list string) : M string :=
  fun w =>
    let w1 := record_event (Spawn command) w in
    match proc_oracle (calls is_spawn w) command with
    | Exited0 out =>
        (Ok out, foldr create_file w1 (process_output command))
    | ExitedNonZero err => (Raise (CalledProcessError command err), w1)
    | NoSuchProgram =>
        (Raise (FileNotFoundError (default "" (head command))), w1)
    end.

(** [tempfile.NamedTemporaryFile(suffix=suffix, delete=False)] followed
    by [close()]: the file stays on disk; the result is its [name]. *)
Definition named_temporary_file (suffix : string) : M string :=
  fun w =>
    let name := tmp_oracle (calls is_tempfile w) suffix in
    (Ok name, create_file name (record_event (TempFile name) w)).
End primitives.

Definition newline : string := String (Ascii.ascii_of_nat 10) EmptyString.

(** [enumerate(l, start)] *)
Definition enumerate {A} (start : nat) (l : list A) : list (nat * A) :=
  zip (seq start (length l)) l.

(** [for x in l: s = body s x], for a loop that updates local state. *)
Fixpoint fold_m {A S} (l : list A) (body : S → A → M S) (s : S) : M S :=
  match l with
  | [] => mret s
  | x :: l' => s' ← body s x; fold_m l' body s'
  end.

(** [d[k]] on a dict *)
Definition dict_get (d : gmap string string) (k : string) : M string :=
  match d !! k with
  | Some v => mret v
  | None => raise (KeyError k)
  end.

(** ** video_generator.py *)

Module VideoGenerator.

(** The fields set by [__init__]. *)
Record t := {
  fps : Z;
  video_width : Z;
  video_height : Z
}.

Definition defaults : t :=
  {| fps := 30; video_width := 1920; video_height := 1080 |}.

Definition probe_command (path : string) : list string :=
  ["ffprobe"; "-i"; path; "-show_entries"; "format=duration";
   "-v"; "quiet"; "-of"; "csv=p=0"].

(** The single-segment command of [create_video_from_images]. *)
Definition reencode_command (input output_path : string) : list string :=
  ["ffmpeg"; "-y"; "-i"; input; "-c:v"; "libx264"; "-c:a"; "aac";
   "-b:a"; "192k"; "-pix_fmt"; "yuv420p"; output_path].

Definition concat_command (manifest output_path : string) : list string :=
  ["ffmpeg"; "-y"; "-f"; "concat"; "-safe"; "0"; "-i"; manifest;
   "-c:v"; "libx264"; "-c:a"; "aac"; "-b:a"; "192k";
   "-pix_fmt"; "yuv420p"; output_path].

Definition copy_command (video_path output_path : string) : list string :=
  ["ffmpeg"; "-y"; "-i"; video_path; "-c"; "copy"; output_path].

(** The lines written to the concat file. *)
Definition manifest_text (temp_videos : list string) : string :=
  foldr (fun temp_video acc => "file '" +:+ temp_video +:+ "'" +:+ newline +:+ acc)
    "" temp_videos.

Section methods.
Context {env : Environment}.
Implicit Types (self : t) (w : world).

Definition _run_ffmpeg_command self (command : list string) : M string :=
  try_except
    (_ ← subprocess_run command;
     logger_info "FFmpeg command executed successfully";;
     match list.last command with
     | Some output_path => mret output_path
     | None => raise IndexError
     end)
    (fun e =>
       match e with
       | CalledProcessError _ stderr =>
           logger_error ("FFmpeg command failed: " +:+ stderr);; raise e
       | FileNotFoundError _ =>
           logger_error
             "FFmpeg not found. Please install FFmpeg and ensure it's in your PATH.";;
           raise e
       | _ => raise e
       end).

Definition _get_audio_duration self (audio_path : string) : M float :=
  try_except
    (stdout ← subprocess_run (probe_command audio_path);
     match py_float stdout with
     | Some d => mret d
     | None => raise (ValueError stdout)
     end)
    (fun e =>
       match e with
       | CalledProcessError _ _ | ValueError _ =>
           logger_warning ("Could not get duration for " +:+ audio_path
                           +:+ ", using default 5 seconds");;
           mret 5%float
       | _ => raise e
       end).

Definition _get_video_duration self (video_path : string) : M float :=
  try_except
    (stdout ← subprocess_run (probe_command video_path);
     match py_float stdout with
     | Some d => mret d
     | None => raise (ValueError stdout)
     end)
    (fun e =>
       match e with
       | CalledProcessError _ _ | ValueError _ =>
           logger_warning ("Could not get duration for " +:+ video_path
                           +:+ ", using default 10 seconds");;
           mret 10%float
       | _ => raise e
       end).

Definition segment_command self (image_path audio_path output_path : string)
    (duration : float) : list string :=
  ["ffmpeg"; "-y"; "-loop"; "1"; "-i"; image_path; "-i"; audio_path;
   "-c:v"; "libx264"; "-c:a"; "aac"; "-b:a"; "192k"; "-shortest";
   "-vf"; "scale=" +:+ pretty (video_width self) +:+ ":"
          +:+ pretty (video_height self) +:+ ",fps=" +:+ pretty (fps self);
   "-t"; py_str_float duration; "-pix_fmt"; "yuv420p"; output_path].

Definition create_video_segment self (image_path audio_path output_path : string)
    (duration : option float) : M string :=
  duration ← match duration with
             | None => _get_audio_duration self audio_path
             | Some d => mret d
             end;
  _run_ffmpeg_command self
    (segment_command self image_path audio_path output_path duration).

(** The [for] loop of [create_video_from_images].  [temp_videos] is a
    local list the [finally] block reads after the loop, also when the
    loop was left by an exception: it is passed along explicitly and
    returned together with the outcome. *)
Fixpoint encode_segments self (segments : list (string * string * float))
    (temp_videos : list string) w : (list string * result unit) * world :=
  match segments with
  | [] => ((temp_videos, Ok tt), w)
  | (image_path, audio_path, duration) :: rest =>
      match named_temporary_file ".mp4" w with
      | (Raise e, w1) => ((temp_videos, Raise e), w1)
      | (Ok temp_video, w1) =>
          match create_video_segment self image_path audio_path temp_video
                  (Some duration) w1 with
          | (Raise e, w2) => ((temp_videos, Raise e), w2)
          | (Ok _, w2) =>
              encode_segments self rest (temp_videos ++ [temp_video]) w2
          end
      end
  end.

(** The rest of the [try] block, after the loop. *)
Definition concatenate self (temp_videos : list string) (output_path : string)
    : M string :=
  (if bool_decide (length temp_videos = 1)
   then
     (* the command is assigned and not run *)
     let command := reencode_command (default "" (temp_videos !! 0)) output_path in
     ret tt
   else
     concat_file ← named_temporary_file ".txt";
     emit (WriteText concat_file (manifest_text temp_videos));;
     let command := concat_command concat_file output_path in
     _ ← _run_ffmpeg_command self command;
     os_unlink concat_file);;
  logger_info ("Video created successfully: " +:+ output_path);;
  mret output_path.

(** The [finally] block. *)
Definition cleanup (temp_videos : list string) : M unit :=
  for_each temp_videos unlink_if_exists.

(** The [try ... finally] statement. *)
Definition try_encode_finally_cleanup self
    (segments : list (string * string * float)) (output_path : string)
    : M string :=
  fun w =>
    let '((temp_videos, r), w1) := encode_segments self segments [] w in
    try_finally
      (match r with
       | Ok _ => concatenate self temp_videos output_path
       | Raise e => raise e
       end)
      (cleanup temp_videos) w1.

Definition create_video_from_images self (image_paths audio_paths : list string)
    (output_path : option string) (durations : option (list float)) : M string :=
  output_path ← default_path output_path "output/video/news_video_" ".mp4";
  durations ← match durations with
              | None => list_comp audio_paths (_get_audio_duration self)
              | Some ds => mret ds
              end;
  try_encode_finally_cleanup self
    (zip (zip image_paths audio_paths) durations) output_path.

Definition fade_filter (video_duration : float) : string :=
  "fade=in:0:30,fade=out:st=" +:+ py_str_float (video_duration - 1)%float
    +:+ ":d=1".

Definition fade_command (video_path output_path : string)
    (video_duration : float) : list string :=
  ["ffmpeg"; "-y"; "-i"; video_path; "-vf"; fade_filter video_duration;
   "-c:a"; "copy"; output_path].

Definition add_transition self (video_path output_path : string)
    (transition_type : string) : M string :=
  command ← (if bool_decide (transition_type = "fade")
             then
               video_duration ← _get_video_duration self video_path;
               mret (fade_command video_path output_path video_duration)
             else mret (copy_command video_path output_path));
  _run_ffmpeg_command self command.

Definition create_final_video self (overview_image overview_audio : string)
    (news_images news_audios : list string) (output_path : option string)
    : M string :=
  output_path ← default_path output_path "output/video/final_news_" ".mp4";
  let all_images := overview_image :: news_images in
  let all_audios := overview_audio :: news_audios in
  video_path ← create_video_from_images self all_images all_audios None None;
  final_video ← add_transition self video_path output_path "fade";
  unlink_if_exists video_path;;
  logger_info ("Final video created: " +:+ final_video);;
  mret final_video.
End methods.
End VideoGenerator.

(** ** llm_client.py *)

Module LLMClient.

(** [LLMConfig]; the sampling temperature only travels to the provider. *)
Record t := {
  model : string;
  max_tokens : Z
}.

Section methods.
Context {env : Environment}.
Implicit Types self : t.

(** [self.client.chat.completions.create(...)] and the decoding of its
    answer: the n-th request of a method is answered by the environment. *)
Definition chat_completion {A} (m : llm_method) (answer : nat → exn + A) : M A :=
  fun w =>
    let w1 := record_event (LlmRequest m) w in
    match answer (calls (is_llm m) w) with
    | inr a => (Ok a, w1)
    | inl e => (Raise e, w1)
    end.

Definition generate_news_json self (news_data : news_item) : M news_item :=
  try_except
    (result ← chat_completion NewsJson (fun n => llm_news_json n news_data);
     logger_info "Successfully generated news JSON";;
     mret result)
    (fun e =>
       logger_error ("Error generating news JSON: " +:+ py_str_exn e);;
       raise e).

Definition generate_summary self (news_items : list news_item) : M string :=
  try_except
    (summary ← chat_completion Summary (fun n => llm_summary n news_items);
     logger_info "Successfully generated news summary";;
     mret summary)
    (fun e =>
       logger_error ("Error generating summary: " +:+ py_str_exn e);;
       raise e).

Definition generate_item_introduction self (item : news_item) : M string :=
  try_except
    (introduction ← chat_completion Introduction (fun n => llm_introduction n item);
     logger_info "Successfully generated news item introduction";;
     mret introduction)
    (fun e =>
       logger_error ("Error generating item introduction: " +:+ py_str_exn e);;
       raise e).
End methods.
End LLMClient.

(** ** html_to_image.py *)

Module HTMLToImageConverter.

Record t := {
  templates_dir : string
}.

Section methods.
Context {env : Environment}.
Implicit Types self : t.

(** [self.env.get_template(template_name).render] on the keyword arguments.  The
    document itself is not kept: it only travels to the browser, whose
    outcome the environment gives per rendering. *)
Definition _generate_html_content self (template_name output_path : string)
    : M unit :=
  fun w =>
    let w1 := record_event (RenderRequest output_path) w in
    match render_oracle (calls is_render w) with
    | TemplateFailed e => (Raise e, w1)
    | _ => (Ok tt, w1)
    end.

(** The screenshot of the document rendered last. *)
Definition _html_to_image self (output_path : string) : M string :=
  try_except
    (fun w =>
       match render_oracle (pred (calls is_render w)) with
       | ScreenshotFailed e => (Raise e, w)
       | _ =>
           (logger_info ("Successfully converted HTML to image: " +:+ output_path);;
            mret output_path) (create_file output_path w)
       end)
    (fun e =>
       logger_error ("Error converting HTML to image: " +:+ py_str_exn e);;
       raise e).

Definition generate_overview_image self (summary : string) (news_count : nat)
    (output_path : option string) : M string :=
  output_path ← default_path output_path "output/images/overview_" ".jpg";
  _generate_html_content self "overview.html" output_path;;
  _html_to_image self output_path.

Definition generate_news_item_image self (item : news_item)
    (item_number total_items : nat) (output_path : option string) : M string :=
  output_path ← default_path output_path
                  ("output/images/news_item_" +:+ pretty item_number +:+ "_")
                  ".jpg";
  _generate_html_content self "news_item.html" output_path;;
  _html_to_image self output_path.

(** One turn of the loop of [generate_all_news_images]. *)
Definition news_image_step self (total_items : nat) (image_paths : list string)
    (entry : nat * news_item) : M (list string) :=
  let '(i, item) := entry in
  try_except
    (image_path ← generate_news_item_image self item i total_items None;
     logger_info ("Generated image for news item " +:+ pretty i);;
     mret (image_paths ++ [image_path]))
    (fun e =>
       logger_error ("Failed to generate image for news item " +:+ pretty i
                     +:+ ": " +:+ py_str_exn e);;
       mret image_paths).

Definition generate_all_news_images self (news_items : list news_item)
    : M (list string) :=
  fold_m (enumerate 1 news_items)
    (news_image_step self (length news_items)) [].
End methods.
End HTMLToImageConverter.

(** ** tts_generator.py *)

Module TTSGenerator.

Definition EDGE_TTS : string := "edge_tts".
Definition SILICONFLOW : string := "siliconflow".

Record t := {
  provider : string;
  voice : string;
  rate : string;
  volume : string;
  api_key : option string;
  base_url : option string;
  model : option string
}.

Section methods.
Context {env : Environment}.
Implicit Types self : t.

(** One synthesis request to the provider, writing [output_path]. *)
Definition synthesize (output_path : string) : M unit :=
  fun w =>
    let w1 := record_event (SpeechRequest output_path) w in
    match tts_oracle (calls is_speech w) with
    | None => (Ok tt, create_file output_path w1)
    | Some e => (Raise e, w1)
    end.

Definition _generate_edge_tts_audio self (text output_path : string) : M string :=
  synthesize output_path;;
  logger_info ("Successfully generated audio with edge-tts: " +:+ output_path);;
  mret output_path.

Definition _generate_siliconflow_audio self (text output_path : string) : M string :=
  try_except
    (synthesize output_path;;
     logger_info ("Successfully generated audio with SiliconFlow: " +:+ output_path);;
     mret output_path)
    (fun e =>
       logger_error ("Error generating SiliconFlow audio: " +:+ py_str_exn e);;
       raise e).

Definition _generate_audio self (text output_path : string) : M string :=
  try_except
    (if bool_decide (provider self = EDGE_TTS)
     then _generate_edge_tts_audio self text output_path
     else if bool_decide (provider self = SILICONFLOW)
     then _generate_siliconflow_audio self text output_path
     else raise (ValueError ("Unsupported TTS provider: " +:+ provider self)))
    (fun e =>
       logger_error ("Error generating audio: " +:+ py_str_exn e);;
       raise e).

Definition generate_summary_audio self (summary : string)
    (output_path : option string) : M string :=
  output_path ← default_path output_path "output/audio/summary_" ".mp3";
  try_finally (_generate_audio self summary output_path) (ret tt).

Definition generate_item_audio self (text : string) (item_number : nat)
    (output_path : option string) : M string :=
  output_path ← default_path output_path
                  ("output/audio/item_" +:+ pretty item_number +:+ "_") ".mp3";
  try_finally (_generate_audio self text output_path) (ret tt).

Definition item_key (i : nat) : string := "item_" +:+ pretty i.

(** One turn of the loop of [generate_all_audio]. *)
Definition item_audio_step self (audio_files : gmap string string)
    (entry : nat * string) : M (gmap string string) :=
  let '(i, introduction) := entry in
  try_except
    (item_audio ← generate_item_audio self introduction i None;
     logger_info ("Generated audio for news item " +:+ pretty i);;
     mret (<[item_key i := item_audio]> audio_files))
    (fun e =>
       logger_error ("Failed to generate audio for news item " +:+ pretty i
                     +:+ ": " +:+ py_str_exn e);;
       mret audio_files).

Definition summary_audio_step self (summary : string) : M (gmap string string) :=
  try_except
    (summary_audio ← generate_summary_audio self summary None;
     logger_info "Generated summary audio";;
     mret (<["summary" := summary_audio]> (∅ : gmap string string)))
    (fun e =>
       logger_error ("Failed to generate summary audio: " +:+ py_str_exn e);;
       mret ∅).

Definition generate_all_audio self (summary : string)
    (news_items : list news_item) (introductions : list string)
    : M (gmap string string) :=
  audio_files ← summary_audio_step self summary;
  fold_m (enumerate 1 introductions) (item_audio_step self) audio_files.
End methods.

(** [get_audio_duration] meets two things the rest of the pipeline does
    not: the constructor [edge_tts.Communicate], which may refuse the voice,
    and a process run without [check=True], whose standard output is read
    whatever its exit status.  Both are decided outside the program. *)
Section duration.
Context {env : Environment}.
Variable communicate : string → option exn.
Variable failed_stdout : nat → list string → string.
Implicit Types self : t.

(** [subprocess.run(command, capture_output=True, text=True)], returning
    [result.stdout]: a non-zero exit status is not an error. *)
Definition subprocess_run_unchecked (command : list string) : M string :=
  fun w =>
    let w1 := record_event (Spawn command) w in
    match proc_oracle (calls is_spawn w) command with
    | Exited0 out =>
        (Ok out, foldr create_file w1 (process_output command))
    | ExitedNonZero _ => (Ok (failed_stdout (calls is_spawn w) command), w1)
    | NoSuchProgram =>
        (Raise (FileNotFoundError (default "" (head command))), w1)
    end.

Definition get_audio_duration self (audio_path : string) : M float :=
  try_except
    (match communicate (voice self) with
     | Some e => raise e
     | None => mret tt
     end;;
     stdout ← subprocess_run_unchecked
                ["ffprobe"; "-i"; audio_path; "-show_entries"; "format=duration";
                 "-v"; "quiet"; "-of"; "csv=p=0"];
     match py_float stdout with
     | Some d => mret d
     | None => raise (ValueError stdout)
     end)
    (fun e =>
       logger_error ("Error getting audio duration: " +:+ py_str_exn e);;
       mret 5%float).
End duration.
End TTSGenerator.

(** ** autovideo.py *)

Module AutoVideoGenerator.

(** The components built by [__init__]. *)
Record t := {
  llm_client : LLMClient.t;
  html_converter : HTMLToImageConverter.t;
  tts_generator : TTSGenerator.t;
  video_generator : VideoGenerator.t
}.

Section methods.
Context {env : Environment}.
Implicit Types self : t.

Definition add_timestamp (formatted_news : news_item) : M news_item :=
  match formatted_news !! "created_at" with
  | Some _ => mret formatted_news
  | None =>
      now ← strftime_now "%Y-%m-%d %H:%M:%S";
      mret (<["created_at" := VStr now]> formatted_news)
  end.

(** One turn of the loop of [_process_news_data]. *)
Definition process_step self (processed_news : list news_item)
    (item : news_item) : M (list news_item) :=
  try_except
    (formatted_news ← LLMClient.generate_news_json (llm_client self) item;
     formatted_news ← add_timestamp formatted_news;
     mret (processed_news ++ [formatted_news]))
    (fun e =>
       logger_error ("Error processing news item: " +:+ py_str_exn e);;
       mret processed_news).

Definition _process_news_data self (raw_news_data : list news_item)
    : M (list news_item) :=
  fold_m raw_news_data (process_step self) [].

(** One turn of the loop that fills [introductions]: no handler around
    the call. *)
Definition introduction_step self (introductions : list string)
    (item : news_item) : M (list string) :=
  introduction ← LLMClient.generate_item_introduction (llm_client self) item;
  mret (introductions ++ [introduction]).

Definition generate_introductions self (news : list news_item) : M (list string) :=
  fold_m news (introduction_step self) [].

(** The arguments of the call to [create_final_video] that are read from
    [audio_files], evaluated in the order they are written. *)
Definition audio_arguments (audio_files : gmap string string) (n : nat)
    : M (string * list string) :=
  overview_audio ← dict_get audio_files "summary";
  news_audios ← list_comp (seq 0 n)
                  (fun i => dict_get audio_files (TTSGenerator.item_key (i + 1)));
  mret (overview_audio, news_audios).

(** Summary, introductions, images and audio: everything before the
    call of [create_final_video], up to the evaluation of its arguments.
    [generate_news_video] (steps 3 to 7) and [generate_from_news_list]
    (steps 1 to 5) hold the same statements.  The result is what is
    passed to assembly: overview image, overview audio, news images,
    news audios. *)
Definition generate_content self (news : list news_item)
    : M (string * string * list string * list string) :=
  logger_info "Generating news summary...";;
  summary ← LLMClient.generate_summary (llm_client self) news;
  logger_info "Generating item introductions...";;
  introductions ← generate_introductions self news;
  logger_info "Generating images...";;
  overview_image ← HTMLToImageConverter.generate_overview_image
                     (html_converter self) summary (length news) None;
  news_images ← HTMLToImageConverter.generate_all_news_images
                  (html_converter self) news;
  logger_info "Generating audio...";;
  audio_files ← TTSGenerator.generate_all_audio (tts_generator self)
                  summary news introductions;
  logger_info "Generating final video...";;
  '(overview_audio, news_audios) ← audio_arguments audio_files (length news);
  mret (overview_image, overview_audio, news_images, news_audios).

Definition summary_to_video self (news : list news_item)
    (output_path : option string) : M string :=
  '(overview_image, overview_audio, news_images, news_audios) ←
    generate_content self news;
  final_video ← VideoGenerator.create_final_video (video_generator self)
                  overview_image overview_audio news_images news_audios
                  output_path;
  logger_info ("News video generated successfully: " +:+ final_video);;
  mret final_video.

Definition generate_news_video self (news_data_fetcher : M (list news_item))
    (output_path : option string) : M string :=
  try_except
    (logger_info "Starting news video generation";;
     logger_info "Fetching news data...";;
     raw_news_data ← news_data_fetcher;
     logger_info "Processing news data with LLM...";;
     processed_news ← _process_news_data self raw_news_data;
     summary_to_video self processed_news output_path)
    (fun e =>
       logger_error ("Error generating news video: " +:+ py_str_exn e);;
       raise e).

Definition generate_from_news_list self (news_items : list news_item)
    (output_path : option string) : M string :=
  try_except
    (logger_info "Starting news video generation from pre-formatted items";;
     summary_to_video self news_items output_path)
    (fun e =>
       logger_error ("Error generating news video from items: " +:+ py_str_exn e);;
       raise e).
End methods.
End AutoVideoGenerator.

(** ** Reading a run

    What a call did is read off the events it added to the trace. *)

Definition events_since (w w' : world) : list event :=
  rev (take (length (trace w') - length (trace w)) (trace w')).

Definition spawned (evs : list event) : list (list string) :=
  omap (fun e => match e with Spawn cmd => Some cmd | _ => None end) evs.

Definition temp_files (evs : list event) : list string :=
  omap (fun e => match e with TempFile name => Some name | _ => None end) evs.

Definition logged (lv : level) (evs : list event) : list string :=
  omap (fun e => match e with
                 | Log lv' msg => if bool_decide (lv = lv') then Some msg else None
                 | _ => None
                 end) evs.

(** The (image, audio) inputs of the segment encodes among spawned
    commands: the two [-i] arguments of a command that loops a still image. *)
Definition segment_inputs (cmd : list string) : option (string * string) :=
  match cmd with
  | _ :: _ :: loop :: _ :: _ :: image :: _ :: audio :: _ =>
      if bool_decide (loop = "-loop") then Some (image, audio) else None
  | _ => None
  end.

(** Events that produce or delete something: everything but log records
    and requests to the LLM. *)
Definition is_production (e : event) : bool :=
  match e with
  | Log _ _ | LlmRequest _ => false
  | _ => true
  end.

(** [w'] continues [w] with log records and LLM requests only. *)
Definition quiet (w w' : world) : Prop :=
  fs w' = fs w ∧
  ∃ evs, trace w' = evs ++ trace w ∧ List.filter is_production evs = [].

(** [w'] continues [w], and every temporary file created in between
    satisfies [P]. *)
Definition temporaries (w w' : world) (P : string → Prop) : Prop :=
  ∃ evs, trace w' = evs ++ trace w ∧ ∀ t, TempFile t ∈ evs → P t.

(** ** What the environment decides, in the terms of the program *)

Section outcomes.
Context {env : Environment}.

(** The path [default_path] settles on. *)
Definition chosen_path (output_path : option string) (prefix suffix : string)
    (w : world) : string :=
  match output_path with
  | None => prefix +:+ clock (length (trace w)) "%Y%m%d_%H%M%S" +:+ suffix
  | Some p => p
  end.

(** The outcome of probing [path] next. *)
Definition probe_outcome (path : string) (w : world) : proc_outcome :=
  proc_oracle (calls is_spawn w) (VideoGenerator.probe_command path).


(** The n-th image was rendered. *)
Definition rendered (n : nat) : bool :=
  match render_oracle n with Rendered => true | _ => false end.

(** A provider the generator knows. *)
Definition supported (self : TTSGenerator.t) : bool :=
  bool_decide (TTSGenerator.provider self = TTSGenerator.EDGE_TTS) ||
  bool_decide (TTSGenerator.provider self = TTSGenerator.SILICONFLOW).

(** The outcome of the n-th synthesis as the generator sees it: an
    unsupported provider fails before any request is made. *)
Definition speech_outcome (self : TTSGenerator.t) (n : nat) : option exn :=
  if supported self then tts_oracle n
  else Some (ValueError ("Unsupported TTS provider: "
                         +:+ TTSGenerator.provider self)).

(** The next request to the provider has index [n], whenever requests are
    made at all. *)
Definition next_request (self : TTSGenerator.t) (w : world) (n : nat) : Prop :=
  supported self = true → calls is_speech w = n.
End outcomes.

Definition fallback_warning (path seconds : string) : event :=
  Log WARNING ("Could not get duration for " +:+ path +:+ ", using default "
               +:+ seconds +:+ " seconds").

Definition ffmpeg_ok_log : event :=
  Log INFO "FFmpeg command executed successfully".
Definition ffmpeg_failed_log (stderr : string) : event :=
  Log ERROR ("FFmpeg command failed: " +:+ stderr).
Definition ffmpeg_missing_log : event :=
  Log ERROR "FFmpeg not found. Please install FFmpeg and ensure it's in your PATH.".

(** The keys the orchestrator looks up for [n] news items. *)
Definition audio_keys (n : nat) : list string :=
  "summary" :: ((fun i => TTSGenerator.item_key (i + 1)) <$> seq 0 n).

(** ** Reading a run, continued *)

(** [w'] continues [w] with events of the kinds [allowed] only. *)
Definition adds (allowed : event → bool) (w w' : world) : Prop :=
  ∃ evs, trace w' = evs ++ trace w ∧ Forall (fun e => allowed e = true) evs.

(** The same, and no file is deleted. *)
Definition continues (allowed : event → bool) (w w' : world) : Prop :=
  fs w ⊆ fs w' ∧ adds allowed w w'.

Definition is_log (e : event) : bool :=
  match e with Log _ _ => true | _ => false end.

Definition render_or_log (e : event) : bool := is_render e || is_log e.
Definition speech_or_log (e : event) : bool := is_speech e || is_log e.

(** The events of the content stage: requests to the collaborators and
    log records. *)
Definition is_request (e : event) : bool :=
  match e with
  | LlmRequest _ | RenderRequest _ | SpeechRequest _ | Log _ _ => true
  | _ => false
  end.

(** The default paths of the image and of the audio of news item [i],
    with the timestamp [stamp]. *)
Definition item_image_path (i : nat) (stamp : string) : string :=
  ("output/images/news_item_" +:+ pretty i +:+ "_") +:+ stamp +:+ ".jpg".

Definition item_audio_path (i : nat) (stamp : string) : string :=
  ("output/audio/item_" +:+ pretty i +:+ "_") +:+ stamp +:+ ".mp3".

(** Every audio stored under the key of a news item has the default path
    of that item. *)
Definition named_by_item (audio_files : gmap string string) : Prop :=
  ∀ i path, audio_files !! TTSGenerator.item_key i = Some path →
    ∃ stamp, path = item_audio_path i stamp.

(** Every path stored in the dict exists. *)
Definition all_exist (audio_files : gmap string string) (w : world) : Prop :=
  ∀ key path, audio_files !! key = Some path → path ∈ fs w.

Section plans.
Context {env : Environment}.

(** The names of [n] temporary videos, the first of which is temporary
    file number [first] of the run. *)
Definition temp_names (first n : nat) : list string :=
  (fun k => tmp_oracle (first + k) ".mp4") <$> seq 0 n.

(** The encode of each segment into its temporary video. *)
Definition segment_commands (self : VideoGenerator.t)
    (segments : list (string * string * float)) (temps : list string)
    : list (list string) :=
  zip_with (fun '(image_path, audio_path, duration) temp_video =>
              VideoGenerator.segment_command self image_path audio_path
                temp_video duration)
    segments temps.
End plans.

Definition is_unlink (e : event) : bool :=
  match e with Unlink _ => true | _ => false end.

(** ** Scenarios

    Concrete environments and inputs on which the program is run. *)

Module Scenario.

Definition str_exn (e : exn) : string :=
  match e with
  | CalledProcessError _ stderr => stderr
  | FileNotFoundError filename => filename
  | ValueError msg => msg
  | KeyError key => "'" +:+ key +:+ "'"
  | IndexError => "list index out of range"
  | ExternalError msg => msg
  end.

(** A table standing for [float] and [str] on the few values the
    scenarios meet. *)
Definition parse_float (s : string) : option float :=
  if bool_decide (s = "4.5") then Some 4.5%float else None.

Definition str_float (d : float) : string :=
  if (d =? 4.5)%float then "4.5"
  else if (d =? 3.5)%float then "3.5"
  else if (d =? 5)%float then "5.0"
  else if (d =? 9)%float then "9.0"
  else if (d =? 10)%float then "10.0"
  else "nan".

(** An environment that differs only in what the scenario is about. *)
Definition environment (proc : nat → list string → proc_outcome)
    (render : nat → render_outcome)
    (introduction : nat → exn + string)
    (speech : nat → option exn) : Environment := {|
  proc_oracle := proc;
  tmp_oracle n suffix := "/tmp/tmp" +:+ pretty n +:+ suffix;
  clock _ _ := "20250101_120000";
  llm_news_json _ item := inr item;
  llm_summary _ _ := inr "Today's headlines";
  llm_introduction n _ := introduction n;
  render_oracle := render;
  tts_oracle := speech;
  py_float := parse_float;
  py_str_float := str_float;
  py_str_exn := str_exn
|}.

Definition all_exit0 (n : nat) (cmd : list string) : proc_outcome := Exited0 "4.5".
Definition all_rendered (n : nat) : render_outcome := Rendered.
Definition all_introduced (n : nat) : exn + string :=
  inr ("Introduction " +:+ pretty n).
Definition all_spoken (n : nat) : option exn := None.

(** Everything succeeds. *)
Definition fair_weather : Environment :=
  environment all_exit0 all_rendered all_introduced all_spoken.

(** The screenshot of the second news item (rendering 2, after the
    overview and the first item) times out. *)
Definition second_image_fails : Environment :=
  environment all_exit0
    (fun n => if bool_decide (n = 2)
              then ScreenshotFailed (ExternalError "Timeout 30000ms exceeded")
              else Rendered)
    all_introduced all_spoken.

(** The LLM refuses the introduction of the second news item. *)
Definition second_introduction_fails : Environment :=
  environment all_exit0 all_rendered
    (fun n => if bool_decide (n = 1) then inl (ExternalError "Rate limit exceeded")
              else all_introduced n)
    all_spoken.

(** The media tool fails on every segment encode. *)
Definition segment_encode_fails : Environment :=
  environment
    (fun n cmd => if bool_decide (cmd !! 2 = Some "-loop")
                  then ExitedNonZero "Conversion failed!" else Exited0 "4.5")
    all_rendered all_introduced all_spoken.

(** The media tool fails on the concatenation. *)
Definition concat_fails : Environment :=
  environment
    (fun n cmd => if bool_decide (cmd !! 3 = Some "concat")
                  then ExitedNonZero "Conversion failed!" else Exited0 "4.5")
    all_rendered all_introduced all_spoken.

(** The media tool fails on the fade. *)
Definition fade_fails : Environment :=
  environment
    (fun n cmd => if bool_decide (cmd !! 4 = Some "-vf")
                  then ExitedNonZero "Conversion failed!" else Exited0 "4.5")
    all_rendered all_introduced all_spoken.



Definition empty_world : world := World ∅ [].

Definition hd_video : VideoGenerator.t := VideoGenerator.defaults.
Definition fast_video : VideoGenerator.t :=
  {| VideoGenerator.fps := 60;
     VideoGenerator.video_width := 1920;
     VideoGenerator.video_height := 1080 |}.

Definition generator : AutoVideoGenerator.t :=
  {| AutoVideoGenerator.llm_client :=
       {| LLMClient.model := "gpt-3.5-turbo"; LLMClient.max_tokens := 1000 |};
     AutoVideoGenerator.html_converter :=
       {| HTMLToImageConverter.templates_dir := "templates" |};
     AutoVideoGenerator.tts_generator :=
       {| TTSGenerator.provider := TTSGenerator.EDGE_TTS;
          TTSGenerator.voice := "zh-CN-XiaoxiaoNeural";
          TTSGenerator.rate := "+0%";
          TTSGenerator.volume := "+0%";
          TTSGenerator.api_key := None;
          TTSGenerator.base_url := None;
          TTSGenerator.model := None |};
     AutoVideoGenerator.video_generator := hd_video |}.

Definition headline (title : string) : news_item := {[ "title" := VStr title ]}.

Definition three_news : list news_item :=
  [headline "Markets"; headline "Weather"; headline "Sports"].


(** The synthesis of the introduction of the second news item (request
    2, after the summary and the first item) is refused. *)
Definition second_speech_fails : Environment :=
  environment all_exit0 all_rendered all_introduced
    (fun n => if bool_decide (n = 2) then Some (ExternalError "No audio was received")
              else None).


(** A speech generator configured with a provider the code does not know. *)
Definition unknown_tts : TTSGenerator.t :=
  {| TTSGenerator.provider := "azure";
     TTSGenerator.voice := "zh-CN-XiaoxiaoNeural";
     TTSGenerator.rate := "+0%";
     TTSGenerator.volume := "+0%";
     TTSGenerator.api_key := None;
     TTSGenerator.base_url := None;
     TTSGenerator.model := None |}.

(** The screenshot of the overview (rendering 0) times out. *)
Definition overview_fails : Environment :=
  environment all_exit0
    (fun n => if bool_decide (n = 0)
              then ScreenshotFailed (ExternalError "Timeout 30000ms exceeded")
              else Rendered)
    all_introduced all_spoken.

End Scenario.

(** * Proofs *)


Ltac unfold_monad :=
  unfold mbind, M_bind, bind, mret, M_ret, ret, raise, try_except, try_finally,
    emit, logger_info, logger_warning, logger_error in *.

Section observation.
Implicit Types (w : world) (evs : list event).

Lemma events_since_app w w' evs :
  trace w' = evs ++ trace w → events_since w w' = rev evs.
Proof.
  intros E. unfold events_since. rewrite E, length_app.
  replace (length evs + length (trace w) - length (trace w)) with (length evs) by lia.
  by rewrite take_app_length.
Qed.

Lemma events_since_refl w : events_since w w = [].
Proof. by apply (events_since_app w w []). Qed.
End observation.

Section files.
Implicit Types (w : world) (p : string).

Lemma unlink_if_exists_run p w :
  unlink_if_exists p w =
    (Ok tt, if bool_decide (p ∈ fs w)
            then World (fs w ∖ {[p]}) (Unlink p :: trace w)
            else w).
Proof.
  unfold unlink_if_exists, os_path_exists, os_unlink, bind, ret.
  destruct (bool_decide (p ∈ fs w)) eqn:E; simpl; by rewrite ?E.
Qed.

Lemma unlink_if_exists_fs p w r w' :
  unlink_if_exists p w = (r, w') → fs w' = fs w ∖ {[p]}.
Proof.
  rewrite unlink_if_exists_run. intros [= _ <-].
  case_bool_decide as Hp; [done|]. apply set_eq. intros x.
  rewrite elem_of_difference, elem_of_singleton.
  split; [|by intros [? _]]. intros Hx. split; [done|]. by intros ->.
Qed.
End files.

Section paths.
Context {env : Environment}.


Lemma default_path_run output_path prefix suffix w :
  default_path output_path prefix suffix w =
    (Ok (chosen_path output_path prefix suffix w), w).
Proof. by destruct output_path. Qed.
End paths.

Section duration_resolver.
Context {env : Environment}.
Import VideoGenerator.




Lemma audio_duration_cases self path w :
  _get_audio_duration self path w =
    let w1 := record_event (Spawn (probe_command path)) w in
    match probe_outcome path w with
    | Exited0 stdout =>
        match py_float stdout with
        | Some d => (Ok d, w1)
        | None => (Ok 5%float, record_event (fallback_warning path "5") w1)
        end
    | ExitedNonZero _ => (Ok 5%float, record_event (fallback_warning path "5") w1)
    | NoSuchProgram => (Raise (FileNotFoundError "ffprobe"), w1)
    end.
Proof.
  unfold _get_audio_duration, probe_outcome, subprocess_run. unfold_monad.
  destruct (proc_oracle _ _) as [out|err|]; simpl; try done.
  destruct (py_float out); reflexivity.
Qed.

Lemma video_duration_cases self path w :
  _get_video_duration self path w =
    let w1 := record_event (Spawn (probe_command path)) w in
    match probe_outcome path w with
    | Exited0 stdout =>
        match py_float stdout with
        | Some d => (Ok d, w1)
        | None => (Ok 10%float, record_event (fallback_warning path "10") w1)
        end
    | ExitedNonZero _ => (Ok 10%float, record_event (fallback_warning path "10") w1)
    | NoSuchProgram => (Raise (FileNotFoundError "ffprobe"), w1)
    end.
Proof.
  unfold _get_video_duration, probe_outcome, subprocess_run. unfold_monad.
  destruct (proc_oracle _ _) as [out|err|]; simpl; try done.
  destruct (py_float out); reflexivity.
Qed.

End duration_resolver.


Ltac trace_prefix t base :=
  lazymatch t with
  | base => constr:(@nil event)
  | ?e :: ?t' => let l := trace_prefix t' base in constr:(e :: l)
  end.

(** Rewrites [events_since w w'] into the new events, for a [w'] whose
    trace is syntactically an extension of the trace of [w]. *)
Ltac read_events :=
  repeat match goal with
  | |- context [events_since ?w ?w'] =>
      let t := eval simpl in (trace w') in
      let l := trace_prefix t (trace w) in
      rewrite (events_since_app w w' l) by reflexivity
  end.


Section transition.
Context {env : Environment}.
Import VideoGenerator.
Implicit Types (self : t) (w : world).


Lemma run_ffmpeg_cases self cmd w :
  _run_ffmpeg_command self cmd w =
    let w1 := record_event (Spawn cmd) w in
    match proc_oracle (calls is_spawn w) cmd with
    | Exited0 _ =>
        let w2 := record_event ffmpeg_ok_log (foldr create_file w1 (process_output cmd)) in
        match list.last cmd with
        | Some out => (Ok out, w2)
        | None => (Raise IndexError, w2)
        end
    | ExitedNonZero err =>
        (Raise (CalledProcessError cmd err), record_event (ffmpeg_failed_log err) w1)
    | NoSuchProgram =>
        (Raise (FileNotFoundError (default "" (head cmd))),
         record_event ffmpeg_missing_log w1)
    end.
Proof.
  unfold _run_ffmpeg_command, subprocess_run. unfold_monad.
  destruct (proc_oracle _ _); simpl; [|done..].
  destruct (list.last cmd); done.
Qed.

(** C9.  A transition kind other than "fade", known or not, behaves as
    "none": exactly one process is spawned, the stream copy
    [ffmpeg -y -i video_path -c copy output_path]; the call returns
    [output_path] when it exits with 0, and the only exceptions are those
    of the process, never one about the kind. *)
Theorem unknown_transition_is_copy self video_path output_path kind w :
  kind ≠ "fade" →
  add_transition self video_path output_path kind w =
    add_transition self video_path output_path "none" w ∧
  ∃ r w',
    add_transition self video_path output_path kind w = (r, w') ∧
    spawned (events_since w w') =
      [["ffmpeg"; "-y"; "-i"; video_path; "-c"; "copy"; output_path]] ∧
    match proc_oracle (calls is_spawn w) (copy_command video_path output_path) with
    | Exited0 _ => r = Ok output_path ∧ output_path ∈ fs w'
    | ExitedNonZero err =>
        r = Raise (CalledProcessError (copy_command video_path output_path) err)
    | NoSuchProgram => r = Raise (FileNotFoundError "ffmpeg")
    end.
Proof.
  intros Hkind. unfold add_transition.
  rewrite (bool_decide_eq_false_2 _ Hkind). simpl bool_decide.
  split; [done|].
  unfold mbind at 1, M_bind at 1, bind, mret, M_ret, ret.
  rewrite run_ffmpeg_cases. cbv zeta.
  destruct (proc_oracle _ _) as [out|err|]; simpl;
    eexists _, _; (split; [reflexivity|]); read_events;
    (split; [done|]); try done.
  split; [done|]. by apply elem_of_union_l, elem_of_singleton.
Qed.

(** C8, what the code does.  The fade is the same for every generator,
    whatever its frame rate: [add_transition] never reads [fps].  The
    video duration is probed, then one encode is started whose filter is
    the fade-in [fade=in:0:30], written in frames (first frame 0, 30
    frames), followed by a fade-out written in seconds, one second long
    from the resolved duration minus 1 (the resolved duration is the
    number the prober printed, or 10.0); the audio is copied
    ([-c:a copy]).  Without the prober the exception is passed on and
    nothing is encoded. *)
Theorem fade_in_ignores_fps self self' video_path output_path w :
  add_transition self video_path output_path "fade" w
  = add_transition self' video_path output_path "fade" w ∧
  ∃ r w',
    add_transition self video_path output_path "fade" w = (r, w') ∧
    let encode d :=
      ["ffmpeg"; "-y"; "-i"; video_path; "-vf";
       "fade=in:0:30,fade=out:st=" +:+ py_str_float (d - 1)%float +:+ ":d=1";
       "-c:a"; "copy"; output_path] in
    match probe_outcome video_path w with
    | Exited0 stdout =>
        spawned (events_since w w')
        = [probe_command video_path; encode (default 10%float (py_float stdout))] ∧
        (is_Ok r → r = Ok output_path ∧ output_path ∈ fs w')
    | ExitedNonZero _ =>
        spawned (events_since w w')
        = [probe_command video_path; encode 10%float] ∧
        (is_Ok r → r = Ok output_path ∧ output_path ∈ fs w')
    | NoSuchProgram =>
        r = Raise (FileNotFoundError "ffprobe") ∧
        spawned (events_since w w') = [probe_command video_path]
    end.
Proof.
  split; [reflexivity|].
  unfold add_transition. simpl bool_decide. cbv iota.
  unfold mbind, M_bind, bind, mret, M_ret, ret.
  rewrite video_duration_cases. cbv zeta.
  destruct (probe_outcome video_path w) as [out|err|]; [destruct (py_float out)|..];
    rewrite ?run_ffmpeg_cases; cbv zeta;
    repeat match goal with
           | |- context [proc_oracle ?n ?c] => destruct (proc_oracle n c)
           end;
    eexists _, _; (split; [reflexivity|]); read_events;
    (split; [done|]); try done.
  all: intros _; split; [done|]; by apply elem_of_union_l, elem_of_singleton.
Qed.

End transition.


Section segments.
Context {env : Environment}.
Import VideoGenerator.
Implicit Types (self : t) (w : world).

(** X19.  [create_video_segment] starts the prober exactly when no
    duration is given, and on the audio path.  The one encode that
    follows loops the image over the audio with [-shortest] and carries
    as [-t] the given duration or else the number the prober printed,
    5.0 when it printed none or exited with a non-zero status.  Without
    the prober the call raises and nothing is encoded.  When the call
    returns, the result is the output path and that file exists. *)
Theorem omitted_duration_is_probed self image_path audio_path output_path duration w :
  ∃ r w',
    create_video_segment self image_path audio_path output_path duration w = (r, w') ∧
    let encode d :=
      ["ffmpeg"; "-y"; "-loop"; "1"; "-i"; image_path; "-i"; audio_path;
       "-c:v"; "libx264"; "-c:a"; "aac"; "-b:a"; "192k"; "-shortest";
       "-vf"; "scale=" +:+ pretty (video_width self) +:+ ":"
              +:+ pretty (video_height self) +:+ ",fps=" +:+ pretty (fps self);
       "-t"; py_str_float d; "-pix_fmt"; "yuv420p"; output_path] in
    (is_Ok r → r = Ok output_path ∧ output_path ∈ fs w') ∧
    match duration with
    | Some d => spawned (events_since w w') = [encode d]
    | None =>
        match probe_outcome audio_path w with
        | Exited0 stdout =>
            spawned (events_since w w')
            = [probe_command audio_path; encode (default 5%float (py_float stdout))]
        | ExitedNonZero _ =>
            spawned (events_since w w') = [probe_command audio_path; encode 5%float]
        | NoSuchProgram =>
            r = Raise (FileNotFoundError "ffprobe") ∧
            spawned (events_since w w') = [probe_command audio_path]
        end
    end.
Proof.
  unfold create_video_segment.
  unfold mbind at 1, M_bind at 1, bind.
  destruct duration as [d|].
  - unfold mret, M_ret, ret. rewrite run_ffmpeg_cases. cbv zeta.
    destruct (proc_oracle _ _); simpl;
      eexists _, _; (split; [reflexivity|]); read_events; (split; [|done]);
      try done.
    intros _. split; [done|]. by apply elem_of_union_l, elem_of_singleton.
  - rewrite audio_duration_cases. cbv zeta.
    destruct (probe_outcome audio_path w) as [out|err|]; [destruct (py_float out)|..];
      rewrite ?run_ffmpeg_cases; cbv zeta;
      repeat match goal with
             | |- context [proc_oracle ?n ?c] => destruct (proc_oracle n c)
             end;
      eexists _, _; (split; [reflexivity|]); read_events;
      (split; [|done]); try done.
    all: intros _; split; [done|]; by apply elem_of_union_l, elem_of_singleton.
Qed.

Lemma cleanup_single p w :
  p ∈ fs w →
  cleanup [p] w = (Ok tt, World (fs w ∖ {[p]}) (Unlink p :: trace w)).
Proof.
  intros Hp. unfold cleanup, for_each, unlink_if_exists, os_path_exists, os_unlink.
  unfold_monad. by rewrite !bool_decide_eq_true_2.
Qed.

(** C2, what the code does on one pair.  After the segment has been
    encoded to its temporary file no other process is spawned: the
    re-encode to [output_path] is not run.  No manifest is created, the
    call returns [output_path], and the files left are those from before
    the encode without the temporary one, so [output_path] was not
    written. *)
Theorem single_segment_not_reencoded self image_path audio_path output_path
    durations d w w0 stdout :
  (match durations with
   | None => list_comp [audio_path] (_get_audio_duration self)
   | Some ds => mret ds
   end) w = (Ok [d], w0) →
  let temp_video := tmp_oracle (calls is_tempfile w0) ".mp4" in
  let segment := segment_command self image_path audio_path temp_video d in
  proc_oracle (calls is_spawn w0) segment = Exited0 stdout →
  ∃ w',
    create_video_from_images self [image_path] [audio_path] (Some output_path)
      durations w = (Ok output_path, w') ∧
    spawned (events_since w0 w') = [segment] ∧
    temp_files (events_since w0 w') = [temp_video] ∧
    fs w' = fs w0 ∖ {[temp_video]}.
Proof.
  intros Hd temp_video segment Hseg. unfold create_video_from_images.
  unfold mbind at 1, M_bind at 1, bind. rewrite default_path_run.
  unfold mbind at 1, M_bind at 1, bind. rewrite Hd.
  unfold try_encode_finally_cleanup. simpl zip. unfold encode_segments.
  unfold named_temporary_file. fold temp_video.
  unfold create_video_segment.
  unfold mbind at 1, M_bind at 1, bind, mret at 1, M_ret at 1, ret at 1.
  rewrite run_ffmpeg_cases. cbv zeta.
  change (calls is_spawn (create_file temp_video (record_event (TempFile temp_video) w0)))
    with (calls is_spawn w0).
  fold segment. rewrite Hseg. simpl list.last. cbv iota beta. simpl app.
  unfold try_finally, concatenate. simpl bool_decide. cbv iota.
  unfold mbind, M_bind, bind, mret, M_ret, ret, logger_info, emit.
  rewrite cleanup_single by (by apply elem_of_union_l, elem_of_singleton).
  eexists. split; [reflexivity|]. read_events.
  split_and!; [done..|]. simpl. apply set_eq. intros x.
  rewrite !elem_of_difference, !elem_of_union. tauto.
Qed.

(** C3, what the code does when the encode of the only segment fails.
    The exception is passed on and the temporary file of that segment,
    created before the encode and not yet appended to [temp_videos], is
    neither deleted nor absent afterwards. *)
Theorem failed_segment_leaves_temp_file self image_path audio_path output_path
    durations d w w0 stderr :
  (match durations with
   | None => list_comp [audio_path] (_get_audio_duration self)
   | Some ds => mret ds
   end) w = (Ok [d], w0) →
  let temp_video := tmp_oracle (calls is_tempfile w0) ".mp4" in
  let segment := segment_command self image_path audio_path temp_video d in
  proc_oracle (calls is_spawn w0) segment = ExitedNonZero stderr →
  ∃ w',
    create_video_from_images self [image_path] [audio_path] (Some output_path)
      durations w = (Raise (CalledProcessError segment stderr), w') ∧
    temp_files (events_since w0 w') = [temp_video] ∧
    temp_video ∈ fs w' ∧
    Unlink temp_video ∉ events_since w0 w'.
Proof.
  intros Hd temp_video segment Hseg. unfold create_video_from_images.
  unfold mbind at 1, M_bind at 1, bind. rewrite default_path_run.
  unfold mbind at 1, M_bind at 1, bind. rewrite Hd.
  unfold try_encode_finally_cleanup. simpl zip. unfold encode_segments.
  unfold named_temporary_file. fold temp_video.
  unfold create_video_segment.
  unfold mbind at 1, M_bind at 1, bind, mret at 1, M_ret at 1, ret at 1.
  rewrite run_ffmpeg_cases. cbv zeta.
  change (calls is_spawn (create_file temp_video (record_event (TempFile temp_video) w0)))
    with (calls is_spawn w0).
  fold segment. rewrite Hseg. cbv iota beta.
  unfold try_finally, cleanup, for_each, raise, ret.
  eexists. split; [reflexivity|]. read_events.
  split_and!; [done| |].
  - by apply elem_of_union_l, elem_of_singleton.
  - simpl. intros Hin.
    repeat (apply elem_of_cons in Hin as [?|Hin]; [done|]).
    by apply elem_of_nil in Hin.
Qed.

End segments.





Section temporaries.
Implicit Types (w : world) (P : string → Prop).

Lemma temporaries_refl w P : temporaries w w P.
Proof. exists []. split; [done|]. by intros t ?%elem_of_nil. Qed.

Lemma temporaries_trans w1 w2 w3 P :
  temporaries w1 w2 P → temporaries w2 w3 P → temporaries w1 w3 P.
Proof.
  intros (evs1 & Ht1 & H1) (evs2 & Ht2 & H2). exists (evs2 ++ evs1). split.
  - by rewrite Ht2, Ht1, app_assoc.
  - intros t [?|?]%elem_of_app; auto.
Qed.

Lemma temporaries_mono w w' P Q :
  (∀ t, P t → Q t) → temporaries w w' P → temporaries w w' Q.
Proof. intros HPQ (evs & Ht & H). exists evs. split; [done|]. auto. Qed.

Lemma temporaries_record e w P :
  (∀ t, e = TempFile t → P t) → temporaries w (record_event e w) P.
Proof.
  intros He. exists [e]. split; [done|].
  intros t Ht%list_elem_of_singleton. by apply He.
Qed.

Lemma temporaries_events w w' P t :
  temporaries w w' P → TempFile t ∈ events_since w w' → P t.
Proof.
  intros (evs & Ht & H). rewrite (events_since_app w w' evs Ht).
  rewrite list_elem_of_In, <-in_rev, <-list_elem_of_In. apply H.
Qed.
End temporaries.

(** Settles [temporaries w w' P] for a [w'] written as [w] with events
    added, none of which creates a temporary file. *)
Ltac no_temporaries :=
  lazymatch goal with
  | |- temporaries ?w ?w' _ =>
      let t := eval simpl in (trace w') in
      let l := trace_prefix t (trace w) in
      exists l; split; [reflexivity|];
      let Hin := fresh "Hin" in
      intros ? Hin;
      repeat (apply elem_of_cons in Hin as [?|Hin]; [done|]);
      by apply elem_of_nil in Hin
  end.

Section cleanup.
Context {env : Environment}.
Import VideoGenerator.
Implicit Types (self : t) (w : world).

(** Running the media tool creates no temporary file and deletes nothing. *)
Lemma run_ffmpeg_temporaries self cmd w r w' :
  _run_ffmpeg_command self cmd w = (r, w') →
  temporaries w w' (fun _ => False) ∧ fs w ⊆ fs w' ∧
  (∀ x, x ∈ fs w' → x ∈ fs w ∨ x ∈ process_output cmd).
Proof.
  rewrite run_ffmpeg_cases. cbv zeta.
  assert (Hfs : ∀ l w0, fs w0 ⊆ fs (foldr create_file w0 l) ∧
            ∀ x, x ∈ fs (foldr create_file w0 l) → x ∈ fs w0 ∨ x ∈ l).
  { induction l as [|p l IH]; intros w0; simpl; [by auto|].
    destruct (IH w0) as [Hsub Hin]. split.
    - intros x Hx. apply elem_of_union_r. by apply Hsub.
    - intros x [->%elem_of_singleton|Hx]%elem_of_union.
      + right. by left.
      + destruct (Hin x Hx); [by left|right; by right]. }
  assert (Htrace : ∀ l w0, trace (foldr create_file w0 l) = trace w0).
  { induction l as [|p l IH]; intros w0; simpl; [done|apply IH]. }
  destruct (proc_oracle _ _); [destruct (list.last cmd)|..]; intros [= <- <-].
  all: split_and!; try done; try (by left).
  all: try apply (Hfs (process_output cmd) (record_event (Spawn cmd) w)).
  all: try (eexists [_; _]; split;
            [simpl; by rewrite ?Htrace|];
            intros t0 Hin;
            repeat (apply elem_of_cons in Hin as [?|Hin]; [done|]);
            by apply elem_of_nil in Hin).
Qed.

Lemma audio_duration_temporaries self path w r w' :
  _get_audio_duration self path w = (r, w') →
  temporaries w w' (fun _ => False) ∧ fs w' = fs w.
Proof.
  rewrite audio_duration_cases. cbv zeta.
  destruct (probe_outcome path w) as [out| |]; [destruct (py_float out)|..];
    intros [= <- <-]; (split; [no_temporaries|done]).
Qed.

Lemma probes_temporaries self paths : ∀ w r w',
  list_comp paths (_get_audio_duration self) w = (r, w') →
  temporaries w w' (fun _ => False) ∧ fs w' = fs w.
Proof.
  induction paths as [|path paths IH]; intros w r w'; simpl.
  - intros [= <- <-]. split; [apply temporaries_refl|done].
  - unfold mbind at 1, M_bind at 1, bind.
    destruct (_get_audio_duration self path w) as [[d|e] w1] eqn:Hprobe;
      apply audio_duration_temporaries in Hprobe as [Ht1 Hfs1];
      [|by intros [= <- <-]].
    unfold mbind at 1, M_bind at 1, bind.
    destruct (list_comp paths _ w1) as [[ds|e] w2] eqn:Hrest;
      apply IH in Hrest as [Ht2 Hfs2]; unfold mret, M_ret, ret;
      intros [= <- <-]; (split; [by eapply temporaries_trans|congruence]).
Qed.

Lemma encode_segments_temporaries self segments : ∀ temp_videos w temp_videos' r w1,
  encode_segments self segments temp_videos w = ((temp_videos', r), w1) →
  temporaries w w1 (fun t => is_Ok r → t ∈ temp_videos') ∧
  (∀ t, t ∈ temp_videos → t ∈ temp_videos').
Proof.
  induction segments as [|[[image_path audio_path] duration] segments IH];
    intros temps w temps' r w1; simpl.
  - intros [= <- <- <-]. split; [apply temporaries_refl|done].
  - unfold named_temporary_file.
    set (temp_video := tmp_oracle (calls is_tempfile w) ".mp4").
    set (wa := create_file temp_video (record_event (TempFile temp_video) w)).
    unfold create_video_segment. unfold mbind at 1, M_bind at 1, bind.
    unfold mret at 1, M_ret at 1, ret at 1.
    destruct (_run_ffmpeg_command self _ wa) as [[p|e] wb] eqn:Hrun;
      apply run_ffmpeg_temporaries in Hrun as (Hrun & _ & _).
    + intros Hrest. apply IH in Hrest as [Hrest Hsub]. split.
      * eapply temporaries_trans; [|exact Hrest].
        eapply temporaries_trans;
          [|eapply temporaries_mono; [|exact Hrun]; done].
        exists [TempFile temp_video]. split; [done|].
        intros t [= ->]%list_elem_of_singleton _.
        apply Hsub, elem_of_app. right. by apply list_elem_of_singleton.
      * intros t Ht. apply Hsub, elem_of_app. by left.
    + intros [= <- <- <-]. split; [|done].
      eapply temporaries_trans; [|eapply temporaries_mono; [|exact Hrun]; done].
      exists [TempFile temp_video]. split; [done|]. by intros t _ [].
Qed.

Lemma cleanup_temporaries temp_videos : ∀ w,
  ∃ w', cleanup temp_videos w = (Ok tt, w') ∧
    temporaries w w' (fun _ => False) ∧
    fs w' ⊆ fs w ∧
    ∀ t, t ∈ temp_videos → t ∉ fs w'.
Proof.
  unfold cleanup.
  induction temp_videos as [|temp_video temps IH]; intros w; simpl.
  - exists w. split_and!; [done|apply temporaries_refl|done|].
    by intros t ?%elem_of_nil.
  - unfold mbind at 1, M_bind at 1, bind. rewrite unlink_if_exists_run.
    set (w1 := if bool_decide (temp_video ∈ fs w) then _ else w).
    assert (Hfs1 : fs w1 = fs w ∖ {[temp_video]}).
    { apply (unlink_if_exists_fs temp_video w (Ok tt) w1).
      by rewrite unlink_if_exists_run. }
    assert (Ht1 : temporaries w w1 (fun _ => False)).
    { subst w1. case_bool_decide; [no_temporaries|apply temporaries_refl]. }
    destruct (IH w1) as (w' & -> & Ht & Hsub & Hgone).
    exists w'. split_and!; [done|by eapply temporaries_trans| |].
    + intros x Hx%Hsub. rewrite Hfs1 in Hx. by apply elem_of_difference in Hx as [? _].
    + intros t [->|Ht']%elem_of_cons; [|by apply Hgone].
      intros Hin%Hsub. rewrite Hfs1 in Hin.
      apply elem_of_difference in Hin as [_ Hin]. apply Hin.
      by apply elem_of_singleton.
Qed.

Lemma concatenate_temporaries self temp_videos output_path w p w' :
  concatenate self temp_videos output_path w = (Ok p, w') →
  temporaries w w' (fun t => t ∉ fs w').
Proof.
  unfold concatenate. unfold mbind at 1, M_bind at 1, bind.
  case_bool_decide as Hone.
  - unfold ret at 1. unfold_monad. intros [= <- <-]. no_temporaries.
  - unfold mbind at 1, M_bind at 1, bind. unfold named_temporary_file.
    set (concat_file := tmp_oracle (calls is_tempfile w) ".txt").
    unfold mbind at 1, M_bind at 1, bind, emit at 1.
    cbv zeta. unfold mbind at 1, M_bind at 1, bind.
    destruct (_run_ffmpeg_command self _ _) as [[out|e] wc] eqn:Hrun; [|done].
    apply run_ffmpeg_temporaries in Hrun as (Hrun & _ & _).
    unfold os_unlink. case_bool_decide as Hin; [|done].
    unfold_monad. intros [= <- <-]. simpl.
    assert (Hgone : concat_file ∉ fs wc ∖ {[concat_file]}).
    { rewrite elem_of_difference, elem_of_singleton. by intros [_ ?]. }
    eapply (temporaries_trans _ wc).
    + eapply temporaries_trans;
        [|eapply temporaries_mono; [|exact Hrun]; done].
      exists [WriteText concat_file (manifest_text temp_videos); TempFile concat_file].
      split; [done|]. intros t Ht.
      apply elem_of_cons in Ht as [?|Ht]; [done|].
      by apply list_elem_of_singleton in Ht as [= ->].
    + exists [Log INFO ("Video created successfully: " +:+ output_path);
              Unlink concat_file].
      split; [done|]. intros t Ht.
      apply elem_of_cons in Ht as [?|Ht]; [done|].
      by apply list_elem_of_singleton in Ht.
Qed.

Lemma elem_of_temp_files t evs : t ∈ temp_files evs ↔ TempFile t ∈ evs.
Proof.
  unfold temp_files. rewrite list_elem_of_omap. split.
  - intros (e & He & Heq). destruct e; try done. by injection Heq as ->.
  - intros Ht. by exists (TempFile t).
Qed.

(** X1.  On a normal return of [create_video_from_images] every temporary
    file created during the call, segment or manifest, is absent. *)
Theorem temporaries_deleted_on_return self image_paths audio_paths output_path
    durations w p w' :
  create_video_from_images self image_paths audio_paths output_path durations w
    = (Ok p, w') →
  ∀ t, t ∈ temp_files (events_since w w') → t ∉ fs w'.
Proof.
  unfold create_video_from_images.
  unfold mbind at 1, M_bind at 1, bind. rewrite default_path_run.
  unfold mbind at 1, M_bind at 1, bind.
  assert (Hdurations : ∃ r w0,
    (match durations with
     | None => list_comp audio_paths (_get_audio_duration self)
     | Some ds => mret ds
     end) w = (r, w0) ∧ temporaries w w0 (fun _ => False)).
  { destruct durations as [ds|].
    - eexists _, _. split; [reflexivity|apply temporaries_refl].
    - destruct (list_comp _ _ w) as [r w0] eqn:Hprobes.
      apply probes_temporaries in Hprobes as [? _]. by eauto. }
  destruct Hdurations as (r0 & w0 & -> & Ht0). destruct r0 as [ds|e]; [|done].
  unfold try_encode_finally_cleanup.
  destruct (encode_segments self _ [] w0) as [[temps r] w1] eqn:Hencode.
  apply encode_segments_temporaries in Hencode as [Ht1 _].
  unfold try_finally.
  destruct r as [[]|e]; [|unfold raise;
    destruct (cleanup_temporaries temps w1) as (w3 & -> & _); done].
  destruct (concatenate self temps _ w1) as [r2 w2] eqn:Hconcat.
  destruct (cleanup_temporaries temps w2) as (w3 & -> & Ht3 & Hsub & Hgone).
  intros [= -> <-] t Ht%elem_of_temp_files.
  apply concatenate_temporaries in Hconcat as Ht2.
  assert (Hall : temporaries w w3 (fun t => t ∉ fs w3)).
  { eapply temporaries_trans;
      [eapply temporaries_mono; [|exact Ht0]; done|].
    eapply temporaries_trans;
      [eapply temporaries_mono; [|exact Ht1]; intros t' Ht'; by apply Hgone, Ht'|].
    eapply temporaries_trans;
      [eapply temporaries_mono; [|exact Ht2]; intros t' Ht' Hin; by apply Ht', Hsub|].
    eapply temporaries_mono; [|exact Ht3]. done. }
  by apply (temporaries_events w w3 _ t Hall).
Qed.
End cleanup.

Section quiet.
Implicit Types (w : world) (e : event).

Lemma quiet_refl w : quiet w w.
Proof. split; [done|]. by exists []. Qed.

Lemma quiet_trans w1 w2 w3 : quiet w1 w2 → quiet w2 w3 → quiet w1 w3.
Proof.
  intros [Hfs1 (evs1 & Ht1 & Hq1)] [Hfs2 (evs2 & Ht2 & Hq2)].
  split; [congruence|]. exists (evs2 ++ evs1). split.
  - by rewrite Ht2, Ht1, app_assoc.
  - by rewrite List.filter_app, Hq1, Hq2.
Qed.

Lemma quiet_record e w : is_production e = false → quiet w (record_event e w).
Proof.
  intros He. split; [done|]. exists [e]. split; [done|]. simpl. by rewrite He.
Qed.

Lemma quiet_record_r e w w' :
  is_production e = false → quiet w w' → quiet w (record_event e w').
Proof. intros He Hq. eapply quiet_trans; [done|]. by apply quiet_record. Qed.

Lemma quiet_events w w' :
  quiet w w' → List.filter is_production (events_since w w') = [].
Proof.
  intros [_ (evs & Ht & Hq)]. rewrite (events_since_app w w' evs Ht).
  by rewrite List.filter_rev, Hq.
Qed.

Lemma quiet_calls (kind : event → bool) w w' :
  (∀ e, kind e = true → is_production e = true) →
  quiet w w' → calls kind w' = calls kind w.
Proof.
  intros Hkind [_ (evs & Ht & Hq)]. unfold calls. rewrite Ht, List.filter_app.
  rewrite length_app. cut (List.filter kind evs = []); [by intros ->|].
  clear Ht. induction evs as [|e evs IH]; [done|]. simpl in *.
  destruct (is_production e) eqn:He; [done|].
  destruct (kind e) eqn:Hk; [|by apply IH].
  apply Hkind in Hk. congruence.
Qed.
End quiet.

Ltac quiet_steps :=
  repeat first [ apply quiet_refl | apply quiet_record_r; [reflexivity|] ].

Section llm.
Context {env : Environment}.
Import LLMClient.
Implicit Types (self : t) (w : world).

Lemma generate_summary_cases self news w :
  ∃ w', quiet w w' ∧
    calls (is_llm Introduction) w' = calls (is_llm Introduction) w ∧
    generate_summary self news w =
      (match llm_summary (calls (is_llm Summary) w) news with
       | inr summary => Ok summary
       | inl e => Raise e
       end, w').
Proof.
  unfold generate_summary, chat_completion. unfold_monad.
  destruct (llm_summary _ _);
    (eexists; split_and!; [| |reflexivity]; [quiet_steps|reflexivity]).
Qed.

Lemma generate_item_introduction_cases self item w :
  ∃ w', quiet w w' ∧
    calls (is_llm Introduction) w' = S (calls (is_llm Introduction) w) ∧
    generate_item_introduction self item w =
      (match llm_introduction (calls (is_llm Introduction) w) item with
       | inr introduction => Ok introduction
       | inl e => Raise e
       end, w').
Proof.
  unfold generate_item_introduction, chat_completion. unfold_monad.
  destruct (llm_introduction _ _);
    (eexists; split_and!; [| |reflexivity]; [quiet_steps|reflexivity]).
Qed.

Lemma generate_summary_run self news w :
  generate_summary self news w =
    let w1 := record_event (LlmRequest Summary) w in
    match llm_summary (calls (is_llm Summary) w) news with
    | inr summary =>
        (Ok summary,
         record_event (Log INFO "Successfully generated news summary") w1)
    | inl e =>
        (Raise e,
         record_event (Log ERROR ("Error generating summary: " +:+ py_str_exn e)) w1)
    end.
Proof.
  unfold generate_summary, chat_completion. unfold_monad.
  by destruct (llm_summary _ _).
Qed.

Lemma generate_item_introduction_run self item w :
  generate_item_introduction self item w =
    let w1 := record_event (LlmRequest Introduction) w in
    match llm_introduction (calls (is_llm Introduction) w) item with
    | inr introduction =>
        (Ok introduction,
         record_event (Log INFO "Successfully generated news item introduction") w1)
    | inl e =>
        (Raise e,
         record_event
           (Log ERROR ("Error generating item introduction: " +:+ py_str_exn e)) w1)
    end.
Proof.
  unfold generate_item_introduction, chat_completion. unfold_monad.
  by destruct (llm_introduction _ _).
Qed.

End llm.

Section orchestrator.
Context {env : Environment}.
Import AutoVideoGenerator.
Implicit Types (self : t) (w : world).

Lemma introductions_loop self news : ∀ acc w,
  ∃ r w',
    fold_m news (introduction_step self) acc w = (r, w') ∧
    quiet w w' ∧
    ∀ introductions, r = Ok introductions →
      length introductions = length acc + length news ∧
      ∀ k item, news !! k = Some item →
        ∃ s, llm_introduction (calls (is_llm Introduction) w + k) item = inr s.
Proof.
  induction news as [|item news IH]; intros acc w.
  - eexists _, _. split; [reflexivity|]. split; [apply quiet_refl|].
    intros ? [= <-]. split; [simpl; lia|]. by intros ??.
  - simpl. unfold mbind at 1, M_bind at 1, bind. unfold introduction_step at 1.
    unfold mbind at 1, M_bind at 1, bind.
    destruct (generate_item_introduction_cases (llm_client self) item w)
      as (w1 & Hq1 & Hn1 & ->).
    destruct (llm_introduction _ item) as [e|s] eqn:Hs.
    + eexists _, _. split; [reflexivity|]. split; [done|]. by intros.
    + unfold mret at 1, M_ret, ret.
      destruct (IH (acc ++ [s]) w1) as (r & w' & -> & Hq & Hok).
      eexists _, _. split; [reflexivity|]. split; [by eapply quiet_trans|].
      intros intros' ->. destruct (Hok _ eq_refl) as [Hlen Hall].
      split; [rewrite Hlen, length_app; simpl; lia|].
      intros [|k] item'; simpl.
      * intros [= <-]. rewrite Nat.add_0_r. eauto.
      * intros Hk. destruct (Hall _ _ Hk) as [s' Hs'].
        exists s'. rewrite <-Hs', Hn1. f_equal. lia.
Qed.

Lemma logged_app lv evs1 evs2 :
  logged lv (evs1 ++ evs2) = logged lv evs1 ++ logged lv evs2.
Proof. apply omap_app. Qed.

(** The loop up to the first refused introduction, event by event: the
    events it adds are requests and log records, one request per item up
    to the refused one, and a single ERROR record, that of the refusal. *)
Lemma introductions_loop_refused self : ∀ news k introductions w item e,
  news !! k = Some item →
  llm_introduction (calls (is_llm Introduction) w + k) item = inl e →
  (∀ j item', j < k → news !! j = Some item' →
     ∃ s, llm_introduction (calls (is_llm Introduction) w + j) item' = inr s) →
  ∃ w' evs,
    fold_m news (introduction_step self) introductions w = (Raise e, w') ∧
    fs w' = fs w ∧ trace w' = evs ++ trace w ∧
    List.filter is_production evs = [] ∧
    length (List.filter (is_llm Introduction) evs) = S k ∧
    logged ERROR (rev evs)
    = ["Error generating item introduction: " +:+ py_str_exn e].
Proof.
  induction news as [|first news IH]; intros k acc w item e; [done|].
  change (fold_m _ _ acc w) with
    ((acc1 ← introduction_step self acc first;
      fold_m news (introduction_step self) acc1) w).
  unfold mbind at 1, M_bind at 1, bind. unfold introduction_step at 1.
  unfold mbind at 1, M_bind at 1, bind.
  rewrite generate_item_introduction_run. cbv zeta.
  destruct k as [|k]; cbn [lookup list_lookup].
  - intros [= ->]. rewrite Nat.add_0_r. intros -> _.
    eexists _, [Log ERROR _; LlmRequest Introduction].
    split; [reflexivity|]. by split_and!.
  - intros Hk He Hbefore.
    destruct (Hbefore 0 first ltac:(lia) eq_refl) as [s Hs].
    rewrite Nat.add_0_r in Hs. rewrite Hs. unfold mret at 1, M_ret, ret.
    set (w1 := record_event _ (record_event (LlmRequest Introduction) w)).
    assert (Hn1 : calls (is_llm Introduction) w1 = S (calls (is_llm Introduction) w))
      by reflexivity.
    destruct (IH k (acc ++ [s]) w1 item e Hk)
      as (w' & evs & -> & Hfs & Ht & Hq & Hn & Hlog).
    + rewrite Hn1. by replace (S (calls (is_llm Introduction) w) + k)
        with (calls (is_llm Introduction) w + S k) by lia.
    + intros j item' Hj Hitem'. rewrite Hn1.
      replace (S (calls (is_llm Introduction) w) + j)
        with (calls (is_llm Introduction) w + S j) by lia.
      apply Hbefore; [lia|done].
    + exists w', (evs ++ [Log INFO "Successfully generated news item introduction";
                         LlmRequest Introduction]).
      split; [done|]. split; [done|]. split; [by rewrite Ht, <-app_assoc|].
      rewrite !List.filter_app, length_app, rev_app_distr, logged_app, Hq, Hn, Hlog.
      split; [done|]. split; [simpl; lia|done].
Qed.

(** The content stage when the summary is obtained and the introduction
    of item [k] is the first one refused. *)
Lemma content_refused self news w k item e summary :
  llm_summary (calls (is_llm Summary) w) news = inr summary →
  news !! k = Some item →
  llm_introduction (calls (is_llm Introduction) w + k) item = inl e →
  (∀ j item', j < k → news !! j = Some item' →
     ∃ s, llm_introduction (calls (is_llm Introduction) w + j) item' = inr s) →
  ∃ w' evs,
    generate_content self news w = (Raise e, w') ∧
    fs w' = fs w ∧ trace w' = evs ++ trace w ∧
    List.filter is_production evs = [] ∧
    length (List.filter (is_llm Introduction) evs) = S k ∧
    logged ERROR (rev evs)
    = ["Error generating item introduction: " +:+ py_str_exn e].
Proof.
  intros Hsummary Hk He Hbefore. unfold generate_content.
  unfold mbind at 1, M_bind at 1, bind, logger_info at 1, emit.
  unfold mbind at 1, M_bind at 1, bind.
  rewrite generate_summary_run. cbv zeta.
  change (calls (is_llm Summary) (record_event _ w)) with (calls (is_llm Summary) w).
  rewrite Hsummary.
  unfold mbind at 1, M_bind at 1, bind, logger_info at 1, emit.
  unfold mbind at 1, M_bind at 1, bind. unfold generate_introductions.
  match goal with
  | |- context [fold_m news _ [] ?w0] =>
      destruct (introductions_loop_refused self news k [] w0 item e Hk He Hbefore)
        as (w' & evs & -> & Hfs & Ht & Hq & Hn & Hlog)
  end.
  exists w', (evs ++ [Log INFO "Generating item introductions...";
                     Log INFO "Successfully generated news summary";
                     LlmRequest Summary;
                     Log INFO "Generating news summary..."]).
  split; [done|]. split; [done|]. split; [by rewrite Ht, <-app_assoc|].
  rewrite !List.filter_app, length_app, rev_app_distr, logged_app, Hq, Hn, Hlog.
  split; [done|]. split; [simpl; lia|done].
Qed.

(** What is read off a run that is aborted after the events [evs] and
    one last ERROR record. *)
Lemma aborted_run w w' evs evs0 message messages n :
  fs w' = fs w →
  trace w' = evs ++ evs0 ++ trace w →
  List.filter is_production evs = [] →
  List.filter is_production evs0 = [] →
  List.filter (is_llm Introduction) evs0 = [] →
  logged ERROR (rev evs0) = [] →
  length (List.filter (is_llm Introduction) evs) = n →
  logged ERROR (rev evs) = messages →
  let w'' := record_event (Log ERROR message) w' in
  logged ERROR (events_since w w'') = messages ++ [message] ∧
  calls (is_llm Introduction) w'' = calls (is_llm Introduction) w + n ∧
  fs w'' = fs w ∧
  List.filter is_production (events_since w w'') = [].
Proof.
  intros Hfs Ht Hq Hq0 Hn0 Hlog0 Hn Hlog w''.
  assert (Ht'' : trace w'' = (Log ERROR message :: evs ++ evs0) ++ trace w).
  { simpl. by rewrite Ht, <-app_assoc. }
  rewrite (events_since_app w w'' _ Ht''). split_and!.
  - cbn [rev]. rewrite rev_app_distr, !logged_app, Hlog, Hlog0. done.
  - unfold calls. rewrite Ht''. cbn [app List.filter is_llm].
    rewrite !List.filter_app, !length_app, Hn0, Hn. simpl. lia.
  - done.
  - rewrite List.filter_rev. cbn [List.filter is_production].
    by rewrite List.filter_app, Hq, Hq0.
Qed.

(** C4, amended.  When the summary is obtained and the introduction of
    item [k] is the first one the LLM refuses with [e], both
    [generate_from_news_list] and [generate_news_video] raise that same
    [e].  It is logged twice at level ERROR, by the LLM client and then
    by the orchestrator, and nothing else is logged at that level; the
    introductions requested are those of the items up to [k], so none of
    the later ones; no file is written or deleted and nothing is
    rendered, synthesized or encoded. *)
Theorem introduction_failure_aborts self news output_path w k item e summary :
  llm_summary (calls (is_llm Summary) w) news = inr summary →
  news !! k = Some item →
  llm_introduction (calls (is_llm Introduction) w + k) item = inl e →
  (∀ j item', j < k → news !! j = Some item' →
     ∃ s, llm_introduction (calls (is_llm Introduction) w + j) item' = inr s) →
  (∃ w',
     generate_from_news_list self news output_path w = (Raise e, w') ∧
     logged ERROR (events_since w w')
     = ["Error generating item introduction: " +:+ py_str_exn e;
        "Error generating news video from items: " +:+ py_str_exn e] ∧
     calls (is_llm Introduction) w' = calls (is_llm Introduction) w + S k ∧
     fs w' = fs w ∧ List.filter is_production (events_since w w') = []) ∧
  (∀ news_data_fetcher w0 raw_news_data w1,
     news_data_fetcher
       (record_event (Log INFO "Fetching news data...")
          (record_event (Log INFO "Starting news video generation") w0))
       = (Ok raw_news_data, w1) →
     _process_news_data self raw_news_data
       (record_event (Log INFO "Processing news data with LLM...") w1)
       = (Ok news, w) →
     ∃ w',
       generate_news_video self news_data_fetcher output_path w0 = (Raise e, w') ∧
       logged ERROR (events_since w w')
       = ["Error generating item introduction: " +:+ py_str_exn e;
          "Error generating news video: " +:+ py_str_exn e] ∧
       calls (is_llm Introduction) w' = calls (is_llm Introduction) w + S k ∧
       fs w' = fs w ∧ List.filter is_production (events_since w w') = []).
Proof.
  intros Hsummary Hk He Hbefore. split.
  - destruct (content_refused self news
                (record_event
                   (Log INFO "Starting news video generation from pre-formatted items") w)
                k item e summary Hsummary Hk He Hbefore)
      as (w' & evs & Hrun & Hfs & Ht & Hq & Hn & Hlog).
    unfold generate_from_news_list, summary_to_video.
    unfold try_except, mbind, M_bind, bind, logger_info at 1, emit.
    rewrite Hrun. unfold logger_error, emit, raise.
    eexists. split; [reflexivity|].
    by apply (aborted_run w w' evs
                [Log INFO "Starting news video generation from pre-formatted items"]
                _ ["Error generating item introduction: " +:+ py_str_exn e] (S k)).
  - intros fetcher w0 raw w1 Hfetch Hproc.
    destruct (content_refused self news w k item e summary Hsummary Hk He Hbefore)
      as (w' & evs & Hrun & Hfs & Ht & Hq & Hn & Hlog).
    unfold generate_news_video, summary_to_video.
    unfold try_except, mbind, M_bind, bind, logger_info at 1 2 3, emit.
    rewrite Hfetch, Hproc, Hrun. unfold logger_error, emit, raise.
    eexists. split; [reflexivity|].
    by apply (aborted_run w w' evs []
                _ ["Error generating item introduction: " +:+ py_str_exn e] (S k)).
Qed.
End orchestrator.




Section keys.
Import TTSGenerator.

Lemma item_key_inj i j : item_key i = item_key j → i = j.
Proof.
  unfold item_key. intros Heq. apply (inj pretty).
  by apply (inj (String.append "item_")) in Heq.
Qed.

Lemma item_key_not_summary i : item_key i ≠ "summary".
Proof. unfold item_key. intros Heq. simpl in Heq. discriminate. Qed.
End keys.

Section tts.
Context {env : Environment}.
Import TTSGenerator.
Implicit Types (self : t) (w : world).


Lemma generate_audio_cases self text output_path w n :
  next_request self w n →
  ∃ w', next_request self w' (S n) ∧
    _generate_audio self text output_path w =
      (match speech_outcome self n with
       | None => Ok output_path
       | Some e => Raise e
       end, w').
Proof.
  unfold next_request, speech_outcome, supported, _generate_audio.
  unfold _generate_edge_tts_audio, _generate_siliconflow_audio, synthesize.
  intros Hn. unfold_monad.
  destruct (bool_decide (provider self = EDGE_TTS)); simpl in *.
  - rewrite (Hn eq_refl).
    destruct (tts_oracle n); eexists; (split; [|reflexivity]); intros _;
      unfold calls in *; simpl; by rewrite Hn.
  - destruct (bool_decide (provider self = SILICONFLOW)); simpl in *.
    + rewrite (Hn eq_refl).
      destruct (tts_oracle n); eexists; (split; [|reflexivity]); intros _;
        unfold calls in *; simpl; by rewrite Hn.
    + eexists; (split; [|reflexivity]). done.
Qed.

Lemma generate_summary_audio_cases self summary w n :
  next_request self w n →
  ∃ output_path w', next_request self w' (S n) ∧
    generate_summary_audio self summary None w =
      (match speech_outcome self n with
       | None => Ok output_path
       | Some e => Raise e
       end, w').
Proof.
  intros Hn. unfold generate_summary_audio.
  unfold mbind, M_bind, bind. rewrite default_path_run. unfold try_finally, ret.
  destruct (generate_audio_cases self summary
              (chosen_path None "output/audio/summary_" ".mp3" w) w n Hn)
    as (w' & Hn' & ->).
  eexists _, _. split; [done|]. by destruct (speech_outcome self n).
Qed.

Lemma generate_item_audio_cases self text i w n :
  next_request self w n →
  ∃ output_path w', next_request self w' (S n) ∧
    generate_item_audio self text i None w =
      (match speech_outcome self n with
       | None => Ok output_path
       | Some e => Raise e
       end, w').
Proof.
  intros Hn. unfold generate_item_audio.
  unfold mbind, M_bind, bind. rewrite default_path_run. unfold try_finally, ret.
  destruct (generate_audio_cases self text
              (chosen_path None ("output/audio/item_" +:+ pretty i +:+ "_") ".mp3" w)
              w n Hn)
    as (w' & Hn' & ->).
  eexists _, _. split; [done|]. by destruct (speech_outcome self n).
Qed.

Lemma item_audio_step_cases self audio_files i introduction w n :
  next_request self w n →
  ∃ audio_files' w',
    item_audio_step self audio_files (i, introduction) w = (Ok audio_files', w') ∧
    next_request self w' (S n) ∧
    match speech_outcome self n with
    | None => ∃ item_audio, audio_files' = <[item_key i := item_audio]> audio_files
    | Some _ => audio_files' = audio_files
    end.
Proof.
  intros Hn. unfold item_audio_step, try_except.
  unfold mbind at 1, M_bind at 1, bind.
  destruct (generate_item_audio_cases self introduction i w n Hn)
    as (output_path & w' & Hn' & ->).
  destruct (speech_outcome self n); unfold_monad;
    eexists _, _; (split; [reflexivity|]); (split; [|by eauto]).
  all: intros Hs; specialize (Hn' Hs); unfold calls in *; simpl; done.
Qed.

Lemma audio_loop self introductions : ∀ start audio_files w n,
  next_request self w n →
  ∃ audio_files' w',
    fold_m (zip (seq start (length introductions)) introductions)
      (item_audio_step self) audio_files w = (Ok audio_files', w') ∧
    (∀ key, (∀ j, j < length introductions → key ≠ item_key (start + j)) →
            audio_files' !! key = audio_files !! key) ∧
    (∀ j, j < length introductions →
          audio_files' !! item_key (start + j) = None ↔
          audio_files !! item_key (start + j) = None ∧
          is_Some (speech_outcome self (n + j))).
Proof.
  induction introductions as [|introduction l IH]; intros start d w n Hn.
  - eexists _, _. split; [reflexivity|]. split; [done|]. simpl. lia.
  - change (fold_m _ _ d w) with
      ((d1 ← item_audio_step self d (start, introduction);
        fold_m (zip (seq (S start) (length l)) l) (item_audio_step self) d1) w).
    cbn [length]. unfold mbind at 1, M_bind at 1, bind.
    destruct (item_audio_step_cases self d start introduction w n Hn)
      as (d1 & w1 & -> & Hn1 & Hd1).
    destruct (IH (S start) d1 w1 (S n) Hn1) as (d' & w' & -> & Hother & Hkeys).
    eexists _, _. split; [reflexivity|].
    assert (Hstep : ∀ key, key ≠ item_key start → d1 !! key = d !! key).
    { intros key Hkey. destruct (speech_outcome self n); [by subst|].
      destruct Hd1 as [p ->]. by rewrite lookup_insert_ne. }
    split.
    + intros key Hkey. rewrite Hother.
      * apply Hstep. specialize (Hkey 0). rewrite Nat.add_0_r in Hkey.
        apply Hkey. lia.
      * intros j Hj. specialize (Hkey (S j)).
        replace (start + S j) with (S start + j) in Hkey by lia.
        apply Hkey. lia.
    + intros [|j] Hj.
      * rewrite !Nat.add_0_r. rewrite Hother.
        2:{ intros j' _ Heq%item_key_inj. lia. }
        destruct (speech_outcome self n) as [e|]; [subst d1|destruct Hd1 as [p ->]].
        -- split; [by eauto|by intros [? _]].
        -- rewrite lookup_insert_eq. split; [done|]. by intros [_ [? ?]].
      * replace (start + S j) with (S start + j) by lia.
        replace (n + S j) with (S n + j) by lia.
        rewrite Hkeys by lia. rewrite Hstep; [done|].
        intros Heq%item_key_inj. lia.
Qed.
End tts.

Section lookups.
Context {env : Environment}.
Import AutoVideoGenerator.
Implicit Types (w : world) (audio_files : gmap string string).

Lemma dict_get_absent audio_files key w :
  audio_files !! key = None → dict_get audio_files key w = (Raise (KeyError key), w).
Proof. unfold dict_get. by intros ->. Qed.

Lemma lookups_cons audio_files (f : nat → string) i (l : list nat) w :
  list_comp (i :: l) (fun i => dict_get audio_files (f i)) w =
    match audio_files !! f i with
    | Some v =>
        match list_comp l (fun i => dict_get audio_files (f i)) w with
        | (Ok values, w1) => (Ok (v :: values), w1)
        | (Raise e, w1) => (Raise e, w1)
        end
    | None => (Raise (KeyError (f i)), w)
    end.
Proof.
  simpl. unfold mbind, M_bind, bind, dict_get at 1.
  destruct (audio_files !! f i); [|done]. unfold mret, M_ret, ret.
  by destruct (list_comp l _ w) as [[?|?] ?].
Qed.

Lemma lookups_cases audio_files (f : nat → string) (l : list nat) w :
  (∃ values, list_comp l (fun i => dict_get audio_files (f i)) w = (Ok values, w) ∧
             length values = length l ∧
             ∀ i, i ∈ l → is_Some (audio_files !! f i)) ∨
  (∃ i, i ∈ l ∧ audio_files !! f i = None ∧
        list_comp l (fun i => dict_get audio_files (f i)) w = (Raise (KeyError (f i)), w)).
Proof.
  induction l as [|i l IH].
  - left. exists []. split_and!; [reflexivity..|]. by intros i ?%elem_of_nil.
  - rewrite lookups_cons. destruct (audio_files !! f i) as [v|] eqn:Hv.
    + destruct IH as [(values & -> & Hlen & Hall)|(j & Hj & Hnone & Hrun)].
      * left. exists (v :: values). split_and!; [done|simpl; lia|].
        intros j [->|Hj]%elem_of_cons; [by rewrite Hv|by apply Hall].
      * right. exists j. rewrite Hrun. split_and!; [|done..].
        by apply elem_of_cons; right.
    + right. exists i. split_and!; [|done..]. by apply elem_of_cons; left.
Qed.

Lemma audio_arguments_cases audio_files n w :
  (∃ overview_audio news_audios,
      audio_arguments audio_files n w = (Ok (overview_audio, news_audios), w) ∧
      length news_audios = n ∧
      ∀ key, key ∈ audio_keys n → is_Some (audio_files !! key)) ∨
  (∃ key, key ∈ audio_keys n ∧ audio_files !! key = None ∧
          audio_arguments audio_files n w = (Raise (KeyError key), w)).
Proof.
  assert (Hrun : audio_arguments audio_files n w =
    match audio_files !! "summary" with
    | Some v =>
        match list_comp (seq 0 n)
                (fun i => dict_get audio_files (TTSGenerator.item_key (i + 1))) w with
        | (Ok values, w1) => (Ok (v, values), w1)
        | (Raise e, w1) => (Raise e, w1)
        end
    | None => (Raise (KeyError "summary"), w)
    end).
  { unfold audio_arguments, mbind, M_bind, bind, dict_get at 1.
    destruct (audio_files !! "summary"); [|done]. unfold mret, M_ret, ret.
    by destruct (list_comp _ _ w) as [[?|?] ?]. }
  rewrite Hrun. unfold audio_keys.
  destruct (audio_files !! "summary") as [v|] eqn:Hv.
  - destruct (lookups_cases audio_files (fun i => TTSGenerator.item_key (i + 1))
                (seq 0 n) w) as [(values & -> & Hlen & Hall)|(j & Hj & Hnone & ->)].
    + left. exists v, values. split_and!; [done|by rewrite Hlen, length_seq|].
      intros key [->|(i & -> & Hi)%list_elem_of_fmap]%elem_of_cons;
        [by rewrite Hv|by apply Hall].
    + right. eexists. split_and!; [|done..].
      apply elem_of_cons; right. apply list_elem_of_fmap. eauto.
  - right. exists "summary". split_and!; [|done..]. by apply elem_of_cons; left.
Qed.
End lookups.

Section all_audio.
Context {env : Environment}.
Import TTSGenerator AutoVideoGenerator.
Implicit Types (self : TTSGenerator.t) (w : world).

Lemma summary_audio_step_cases self summary w n :
  next_request self w n →
  ∃ audio_files w',
    summary_audio_step self summary w = (Ok audio_files, w') ∧
    next_request self w' (S n) ∧
    (audio_files !! "summary" = None ↔ is_Some (speech_outcome self n)) ∧
    ∀ i, audio_files !! item_key i = None.
Proof.
  intros Hn. unfold summary_audio_step, try_except.
  unfold mbind at 1, M_bind at 1, bind.
  destruct (generate_summary_audio_cases self summary w n Hn)
    as (output_path & w' & Hn' & ->).
  destruct (speech_outcome self n); unfold_monad;
    eexists _, _; (split; [reflexivity|]); split_and!.
  all: try (intros Hs; specialize (Hn' Hs); unfold calls in *; simpl; done).
  - by eauto.
  - done.
  - rewrite lookup_insert_eq. split; [done|]. by intros [? ?].
  - intros i. rewrite lookup_insert_ne; [done|].
    intros Heq. by apply (item_key_not_summary i).
Qed.

Lemma generate_all_audio_cases self summary news_items introductions w :
  ∃ audio_files w',
    generate_all_audio self summary news_items introductions w
      = (Ok audio_files, w') ∧
    (audio_files !! "summary" = None ↔
       is_Some (speech_outcome self (calls is_speech w))) ∧
    (∀ i, 1 ≤ i ≤ length introductions →
       audio_files !! item_key i = None ↔
       is_Some (speech_outcome self (calls is_speech w + i))).
Proof.
  unfold generate_all_audio, enumerate. unfold mbind at 1, M_bind at 1, bind.
  destruct (summary_audio_step_cases self summary w (calls is_speech w))
    as (d0 & w0 & -> & Hn0 & Hsummary & Hitems); [done|].
  destruct (audio_loop self introductions 1 d0 w0 (S (calls is_speech w)) Hn0)
    as (d & w' & -> & Hother & Hkeys).
  exists d, w'. split_and!; [done| |].
  - rewrite Hother; [done|]. intros j _ Heq. by apply (item_key_not_summary (1 + j)).
  - intros i [Hi1 Hi2].
    specialize (Hkeys (i - 1)). replace (1 + (i - 1)) with i in Hkeys by lia.
    replace (S (calls is_speech w) + (i - 1)) with (calls is_speech w + i) in Hkeys
      by lia.
    rewrite Hkeys by lia. split; [by intros [_ ?]|]. by split.
Qed.

(** C10.  [generate_all_audio] always returns a dict.  The key "summary"
    is absent exactly when the synthesis of the summary failed and the
    key item_i exactly when the synthesis of the i-th introduction
    failed.  A lookup of an absent key raises KeyError; the lookups of the
    orchestrator succeed when every key is present and otherwise raise
    KeyError on an absent key. *)
Theorem generate_all_audio_never_raises self summary news_items introductions w :
  ∃ audio_files w',
    generate_all_audio self summary news_items introductions w
      = (Ok audio_files, w') ∧
    (audio_files !! "summary" = None ↔
       is_Some (speech_outcome self (calls is_speech w))) ∧
    (∀ i, 1 ≤ i ≤ length introductions →
       audio_files !! item_key i = None ↔
       is_Some (speech_outcome self (calls is_speech w + i))) ∧
    (∀ key w1, audio_files !! key = None →
       dict_get audio_files key w1 = (Raise (KeyError key), w1)) ∧
    (∀ n w1,
       (∃ overview_audio news_audios,
          audio_arguments audio_files n w1 = (Ok (overview_audio, news_audios), w1) ∧
          ∀ key, key ∈ audio_keys n → is_Some (audio_files !! key)) ∨
       (∃ key, key ∈ audio_keys n ∧ audio_files !! key = None ∧
          audio_arguments audio_files n w1 = (Raise (KeyError key), w1))).
Proof.
  destruct (generate_all_audio_cases self summary news_items introductions w)
    as (d & w' & Hrun & Hsummary & Hitems).
  exists d, w'. split_and!; [done..| |].
  - intros key w1. apply dict_get_absent.
  - intros n w1.
    destruct (audio_arguments_cases d n w1) as [(oa & na & Hargs & _ & Hall)|Hfail];
      [left; by eauto|by right].
Qed.
End all_audio.



Section images.
Context {env : Environment}.
Import HTMLToImageConverter.
Implicit Types (self : t) (w : world).

Lemma render_to_image self template output_path w :
  ∃ w', calls is_render w' = S (calls is_render w) ∧
    (_generate_html_content self template output_path;;
     _html_to_image self output_path) w =
      (match render_oracle (calls is_render w) with
       | Rendered => Ok output_path
       | TemplateFailed e | ScreenshotFailed e => Raise e
       end, w').
Proof.
  unfold _generate_html_content, _html_to_image. unfold_monad.
  destruct (render_oracle (calls is_render w)) eqn:Hr; cbv beta iota zeta;
    change (Init.Nat.pred (calls is_render (record_event (RenderRequest output_path) w)))
      with (calls is_render w);
    rewrite ?Hr; (eexists; split; [|reflexivity]); done.
Qed.

Lemma generate_news_item_image_cases self item i total w :
  ∃ output_path w', calls is_render w' = S (calls is_render w) ∧
    generate_news_item_image self item i total None w =
      (if rendered (calls is_render w) then Ok output_path
       else match render_oracle (calls is_render w) with
            | TemplateFailed e | ScreenshotFailed e => Raise e
            | Rendered => Ok output_path
            end, w').
Proof.
  unfold generate_news_item_image. unfold mbind at 1, M_bind at 1, bind.
  rewrite default_path_run.
  destruct (render_to_image self "news_item.html"
              (chosen_path None ("output/images/news_item_" +:+ pretty i +:+ "_")
                 ".jpg" w) w) as (w' & Hn & ->).
  eexists _, _. split; [done|]. unfold rendered. by destruct (render_oracle _).
Qed.

Lemma generate_overview_image_calls self summary news_count w r w' :
  generate_overview_image self summary news_count None w = (r, w') →
  calls is_render w' = S (calls is_render w).
Proof.
  unfold generate_overview_image. unfold mbind at 1, M_bind at 1, bind.
  rewrite default_path_run.
  destruct (render_to_image self "overview.html"
              (chosen_path None "output/images/overview_" ".jpg" w) w)
    as (w1 & Hn & ->).
  by intros [= _ <-].
Qed.

Lemma news_image_step_cases self total image_paths i item w :
  ∃ image_paths' w',
    news_image_step self total image_paths (i, item) w = (Ok image_paths', w') ∧
    calls is_render w' = S (calls is_render w) ∧
    length image_paths' =
      length image_paths + (if rendered (calls is_render w) then 1 else 0).
Proof.
  unfold news_image_step, try_except. unfold mbind at 1, M_bind at 1, bind.
  destruct (generate_news_item_image_cases self item i total w)
    as (output_path & w' & Hn & ->).
  unfold rendered. destruct (render_oracle _); unfold_monad;
    eexists _, _; (split; [reflexivity|]); (split; [done|]).
  - rewrite length_app. simpl. lia.
  - lia.
  - lia.
Qed.

Lemma images_loop self total news : ∀ start image_paths w,
  ∃ image_paths' w',
    fold_m (zip (seq start (length news)) news) (news_image_step self total)
      image_paths w = (Ok image_paths', w') ∧
    length image_paths' ≤ length image_paths + length news ∧
    (∀ k, k < length news → rendered (calls is_render w + k) = false →
          length image_paths' < length image_paths + length news) ∧
    ((∀ k, k < length news → rendered (calls is_render w + k) = true) →
     length image_paths' = length image_paths + length news).
Proof.
  induction news as [|item news IH]; intros start acc w.
  - eexists _, _. split; [reflexivity|]. simpl.
    split_and!; [lia|intros; lia|intros; lia].
  - change (fold_m _ _ acc w) with
      ((acc1 ← news_image_step self total acc (start, item);
        fold_m (zip (seq (S start) (length news)) news)
          (news_image_step self total) acc1) w).
    cbn [length]. unfold mbind at 1, M_bind at 1, bind.
    destruct (news_image_step_cases self total acc start item w)
      as (acc1 & w1 & -> & Hn1 & Hlen1).
    destruct (IH (S start) acc1 w1) as (acc' & w' & -> & Hle & Hlt & Heq).
    eexists _, _. split; [reflexivity|].
    assert (length acc1 ≤ length acc + 1) by (destruct (rendered _); lia).
    split_and!; [lia| |].
    + intros [|k] Hk Hfail.
      * rewrite Nat.add_0_r in Hfail. rewrite Hfail in Hlen1. lia.
      * rewrite Hn1 in Hlt. specialize (Hlt k).
        replace (S (calls is_render w) + k) with (calls is_render w + S k) in Hlt
          by lia.
        specialize (Hlt ltac:(lia) Hfail). lia.
    + intros Hall. rewrite Heq.
      * specialize (Hall 0 ltac:(lia)). rewrite Nat.add_0_r in Hall.
        rewrite Hall in Hlen1. lia.
      * intros k Hk. rewrite Hn1.
        replace (S (calls is_render w) + k) with (calls is_render w + S k) by lia.
        apply Hall. lia.
Qed.

Lemma generate_all_news_images_cases self news w :
  ∃ news_images w',
    generate_all_news_images self news w = (Ok news_images, w') ∧
    length news_images ≤ length news ∧
    (∀ k, k < length news → rendered (calls is_render w + k) = false →
          length news_images < length news) ∧
    ((∀ k, k < length news → rendered (calls is_render w + k) = true) →
     length news_images = length news).
Proof.
  unfold generate_all_news_images, enumerate.
  destruct (images_loop self (length news) news 1 [] w)
    as (imgs & w' & -> & ? & ? & ?).
  by eauto 10.
Qed.
End images.

Section alignment.
Context {env : Environment}.
Import AutoVideoGenerator.
Implicit Types (self : t) (w : world).

Lemma is_render_production e : is_render e = true → is_production e = true.
Proof. by destruct e. Qed.

Lemma generate_content_lengths self news w overview_image overview_audio
    news_images news_audios w' :
  generate_content self news w
    = (Ok (overview_image, overview_audio, news_images, news_audios), w') →
  length news_audios = length news ∧
  (∀ k, k < length news → rendered (calls is_render w + 1 + k) = false →
        length news_images < length news) ∧
  ((∀ k, k < length news → rendered (calls is_render w + 1 + k) = true) →
   length news_images = length news).
Proof.
  unfold generate_content.
  unfold mbind at 1, M_bind at 1, bind, logger_info at 1, emit.
  unfold mbind at 1, M_bind at 1, bind.
  destruct (generate_summary_cases (llm_client self) news
              (record_event (Log INFO "Generating news summary...") w))
    as (w1 & Hq1 & _ & ->).
  apply (quiet_calls is_render _ _ is_render_production) in Hq1.
  destruct (llm_summary _ news) as [e1|summary]; [done|].
  unfold mbind at 1, M_bind at 1, bind, logger_info at 1, emit.
  unfold mbind at 1, M_bind at 1, bind. unfold generate_introductions.
  destruct (introductions_loop self news []
              (record_event (Log INFO "Generating item introductions...") w1))
    as (r & w2 & -> & Hq2 & _).
  apply (quiet_calls is_render _ _ is_render_production) in Hq2.
  destruct r as [introductions|e2]; [|done].
  unfold mbind at 1, M_bind at 1, bind, logger_info at 1, emit.
  unfold mbind at 1, M_bind at 1, bind.
  destruct (HTMLToImageConverter.generate_overview_image _ _ _ _ _)
    as [[overview|e3] w3] eqn:Hoverview; [|done].
  apply generate_overview_image_calls in Hoverview.
  unfold mbind at 1, M_bind at 1, bind.
  destruct (generate_all_news_images_cases (html_converter self) news w3)
    as (images & w4 & -> & _ & Hlt & Heq).
  unfold mbind at 1, M_bind at 1, bind, logger_info at 1, emit.
  unfold mbind at 1, M_bind at 1, bind.
  destruct (generate_all_audio_cases (tts_generator self) summary news introductions
              (record_event (Log INFO "Generating audio...") w4))
    as (audio_files & w5 & -> & _ & _).
  unfold mbind at 1, M_bind at 1, bind, logger_info at 1, emit.
  unfold mbind at 1, M_bind at 1, bind.
  destruct (audio_arguments_cases audio_files (length news)
              (record_event (Log INFO "Generating final video...") w5))
    as [(oa & na & -> & Hlen & _)|(key & _ & _ & ->)]; [|done].
  unfold mret, M_ret, ret. intros [= <- <- <- <- <-].
  assert (Hindex : ∀ k, calls is_render w3 + k = calls is_render w + 1 + k).
  { intros k. rewrite Hoverview.
    assert (Hw2 : calls is_render w2 = calls is_render w).
    { transitivity (calls is_render w1); [exact Hq2|exact Hq1]. }
    change (S (calls is_render w2) + k = calls is_render w + 1 + k).
    rewrite Hw2. lia. }
  split_and!; [done| |].
  - intros k Hk Hfail. apply (Hlt k Hk). by rewrite Hindex.
  - intros Hall. apply Heq. intros k Hk. rewrite Hindex. by apply Hall.
Qed.

(** C1, what the code does when an image fails.  The audio list passed to
    assembly has one entry per news item, while the image list misses the
    item whose rendering failed: the lists differ in length. *)
Theorem image_failure_misaligns self news w overview_image overview_audio
    news_images news_audios w' k :
  generate_content self news w
    = (Ok (overview_image, overview_audio, news_images, news_audios), w') →
  k < length news →
  render_oracle (calls is_render w + 1 + k) ≠ Rendered →
  length news_audios = length news ∧ length news_images < length news_audios.
Proof.
  intros Hrun Hk Hfail.
  destruct (generate_content_lengths _ _ _ _ _ _ _ _ Hrun) as (Hlen & Hlt & _).
  split; [done|]. rewrite Hlen. apply (Hlt k Hk).
  unfold rendered. by destruct (render_oracle _).
Qed.

(** X2.  When every image of a run that reaches assembly was rendered, the
    image list and the audio list passed to assembly both have one entry
    per news item. *)
Theorem lists_aligned_when_images_render self news w overview_image overview_audio
    news_images news_audios w' :
  generate_content self news w
    = (Ok (overview_image, overview_audio, news_images, news_audios), w') →
  (∀ k, k < length news → render_oracle (calls is_render w + 1 + k) = Rendered) →
  length news_images = length news ∧ length news_audios = length news.
Proof.
  intros Hrun Hall.
  destruct (generate_content_lengths _ _ _ _ _ _ _ _ Hrun) as (Hlen & _ & Heq).
  split; [|done]. apply Heq. intros k Hk. unfold rendered. by rewrite (Hall k Hk).
Qed.
End alignment.

(** ** Runs that only add events of some kinds *)

Section adds.
Implicit Types (w : world) (e : event) (allowed kind : event → bool).

Lemma adds_refl allowed w : adds allowed w w.
Proof. exists []. by split. Qed.

Lemma adds_trans allowed w1 w2 w3 :
  adds allowed w1 w2 → adds allowed w2 w3 → adds allowed w1 w3.
Proof.
  intros (evs1 & Ht1 & H1) (evs2 & Ht2 & H2). exists (evs2 ++ evs1). split.
  - by rewrite Ht2, Ht1, app_assoc.
  - by apply Forall_app.
Qed.

Lemma adds_mono allowed allowed' w w' :
  (∀ e, allowed e = true → allowed' e = true) →
  adds allowed w w' → adds allowed' w w'.
Proof.
  intros Hsub (evs & Ht & Hall). exists evs. split; [done|].
  revert Hall. apply List.Forall_impl. auto.
Qed.

Lemma adds_record_r allowed e w w' :
  allowed e = true → adds allowed w w' → adds allowed w (record_event e w').
Proof.
  intros He (evs & Ht & Hall). exists (e :: evs). split.
  - simpl. by rewrite Ht.
  - by constructor.
Qed.

Lemma adds_calls allowed kind w w' :
  (∀ e, allowed e = true → kind e = false) →
  adds allowed w w' → calls kind w' = calls kind w.
Proof.
  intros Hdisjoint (evs & Ht & Hall). unfold calls. rewrite Ht.
  rewrite List.filter_app, length_app.
  assert (Hnil : List.filter kind evs = []); [|by rewrite Hnil].
  clear Ht. induction Hall as [|e evs He _ IH]; [done|].
  simpl. by rewrite (Hdisjoint e He).
Qed.

Lemma adds_events allowed w w' e :
  adds allowed w w' → e ∈ events_since w w' → allowed e = true.
Proof.
  intros (evs & Ht & Hall). rewrite (events_since_app _ _ _ Ht).
  rewrite list_elem_of_In, <-in_rev, <-list_elem_of_In.
  intros He. by apply (proj1 (list.Forall_forall _ _) Hall).
Qed.

Lemma adds_spawned allowed w w' :
  (∀ cmd, allowed (Spawn cmd) = false) →
  adds allowed w w' → spawned (events_since w w') = [].
Proof.
  intros Hnone Hc.
  destruct (spawned (events_since w w')) as [|cmd l] eqn:Hs; [done|].
  assert (Hin : cmd ∈ spawned (events_since w w')) by (rewrite Hs; by left).
  unfold spawned in Hin. apply list_elem_of_omap in Hin as (e & He & Hcmd).
  destruct e; try done. injection Hcmd as ->.
  apply (adds_events _ _ _ _ Hc) in He. by rewrite Hnone in He.
Qed.

Lemma adds_temp_files allowed w w' :
  (∀ name, allowed (TempFile name) = false) →
  adds allowed w w' → temp_files (events_since w w') = [].
Proof.
  intros Hnone Hc.
  destruct (temp_files (events_since w w')) as [|name l] eqn:Hs; [done|].
  assert (Hin : name ∈ temp_files (events_since w w')) by (rewrite Hs; by left).
  unfold temp_files in Hin. apply list_elem_of_omap in Hin as (e & He & Hname).
  destruct e; try done. injection Hname as ->.
  apply (adds_events _ _ _ _ Hc) in He. by rewrite Hnone in He.
Qed.
End adds.

Section continues.
Implicit Types (w : world) (e : event) (allowed kind : event → bool).

Lemma continues_refl allowed w : continues allowed w w.
Proof. split; [done|apply adds_refl]. Qed.

Lemma continues_trans allowed w1 w2 w3 :
  continues allowed w1 w2 → continues allowed w2 w3 → continues allowed w1 w3.
Proof.
  intros [Hfs1 H1] [Hfs2 H2]. split; [by etrans|by eapply adds_trans].
Qed.

Lemma continues_mono allowed allowed' w w' :
  (∀ e, allowed e = true → allowed' e = true) →
  continues allowed w w' → continues allowed' w w'.
Proof. intros Hsub [Hfs Hadds]. split; [done|by eapply adds_mono]. Qed.

Lemma continues_record_r allowed e w w' :
  allowed e = true → continues allowed w w' → continues allowed w (record_event e w').
Proof. intros He [Hfs Hadds]. split; [done|by apply adds_record_r]. Qed.

Lemma continues_create allowed p w w' :
  continues allowed w w' → continues allowed w (create_file p w').
Proof.
  intros [Hfs Hevs]. split; [|done]. simpl.
  intros x Hx. apply elem_of_union_r. by apply Hfs.
Qed.

Lemma quiet_continues allowed w w' :
  (∀ e, is_production e = false → allowed e = true) →
  quiet w w' → continues allowed w w'.
Proof.
  intros Hsub [Hfs (evs & Ht & Hnone)]. split; [by rewrite Hfs|].
  exists evs. split; [done|]. apply List.Forall_forall. intros e He. apply Hsub.
  destruct (is_production e) eqn:Hp; [|done].
  assert (Hin : In e (List.filter is_production evs)) by (by apply filter_In).
  rewrite Hnone in Hin. destruct Hin.
Qed.

Lemma continues_calls allowed kind w w' :
  (∀ e, allowed e = true → kind e = false) →
  continues allowed w w' → calls kind w' = calls kind w.
Proof. intros Hdisjoint [_ Hadds]. by eapply adds_calls. Qed.

Lemma continues_spawned allowed w w' :
  (∀ cmd, allowed (Spawn cmd) = false) →
  continues allowed w w' → spawned (events_since w w') = [].
Proof. intros Hnone [_ Hadds]. by eapply adds_spawned. Qed.

Lemma continues_temp_files allowed w w' :
  (∀ name, allowed (TempFile name) = false) →
  continues allowed w w' → temp_files (events_since w w') = [].
Proof. intros Hnone [_ Hadds]. by eapply adds_temp_files. Qed.

Lemma continues_exists allowed w w' p : continues allowed w w' → p ∈ fs w → p ∈ fs w'.
Proof. intros [Hfs _]. apply Hfs. Qed.
End continues.

Ltac continues_steps :=
  repeat first
    [ apply continues_refl
    | apply continues_record_r; [reflexivity|]
    | apply continues_create ].

(** ** What rendering leaves behind *)

Section images_effects.
Context {env : Environment}.
Import HTMLToImageConverter.
Implicit Types (self : t) (w : world).

Lemma render_to_image_effects self template output_path w r w' :
  (_generate_html_content self template output_path;;
   _html_to_image self output_path) w = (r, w') →
  continues render_or_log w w' ∧ ∀ p, r = Ok p → p = output_path ∧ p ∈ fs w'.
Proof.
  unfold _generate_html_content, _html_to_image. unfold_monad. unfold emit.
  destruct (render_oracle (calls is_render w)) eqn:Hr; cbv beta iota zeta;
    change (Init.Nat.pred (calls is_render (record_event (RenderRequest output_path) w)))
      with (calls is_render w);
    rewrite ?Hr; intros [= <- <-]; (split; [continues_steps|]); intros p [= <-].
  split; [done|]. simpl. apply elem_of_union_l. by apply elem_of_singleton.
Qed.

Lemma generate_news_item_image_effects self item i total w r w' :
  generate_news_item_image self item i total None w = (r, w') →
  continues render_or_log w w' ∧
  ∀ p, r = Ok p → (∃ stamp, p = item_image_path i stamp) ∧ p ∈ fs w'.
Proof.
  unfold generate_news_item_image. unfold mbind at 1, M_bind at 1, bind.
  rewrite default_path_run. intros Hrun.
  apply render_to_image_effects in Hrun as [Hc Hfile]. split; [done|].
  intros p Hp. destruct (Hfile p Hp) as [-> Hexists]. split; [|done].
  by eexists.
Qed.

Lemma generate_overview_image_effects self summary news_count w r w' :
  generate_overview_image self summary news_count None w = (r, w') →
  continues render_or_log w w' ∧ ∀ p, r = Ok p → p ∈ fs w'.
Proof.
  unfold generate_overview_image. unfold mbind at 1, M_bind at 1, bind.
  rewrite default_path_run. intros Hrun.
  apply render_to_image_effects in Hrun as [Hc Hfile]. split; [done|].
  intros p Hp. by destruct (Hfile p Hp).
Qed.

Lemma news_image_step_effects self total image_paths i item w :
  ∃ new w',
    news_image_step self total image_paths (i, item) w
      = (Ok (image_paths ++ new), w') ∧
    continues render_or_log w w' ∧
    calls is_render w' = S (calls is_render w) ∧
    Forall (fun p => p ∈ fs w') new ∧
    Forall2 (fun j p => ∃ stamp, p = item_image_path j stamp)
      (if rendered (calls is_render w) then [i] else []) new.
Proof.
  unfold news_image_step, try_except. unfold mbind at 1, M_bind at 1, bind.
  destruct (generate_news_item_image_cases self item i total w)
    as (output_path & w1 & Hn & Himage).
  destruct (generate_news_item_image_effects _ _ _ _ _ _ _ Himage) as [Hc Hfile].
  rewrite Himage. unfold rendered in *.
  destruct (render_oracle (calls is_render w)); unfold_monad; unfold emit.
  - exists [output_path]. eexists. split; [reflexivity|].
    split; [by apply continues_record_r|]. split; [done|].
    destruct (Hfile _ eq_refl) as [Hname Hexists].
    split; by repeat constructor.
  - exists []. eexists. rewrite app_nil_r. split; [reflexivity|].
    split; [by apply continues_record_r|]. split; [done|]. by split; constructor.
  - exists []. eexists. rewrite app_nil_r. split; [reflexivity|].
    split; [by apply continues_record_r|]. split; [done|]. by split; constructor.
Qed.

Lemma images_loop_effects self total first news : ∀ start position image_paths w,
  calls is_render w = first + position →
  ∃ new w',
    fold_m (zip (seq start (length news)) news) (news_image_step self total)
      image_paths w = (Ok (image_paths ++ new), w') ∧
    continues render_or_log w w' ∧
    calls is_render w' = calls is_render w + length news ∧
    Forall (fun p => p ∈ fs w') new ∧
    length new =
      length (List.filter (fun k => rendered (first + k))
                (seq position (length news))).
Proof.
  induction news as [|item news IH]; intros start position acc w Hw.
  - exists [], w. rewrite app_nil_r. split; [reflexivity|].
    split; [apply continues_refl|]. split; [simpl; lia|]. by split.
  - change (fold_m _ _ acc w) with
      ((acc1 ← news_image_step self total acc (start, item);
        fold_m (zip (seq (S start) (length news)) news)
          (news_image_step self total) acc1) w).
    cbn [length]. unfold mbind at 1, M_bind at 1, bind.
    destruct (news_image_step_effects self total acc start item w)
      as (new1 & w1 & -> & Hc1 & Hn1 & Hfiles1 & Hlen1).
    apply Forall2_length in Hlen1. symmetry in Hlen1.
    assert (Hlen1' : length new1 = if rendered (calls is_render w) then 1 else 0)
      by (by destruct (rendered _)).
    clear Hlen1. rename Hlen1' into Hlen1.
    destruct (IH (S start) (S position) (acc ++ new1) w1)
      as (new & w' & -> & Hc & Hn & Hfiles & Hlen); [rewrite Hn1, Hw; lia|].
    exists (new1 ++ new), w'. rewrite app_assoc. split; [reflexivity|].
    split; [by eapply continues_trans|]. split; [lia|]. split.
    + apply Forall_app. split; [|done].
      revert Hfiles1. apply List.Forall_impl. intros p.
      by apply (continues_exists render_or_log).
    + rewrite length_app, Hlen1, Hlen, Hw. simpl.
      destruct (rendered (first + position)); simpl; lia.
Qed.

Lemma images_loop_items self total first news : ∀ start image_paths w,
  calls is_render w = first + start →
  ∃ new w',
    fold_m (zip (seq start (length news)) news) (news_image_step self total)
      image_paths w = (Ok (image_paths ++ new), w') ∧
    Forall2 (fun i p => ∃ stamp, p = item_image_path i stamp)
      (List.filter (fun i => rendered (first + i)) (seq start (length news))) new.
Proof.
  induction news as [|item news IH]; intros start acc w Hw.
  - exists [], w. rewrite app_nil_r. split; [reflexivity|]. constructor.
  - change (fold_m _ _ acc w) with
      ((acc1 ← news_image_step self total acc (start, item);
        fold_m (zip (seq (S start) (length news)) news)
          (news_image_step self total) acc1) w).
    cbn [length]. unfold mbind at 1, M_bind at 1, bind.
    destruct (news_image_step_effects self total acc start item w)
      as (new1 & w1 & -> & _ & Hn1 & _ & Hnames1).
    destruct (IH (S start) (acc ++ new1) w1) as (new & w' & -> & Hnames);
      [rewrite Hn1, Hw; lia|].
    exists (new1 ++ new), w'. rewrite app_assoc. split; [reflexivity|].
    cbn [seq List.filter]. rewrite <-Hw.
    destruct (rendered (calls is_render w)).
    + inversion Hnames1 as [|? p ? rest Hp Hrest]; subst.
      inversion Hrest; subst. simpl. by constructor.
    + inversion Hnames1; subst. done.
Qed.

Lemma generate_all_news_images_items self news_items first w :
  calls is_render w = first + 1 →
  ∃ image_paths w',
    generate_all_news_images self news_items w = (Ok image_paths, w') ∧
    Forall2 (fun i p => ∃ stamp, p = item_image_path i stamp)
      (List.filter (fun i => rendered (first + i)) (seq 1 (length news_items)))
      image_paths.
Proof.
  intros Hw. unfold generate_all_news_images, enumerate.
  destruct (images_loop_items self (length news_items) first news_items 1 [] w Hw)
    as (new & w' & Hrun & Hnames).
  by exists new, w'.
Qed.

Lemma generate_all_news_images_effects self news_items w :
  ∃ image_paths w',
    generate_all_news_images self news_items w = (Ok image_paths, w') ∧
    continues render_or_log w w' ∧
    calls is_render w' = calls is_render w + length news_items ∧
    Forall (fun p => p ∈ fs w') image_paths ∧
    length image_paths =
      length (List.filter (fun k => rendered (calls is_render w + k))
                (seq 0 (length news_items))).
Proof.
  unfold generate_all_news_images, enumerate.
  destruct (images_loop_effects self (length news_items) (calls is_render w)
              news_items 1 0 [] w) as (new & w' & Hrun & Hc & Hn & Hfiles & Hlen);
    [lia|].
  by exists new, w'.
Qed.

(** X4.  [generate_all_news_images] never raises and sends exactly one
    rendering request per news item, whatever the outcome of the earlier
    ones.  The list it returns has one path per rendering that succeeded,
    and each of these images exists on disk when the call returns; no file
    is deleted and no process is started. *)
Theorem one_render_request_per_item self news_items w :
  ∃ image_paths w',
    generate_all_news_images self news_items w = (Ok image_paths, w') ∧
    calls is_render w' = calls is_render w + length news_items ∧
    length image_paths =
      length (List.filter (fun k => rendered (calls is_render w + k))
                (seq 0 (length news_items))) ∧
    Forall (fun p => p ∈ fs w') image_paths ∧
    fs w ⊆ fs w' ∧
    spawned (events_since w w') = [].
Proof.
  destruct (generate_all_news_images_effects self news_items w)
    as (image_paths & w' & Hrun & Hc & Hn & Hfiles & Hlen).
  exists image_paths, w'. split; [exact Hrun|]. split; [done|]. split; [done|].
  split; [done|]. split; [by destruct Hc|].
  by apply (continues_spawned render_or_log).
Qed.
End images_effects.

(** ** What synthesis leaves behind *)

Section audio_effects.
Context {env : Environment}.
Import TTSGenerator.
Implicit Types (self : t) (w : world) (audio_files : gmap string string).

Lemma generate_audio_effects self text output_path w r w' :
  _generate_audio self text output_path w = (r, w') →
  continues speech_or_log w w' ∧
  calls is_speech w' = calls is_speech w + (if supported self then 1 else 0) ∧
  (supported self = false → fs w' = fs w ∧ is_Raise r) ∧
  ∀ p, r = Ok p → p = output_path ∧ p ∈ fs w'.
Proof.
  unfold supported, _generate_audio.
  unfold _generate_edge_tts_audio, _generate_siliconflow_audio, synthesize.
  unfold_monad. unfold emit.
  destruct (bool_decide (provider self = EDGE_TTS)); simpl.
  - destruct (tts_oracle _); intros [= <- <-];
      (split; [continues_steps|]); (split; [unfold calls; simpl; lia|]);
      (split; [done|]); intros p [= <-].
    split; [done|]. simpl. apply elem_of_union_l. by apply elem_of_singleton.
  - destruct (bool_decide (provider self = SILICONFLOW)); simpl.
    + destruct (tts_oracle _); intros [= <- <-];
        (split; [continues_steps|]); (split; [unfold calls; simpl; lia|]);
        (split; [done|]); intros p [= <-].
      split; [done|]. simpl. apply elem_of_union_l. by apply elem_of_singleton.
    + intros [= <- <-]. split; [continues_steps|].
      split; [unfold calls; simpl; lia|]. by split.
Qed.

Lemma generate_summary_audio_effects self summary w r w' :
  generate_summary_audio self summary None w = (r, w') →
  continues speech_or_log w w' ∧
  calls is_speech w' = calls is_speech w + (if supported self then 1 else 0) ∧
  (supported self = false → fs w' = fs w ∧ is_Raise r) ∧
  ∀ p, r = Ok p → p ∈ fs w'.
Proof.
  unfold generate_summary_audio. unfold mbind, M_bind, bind.
  rewrite default_path_run. unfold try_finally, ret.
  destruct (_generate_audio _ _ _ _) as [r1 w1] eqn:Haudio.
  intros [= <- <-]. apply generate_audio_effects in Haudio as (? & ? & ? & Hfile).
  split_and!; [done..|]. intros p Hp. by destruct (Hfile p Hp).
Qed.

Lemma generate_item_audio_effects self text i w r w' :
  generate_item_audio self text i None w = (r, w') →
  continues speech_or_log w w' ∧
  calls is_speech w' = calls is_speech w + (if supported self then 1 else 0) ∧
  (supported self = false → fs w' = fs w ∧ is_Raise r) ∧
  ∀ p, r = Ok p → (∃ stamp, p = item_audio_path i stamp) ∧ p ∈ fs w'.
Proof.
  unfold generate_item_audio. unfold mbind, M_bind, bind.
  rewrite default_path_run. unfold try_finally, ret.
  destruct (_generate_audio _ _ _ _) as [r1 w1] eqn:Haudio.
  intros [= <- <-]. apply generate_audio_effects in Haudio as (? & ? & ? & Hfile).
  split_and!; [done..|]. intros p Hp. destruct (Hfile p Hp) as [-> ?].
  split; [by eexists|done].
Qed.

Lemma all_exist_continues allowed audio_files w w' :
  continues allowed w w' → all_exist audio_files w → all_exist audio_files w'.
Proof. intros Hc Hall key path Hkey. eapply continues_exists; eauto. Qed.

Lemma all_exist_insert audio_files key path w :
  path ∈ fs w → all_exist audio_files w → all_exist (<[key := path]> audio_files) w.
Proof.
  intros Hpath Hall key' path'. destruct (decide (key = key')) as [->|Hne].
  - rewrite lookup_insert_eq. by intros [= <-].
  - rewrite lookup_insert_ne by done. apply Hall.
Qed.

Lemma item_audio_step_effects self audio_files i introduction w :
  ∃ audio_files' w',
    item_audio_step self audio_files (i, introduction) w = (Ok audio_files', w') ∧
    continues speech_or_log w w' ∧
    calls is_speech w' = calls is_speech w + (if supported self then 1 else 0) ∧
    (supported self = false → fs w' = fs w ∧ audio_files' = audio_files) ∧
    (all_exist audio_files w → all_exist audio_files' w') ∧
    (named_by_item audio_files → named_by_item audio_files').
Proof.
  unfold item_audio_step, try_except. unfold mbind at 1, M_bind at 1, bind.
  destruct (generate_item_audio self introduction i None w) as [[p|e] w1] eqn:Haudio;
    apply generate_item_audio_effects in Haudio as (Hc & Hn & Hun & Hfile);
    unfold_monad; unfold emit; eexists _, _; (split; [reflexivity|]);
    (split; [by apply continues_record_r|]); (split; [exact Hn|]); split_and!.
  - intros Hs. by destruct (Hun Hs).
  - intros Hall. apply all_exist_insert; [by apply Hfile|].
    apply (all_exist_continues speech_or_log _ w); [|done].
    by apply continues_record_r.
  - intros Hnamed j path. destruct (decide (i = j)) as [->|Hne].
    + rewrite lookup_insert_eq. intros [= <-]. by apply Hfile.
    + rewrite lookup_insert_ne; [apply Hnamed|].
      intros Heq%item_key_inj. done.
  - intros Hs. by destruct (Hun Hs).
  - intros Hall. apply (all_exist_continues speech_or_log _ w); [|done].
    by apply continues_record_r.
  - done.
Qed.

Lemma summary_audio_step_effects self summary w :
  ∃ audio_files w',
    summary_audio_step self summary w = (Ok audio_files, w') ∧
    continues speech_or_log w w' ∧
    calls is_speech w' = calls is_speech w + (if supported self then 1 else 0) ∧
    (supported self = false → fs w' = fs w ∧ audio_files = ∅) ∧
    all_exist audio_files w' ∧
    named_by_item audio_files.
Proof.
  unfold summary_audio_step, try_except. unfold mbind at 1, M_bind at 1, bind.
  destruct (generate_summary_audio self summary None w) as [[p|e] w1] eqn:Haudio;
    apply generate_summary_audio_effects in Haudio as (Hc & Hn & Hun & Hfile);
    unfold_monad; unfold emit; eexists _, _; (split; [reflexivity|]);
    (split; [by apply continues_record_r|]); (split; [exact Hn|]); split_and!.
  - intros Hs. by destruct (Hun Hs).
  - apply all_exist_insert; [by apply Hfile|]. by intros ??.
  - intros i path. rewrite lookup_insert_ne; [done|].
    intros Heq. by apply (item_key_not_summary i).
  - intros Hs. by destruct (Hun Hs).
  - by intros ??.
  - by intros ??.
Qed.

Lemma audio_loop_effects self (entries : list (nat * string)) : ∀ audio_files w,
  ∃ audio_files' w',
    fold_m entries (item_audio_step self) audio_files w = (Ok audio_files', w') ∧
    continues speech_or_log w w' ∧
    calls is_speech w' =
      calls is_speech w + (if supported self then length entries else 0) ∧
    (supported self = false → fs w' = fs w ∧ audio_files' = audio_files) ∧
    (all_exist audio_files w → all_exist audio_files' w') ∧
    (named_by_item audio_files → named_by_item audio_files').
Proof.
  induction entries as [|[i introduction] entries IH]; intros d w.
  - exists d, w. split; [reflexivity|]. split; [apply continues_refl|].
    split; [destruct (supported self); simpl; lia|]. by split_and!.
  - change (fold_m _ _ d w) with
      ((d1 ← item_audio_step self d (i, introduction);
        fold_m entries (item_audio_step self) d1) w).
    unfold mbind at 1, M_bind at 1, bind.
    destruct (item_audio_step_effects self d i introduction w)
      as (d1 & w1 & -> & Hc1 & Hn1 & Hun1 & Hall1 & Hnamed1).
    destruct (IH d1 w1) as (d' & w' & -> & Hc & Hn & Hun & Hall & Hnamed).
    exists d', w'. split; [reflexivity|]. split; [by eapply continues_trans|].
    split; [destruct (supported self); simpl in *; lia|].
    split; [|split; by auto].
    intros Hs. destruct (Hun1 Hs) as [Hfs1 ->]. destruct (Hun Hs) as [Hfs ->].
    split; [congruence|done].
Qed.

Lemma generate_all_audio_effects self summary news_items introductions w :
  ∃ audio_files w',
    generate_all_audio self summary news_items introductions w
      = (Ok audio_files, w') ∧
    continues speech_or_log w w' ∧
    calls is_speech w' =
      calls is_speech w + (if supported self then S (length introductions) else 0) ∧
    (supported self = false → fs w' = fs w ∧ audio_files = ∅) ∧
    all_exist audio_files w' ∧
    named_by_item audio_files.
Proof.
  unfold generate_all_audio. unfold mbind at 1, M_bind at 1, bind.
  destruct (summary_audio_step_effects self summary w)
    as (d0 & w0 & -> & Hc0 & Hn0 & Hun0 & Hall0 & Hnamed0).
  destruct (audio_loop_effects self (enumerate 1 introductions) d0 w0)
    as (d & w' & -> & Hc & Hn & Hun & Hall & Hnamed).
  exists d, w'. split; [reflexivity|]. split; [by eapply continues_trans|].
  split; [|split; [|split; by auto]].
  - rewrite Hn, Hn0. unfold enumerate.
    rewrite length_zip, length_seq, Nat.min_id.
    destruct (supported self); lia.
  - intros Hs. destruct (Hun0 Hs) as [Hfs0 ->]. destruct (Hun Hs) as [Hfs ->].
    split; [congruence|done].
Qed.

(** X5.  [generate_all_audio] never raises.  With a provider it knows it
    sends exactly one synthesis request for the summary and one per
    introduction, whatever the outcome of the earlier ones; every path it
    returns exists on disk, and no file is deleted. *)
Theorem one_speech_request_per_text self summary news_items introductions w :
  supported self = true →
  ∃ audio_files w',
    generate_all_audio self summary news_items introductions w
      = (Ok audio_files, w') ∧
    calls is_speech w' = calls is_speech w + 1 + length introductions ∧
    (∀ key path, audio_files !! key = Some path → path ∈ fs w') ∧
    fs w ⊆ fs w' ∧
    spawned (events_since w w') = [].
Proof.
  intros Hs.
  destruct (generate_all_audio_effects self summary news_items introductions w)
    as (d & w' & Hrun & Hc & Hn & _ & Hall & _).
  exists d, w'. split; [exact Hrun|]. rewrite Hs in Hn.
  split; [lia|]. split; [exact Hall|]. split; [by destruct Hc|].
  by apply (continues_spawned speech_or_log).
Qed.

(** X6.  With a provider name other than "edge_tts" and "siliconflow",
    [generate_all_audio] still returns normally: the dict is empty, no
    request is sent to any provider and no file is written. *)
Theorem unsupported_provider_yields_nothing self summary news_items introductions w :
  supported self = false →
  ∃ w',
    generate_all_audio self summary news_items introductions w = (Ok ∅, w') ∧
    calls is_speech w' = calls is_speech w ∧
    fs w' = fs w.
Proof.
  intros Hs.
  destruct (generate_all_audio_effects self summary news_items introductions w)
    as (d & w' & Hrun & _ & Hn & Hun & _ & _).
  destruct (Hun Hs) as [Hfs ->]. exists w'. split; [exact Hrun|].
  rewrite Hs in Hn. split; [lia|done].
Qed.
End audio_effects.

(** ** The content stage as a whole *)

Section content.
Context {env : Environment}.
Import AutoVideoGenerator.
Implicit Types (self : t) (w : world) (audio_files : gmap string string).

Lemma lookups_values audio_files (f : nat → string) (l : list nat) : ∀ w values w',
  list_comp l (fun i => dict_get audio_files (f i)) w = (Ok values, w') →
  w' = w ∧ Forall2 (fun i v => audio_files !! f i = Some v) l values.
Proof.
  induction l as [|i l IH]; intros w values w'.
  - intros [= <- <-]. by split.
  - rewrite lookups_cons. destruct (audio_files !! f i) as [v|] eqn:Hv; [|done].
    destruct (list_comp l _ w) as [[values1|e] w1] eqn:Hrest; [|done].
    intros [= <- <-]. destruct (IH _ _ _ Hrest) as [-> Hvalues].
    split; [done|]. by constructor.
Qed.

Lemma audio_arguments_values audio_files n w overview_audio news_audios w' :
  audio_arguments audio_files n w = (Ok (overview_audio, news_audios), w') →
  w' = w ∧
  audio_files !! "summary" = Some overview_audio ∧
  Forall2 (fun i v => audio_files !! TTSGenerator.item_key (i + 1) = Some v)
    (seq 0 n) news_audios.
Proof.
  unfold audio_arguments. unfold mbind at 1, M_bind at 1, bind. unfold dict_get at 1.
  destruct (audio_files !! "summary") as [v|]; [|done].
  unfold mret at 1, M_ret, ret. unfold mbind, M_bind, bind.
  destruct (list_comp _ _ w) as [[values|e] w1] eqn:Hrest; [|done].
  unfold mret, M_ret, ret. intros [= <- <- <-].
  destruct (lookups_values _ _ _ _ _ _ Hrest) as [-> Hvalues]. by split.
Qed.

Lemma quiet_is_request w w' : quiet w w' → continues is_request w w'.
Proof. apply quiet_continues. by intros []. Qed.

Lemma render_is_request w w' : continues render_or_log w w' → continues is_request w w'.
Proof. apply continues_mono. by intros []. Qed.

Lemma speech_is_request w w' : continues speech_or_log w w' → continues is_request w w'.
Proof. apply continues_mono. by intros []. Qed.

Lemma is_speech_production e : is_speech e = true → is_production e = true.
Proof. by destruct e. Qed.

Lemma Forall2_right {A B} (P : A → B → Prop) (Q : B → Prop) l k :
  Forall2 P l k → (∀ x y, P x y → Q y) → Forall Q k.
Proof. intros HP HPQ. induction HP; constructor; eauto. Qed.

Lemma generate_content_effects self news w r w' :
  generate_content self news w = (r, w') →
  continues is_request w w' ∧
  ∀ overview_image overview_audio news_images news_audios,
    r = Ok (overview_image, overview_audio, news_images, news_audios) →
    overview_image ∈ fs w' ∧ overview_audio ∈ fs w' ∧
    Forall (fun p => p ∈ fs w') news_images ∧
    Forall (fun p => p ∈ fs w') news_audios ∧
    (∀ i, i ≤ length news →
       speech_outcome (tts_generator self) (calls is_speech w + i) = None) ∧
    Forall2 (fun i p => ∃ stamp, p = item_image_path i stamp)
      (List.filter (fun i => rendered (calls is_render w + i)) (seq 1 (length news)))
      news_images ∧
    Forall2 (fun i p => ∃ stamp, p = item_audio_path i stamp)
      (seq 1 (length news)) news_audios.
Proof.
  unfold generate_content.
  unfold mbind at 1, M_bind at 1, bind, logger_info at 1, emit.
  unfold mbind at 1, M_bind at 1, bind.
  destruct (generate_summary_cases (llm_client self) news
              (record_event (Log INFO "Generating news summary...") w))
    as (w1 & Hq1 & _ & ->).
  assert (Hc1 : continues is_request w w1).
  { eapply continues_trans; [|by apply quiet_is_request].
    apply continues_record_r; [done|apply continues_refl]. }
  assert (Hs1 : calls is_speech w1 = calls is_speech w).
  { by apply (quiet_calls is_speech _ _ is_speech_production) in Hq1. }
  assert (Hr1 : calls is_render w1 = calls is_render w).
  { by apply (quiet_calls is_render _ _ is_render_production) in Hq1. }
  clear Hq1.
  destruct (llm_summary _ news) as [e1|summary]; [by intros [= <- <-]|].
  unfold mbind at 1, M_bind at 1, bind, logger_info at 1, emit.
  unfold mbind at 1, M_bind at 1, bind. unfold generate_introductions.
  destruct (introductions_loop self news []
              (record_event (Log INFO "Generating item introductions...") w1))
    as (r2 & w2 & -> & Hq2 & Hok).
  assert (Hc2 : continues is_request w w2).
  { eapply continues_trans; [|by apply quiet_is_request].
    by apply continues_record_r. }
  assert (Hs2 : calls is_speech w2 = calls is_speech w).
  { apply (quiet_calls is_speech _ _ is_speech_production) in Hq2.
    by rewrite Hq2. }
  assert (Hr2 : calls is_render w2 = calls is_render w).
  { apply (quiet_calls is_render _ _ is_render_production) in Hq2.
    by rewrite Hq2. }
  clear Hq2 Hc1 Hs1 Hr1.
  destruct r2 as [introductions|e2]; [|by intros [= <- <-]].
  destruct (Hok _ eq_refl) as [Hlen _]. simpl in Hlen. clear Hok.
  unfold mbind at 1, M_bind at 1, bind, logger_info at 1, emit.
  unfold mbind at 1, M_bind at 1, bind.
  destruct (HTMLToImageConverter.generate_overview_image _ _ _ _ _)
    as [r3 w3] eqn:Hoverview.
  pose proof (generate_overview_image_calls _ _ _ _ _ _ Hoverview) as Hr3.
  change (calls is_render (record_event _ w2)) with (calls is_render w2) in Hr3.
  rewrite Hr2 in Hr3.
  apply generate_overview_image_effects in Hoverview as [Hc3' Hfile3].
  assert (Hc3 : continues is_request w w3).
  { eapply continues_trans; [|by apply render_is_request].
    by apply continues_record_r. }
  assert (Hs3 : calls is_speech w3 = calls is_speech w).
  { rewrite <-Hs2. apply (continues_calls render_or_log is_speech) in Hc3'; [done|].
    by intros []. }
  clear Hc3' Hc2 Hs2 Hr2.
  destruct r3 as [overview|e3]; [|by intros [= <- <-]].
  specialize (Hfile3 _ eq_refl).
  unfold mbind at 1, M_bind at 1, bind.
  destruct (generate_all_news_images_effects (html_converter self) news w3)
    as (images & w4 & Himages & Hc4' & _ & Hfiles4 & _).
  destruct (generate_all_news_images_items (html_converter self) news
              (calls is_render w) w3) as (images' & w4' & Himages' & Hnames4);
    [rewrite Hr3; lia|].
  rewrite Himages in Himages'. injection Himages' as <- <-. rewrite Himages.
  assert (Hc4 : continues is_request w w4).
  { eapply continues_trans; [done|by apply render_is_request]. }
  assert (Hs4 : calls is_speech w4 = calls is_speech w).
  { rewrite <-Hs3. apply (continues_calls render_or_log is_speech) in Hc4'; [done|].
    by intros []. }
  apply (continues_exists _ _ _ _ Hc4') in Hfile3.
  clear Hc4' Hc3 Hs3 Hr3 Himages.
  unfold mbind at 1, M_bind at 1, bind, logger_info at 1, emit.
  unfold mbind at 1, M_bind at 1, bind.
  destruct (generate_all_audio_cases (tts_generator self) summary news introductions
              (record_event (Log INFO "Generating audio...") w4))
    as (audio_files & w5 & Haudio & Hsummary & Hitems).
  destruct (generate_all_audio_effects (tts_generator self) summary news introductions
              (record_event (Log INFO "Generating audio...") w4))
    as (audio_files' & w5' & Haudio' & Hc5' & _ & _ & Hall5 & Hnamed5).
  rewrite Haudio in Haudio'. injection Haudio' as <- <-. rewrite Haudio.
  change (calls is_speech (record_event _ w4)) with (calls is_speech w4) in *.
  rewrite Hs4 in Hsummary, Hitems.
  assert (Hc5 : continues is_request w w5).
  { eapply continues_trans; [done|]. apply speech_is_request.
    eapply continues_trans; [|done]. by apply continues_record_r; [|apply continues_refl]. }
  assert (Hgrow : ∀ p, p ∈ fs w4 → p ∈ fs w5).
  { intros p. apply (continues_exists _ _ _ _ Hc5'). }
  clear Hc5' Hc4 Hs4.
  unfold mbind at 1, M_bind at 1, bind, logger_info at 1, emit.
  unfold mbind at 1, M_bind at 1, bind.
  destruct (audio_arguments audio_files (length news) _) as [[[oa na]|e6] w6] eqn:Hargs.
  - unfold mret, M_ret, ret. intros [= <- <-].
    destruct (audio_arguments_values _ _ _ _ _ _ Hargs) as (-> & Hoa & Hna).
    split; [by apply continues_record_r|].
    intros ???? [= <- <- <- <-]. simpl.
    split; [by apply Hgrow|]. split; [by eapply Hall5|]. split.
    { revert Hfiles4. apply List.Forall_impl. exact Hgrow. }
    split.
    { apply (Forall2_right _ _ _ _ Hna). intros i v Hv. by eapply Hall5. }
    split; [|split; [exact Hnames4|]].
    2:{ rewrite <-fmap_S_seq. apply Forall2_fmap_l.
        revert Hna. apply Forall2_impl. intros i v Hv.
        rewrite Nat.add_1_r in Hv. by apply Hnamed5. }
    destruct (audio_arguments_cases audio_files (length news)
                (record_event (Log INFO "Generating final video...") w5))
      as [(oa' & na' & _ & _ & Hpresent)|(key & _ & _ & Hfail)];
      [|by rewrite Hfail in Hargs].
    intros i Hi. destruct i as [|i].
    + rewrite Nat.add_0_r.
      destruct (speech_outcome (tts_generator self) (calls is_speech w)) eqn:Hout;
        [|done].
      destruct (Hpresent "summary") as [v Hv]; [by left|].
      destruct Hsummary as [_ Hnone]. rewrite Hnone in Hv; [done|by eexists].
    + destruct (speech_outcome (tts_generator self) (calls is_speech w + S i))
        eqn:Hout; [|done].
      destruct (Hpresent (TTSGenerator.item_key (S i))) as [v Hv].
      { right. apply list_elem_of_fmap. exists i. split; [f_equal; lia|].
        apply elem_of_seq. lia. }
      destruct (Hitems (S i)) as [_ Hnone]; [lia|].
      rewrite Hnone in Hv; [done|by eexists].
  - intros [= <- <-]. split; [|done].
    assert (Hw6 : w6 = record_event (Log INFO "Generating final video...") w5).
    { destruct (audio_arguments_cases audio_files (length news)
                  (record_event (Log INFO "Generating final video...") w5))
        as [(oa' & na' & Hok & _)|(key & _ & _ & Hfail)]; congruence. }
    rewrite Hw6. by apply continues_record_r.
Qed.
End content.

Section content_theorems.
Context {env : Environment}.
Import AutoVideoGenerator.
Implicit Types (self : t) (w : world).

(** X7.  When the content stage of a run returns, every file it hands to
    assembly exists on disk: the overview image, the audio of the summary,
    every news image and every news audio.  Up to there no file has been
    deleted and no process has been started. *)
Theorem content_outputs_exist self news w overview_image overview_audio
    news_images news_audios w' :
  generate_content self news w
    = (Ok (overview_image, overview_audio, news_images, news_audios), w') →
  overview_image ∈ fs w' ∧ overview_audio ∈ fs w' ∧
  Forall (fun p => p ∈ fs w') news_images ∧
  Forall (fun p => p ∈ fs w') news_audios ∧
  fs w ⊆ fs w' ∧
  spawned (events_since w w') = [].
Proof.
  intros Hrun. destruct (generate_content_effects _ _ _ _ _ Hrun) as [Hc Hok].
  destruct (Hok _ _ _ _ eq_refl) as (? & ? & ? & ? & _).
  split_and!; [done..|by destruct Hc|].
  by apply (continues_spawned is_request).
Qed.

(** X18.  The lists handed to assembly follow the news items as follows.
    The audio list holds, in order, the audio of every item: entry [k] is
    the file [output/audio/item_<k+1>_<timestamp>.mp3].  The image list
    holds, in order, the images of the items whose rendering succeeded and
    of no other: its entries are the files
    [output/images/news_item_<i>_<timestamp>.jpg] for these [i]. *)
Theorem lists_follow_the_items self news w overview_image overview_audio
    news_images news_audios w' :
  generate_content self news w
    = (Ok (overview_image, overview_audio, news_images, news_audios), w') →
  Forall2 (fun i p => ∃ stamp, p = item_image_path i stamp)
    (List.filter (fun i => rendered (calls is_render w + i)) (seq 1 (length news)))
    news_images ∧
  Forall2 (fun i p => ∃ stamp, p = item_audio_path i stamp)
    (seq 1 (length news)) news_audios.
Proof.
  intros Hrun. destruct (generate_content_effects _ _ _ _ _ Hrun) as [_ Hok].
  destruct (Hok _ _ _ _ eq_refl) as (_ & _ & _ & _ & _ & Himages & Haudios).
  by split.
Qed.

Lemma summary_to_video_aborts self news output_path w i :
  i ≤ length news →
  is_Some (speech_outcome (tts_generator self) (calls is_speech w + i)) →
  ∃ e w', summary_to_video self news output_path w = (Raise e, w') ∧
    continues is_request w w'.
Proof.
  intros Hi Hfail. unfold summary_to_video. unfold mbind at 1, M_bind at 1, bind.
  destruct (generate_content self news w) as [[[[[oi oa] ni] na]|e] w1] eqn:Hrun;
    destruct (generate_content_effects _ _ _ _ _ Hrun) as [Hc Hok].
  - destruct (Hok _ _ _ _ eq_refl) as (_ & _ & _ & _ & Hnone & _).
    rewrite (Hnone i Hi) in Hfail. by destruct Hfail.
  - by eauto.
Qed.

(** X8.  When the synthesis of the summary (request 0) or of the
    introduction of any news item (request i) fails, the run does not
    skip that item: [generate_from_news_list] and [generate_news_video]
    raise, and neither starts a process nor creates a temporary file, so
    no video is assembled from the parts that were produced. *)
Theorem audio_failure_aborts self news output_path w i :
  i ≤ length news →
  is_Some (speech_outcome (tts_generator self) (calls is_speech w + i)) →
  (∃ e w',
     generate_from_news_list self news output_path w = (Raise e, w') ∧
     spawned (events_since w w') = [] ∧ temp_files (events_since w w') = []) ∧
  (∀ news_data_fetcher w0 raw_news_data w1,
     news_data_fetcher
       (record_event (Log INFO "Fetching news data...")
          (record_event (Log INFO "Starting news video generation") w0))
       = (Ok raw_news_data, w1) →
     _process_news_data self raw_news_data
       (record_event (Log INFO "Processing news data with LLM...") w1)
       = (Ok news, w) →
     ∃ e w',
       generate_news_video self news_data_fetcher output_path w0 = (Raise e, w') ∧
       spawned (events_since w w') = [] ∧ temp_files (events_since w w') = []).
Proof.
  intros Hi Hfail. split.
  - destruct (summary_to_video_aborts self news output_path
                (record_event
                   (Log INFO "Starting news video generation from pre-formatted items") w)
                i Hi Hfail) as (e & w' & Hrun & Hc).
    unfold generate_from_news_list.
    unfold try_except, mbind, M_bind, bind, logger_info at 1, emit.
    rewrite Hrun. unfold logger_error, emit, raise.
    eexists _, _. split; [reflexivity|].
    assert (Hc' : continues is_request w (record_event
              (Log ERROR ("Error generating news video from items: "
                          +:+ py_str_exn e)) w')).
    { apply continues_record_r; [done|]. eapply continues_trans; [|done].
      apply continues_record_r; [done|apply continues_refl]. }
    split; [by apply (continues_spawned is_request)
           |by apply (continues_temp_files is_request)].
  - intros fetcher w0 raw w1 Hfetch Hproc.
    destruct (summary_to_video_aborts self news output_path w i Hi Hfail)
      as (e & w' & Hrun & Hc).
    unfold generate_news_video.
    unfold try_except, mbind, M_bind, bind, logger_info at 1 2 3, emit.
    rewrite Hfetch, Hproc, Hrun. unfold logger_error, emit, raise.
    eexists _, _. split; [reflexivity|].
    assert (Hc' : continues is_request w (record_event
              (Log ERROR ("Error generating news video: " +:+ py_str_exn e)) w')).
    { by apply continues_record_r. }
    split; [by apply (continues_spawned is_request)
           |by apply (continues_temp_files is_request)].
Qed.
End content_theorems.

(** ** Assembly, segment by segment *)

Section assembly.
Context {env : Environment}.
Import VideoGenerator.
Implicit Types (self : t) (w : world).

Lemma temp_names_S first n :
  temp_names first (S n) = tmp_oracle first ".mp4" :: temp_names (S first) n.
Proof.
  unfold temp_names. cbn [seq fmap list_fmap]. rewrite Nat.add_0_r. f_equal.
  rewrite <-fmap_S_seq, <-list_fmap_compose. apply list_fmap_ext.
  intros _ k _. simpl. f_equal. lia.
Qed.

Lemma length_temp_names first n : length (temp_names first n) = n.
Proof. unfold temp_names. by rewrite length_fmap, length_seq. Qed.

Lemma encode_segments_cons self image_path audio_path duration rest temp_videos w :
  encode_segments self ((image_path, audio_path, duration) :: rest) temp_videos w =
    let temp_video := tmp_oracle (calls is_tempfile w) ".mp4" in
    let command := segment_command self image_path audio_path temp_video duration in
    let w1 := record_event (Spawn command)
                (create_file temp_video (record_event (TempFile temp_video) w)) in
    match proc_oracle (calls is_spawn w) command with
    | Exited0 _ =>
        encode_segments self rest (temp_videos ++ [temp_video])
          (record_event ffmpeg_ok_log (create_file temp_video w1))
    | ExitedNonZero err =>
        ((temp_videos, Raise (CalledProcessError command err)),
         record_event (ffmpeg_failed_log err) w1)
    | NoSuchProgram =>
        ((temp_videos, Raise (FileNotFoundError "ffmpeg")),
         record_event ffmpeg_missing_log w1)
    end.
Proof.
  cbn [encode_segments]. unfold named_temporary_file. cbv zeta.
  unfold create_video_segment.
  unfold mbind at 1, M_bind at 1, bind, mret at 1, M_ret at 1, ret at 1.
  rewrite run_ffmpeg_cases. cbv zeta.
  change (calls is_spawn (create_file _ (record_event (TempFile _) w)))
    with (calls is_spawn w).
  by destruct (proc_oracle _ _).
Qed.

Lemma spawned_app evs1 evs2 : spawned (evs1 ++ evs2) = spawned evs1 ++ spawned evs2.
Proof. apply omap_app. Qed.

Lemma temp_files_app evs1 evs2 :
  temp_files (evs1 ++ evs2) = temp_files evs1 ++ temp_files evs2.
Proof. apply omap_app. Qed.

Lemma encode_segments_ok self segments : ∀ temp_videos w temp_videos' u w1,
  encode_segments self segments temp_videos w = ((temp_videos', Ok u), w1) →
  let temps := temp_names (calls is_tempfile w) (length segments) in
  temp_videos' = temp_videos ++ temps ∧
  calls is_tempfile w1 = calls is_tempfile w + length segments ∧
  calls is_spawn w1 = calls is_spawn w + length segments ∧
  fs w1 = list_to_set temps ∪ fs w ∧
  ∃ evs, trace w1 = evs ++ trace w ∧
    spawned (rev evs) = segment_commands self segments temps ∧
    temp_files (rev evs) = temps ∧
    Forall (fun e => is_unlink e = false) evs.
Proof.
  induction segments as [|[[image audio] d] rest IH]; intros tv w tv' u w1.
  - intros [= <- <- <-]. cbv zeta. unfold temp_names. simpl.
    rewrite app_nil_r, !Nat.add_0_r.
    split_and!; [done..|by rewrite (left_id_L ∅ (∪))|].
    exists []. by split_and!.
  - rewrite encode_segments_cons. cbv zeta.
    destruct (proc_oracle _ _) as [out|err|]; [|done..].
    intros Hrest. apply IH in Hrest as (-> & Hnt & Hns & Hfs & evs & Ht & Hsp & Htf & Hun).
    cbn [length]. rewrite temp_names_S.
    change (calls is_tempfile (record_event ffmpeg_ok_log _))
      with (S (calls is_tempfile w)) in *.
    change (calls is_spawn (record_event ffmpeg_ok_log _))
      with (S (calls is_spawn w)) in *.
    split_and!.
    + by rewrite <-app_assoc.
    + lia.
    + lia.
    + rewrite Hfs. simpl. apply set_eq. intros x. rewrite !elem_of_union. tauto.
    + eexists (evs ++ [_; _; _]). split.
      * rewrite Ht. simpl. by rewrite <-app_assoc.
      * rewrite rev_app_distr, spawned_app, temp_files_app, Hsp, Htf.
        split_and!; [done..|]. apply Forall_app. split; [done|].
        by repeat constructor.
Qed.

Lemma concatenate_cases self temp_videos output_path w :
  concatenate self temp_videos output_path w =
    let created := Log INFO ("Video created successfully: " +:+ output_path) in
    if bool_decide (length temp_videos = 1)
    then (Ok output_path, record_event created w)
    else
      let manifest := tmp_oracle (calls is_tempfile w) ".txt" in
      let command := concat_command manifest output_path in
      let w1 := record_event (Spawn command)
                  (record_event (WriteText manifest (manifest_text temp_videos))
                     (create_file manifest (record_event (TempFile manifest) w))) in
      match proc_oracle (calls is_spawn w) command with
      | Exited0 _ =>
          let w2 := record_event ffmpeg_ok_log (create_file output_path w1) in
          (Ok output_path,
           record_event created
             (World (fs w2 ∖ {[manifest]}) (Unlink manifest :: trace w2)))
      | ExitedNonZero err =>
          (Raise (CalledProcessError command err),
           record_event (ffmpeg_failed_log err) w1)
      | NoSuchProgram =>
          (Raise (FileNotFoundError "ffmpeg"), record_event ffmpeg_missing_log w1)
      end.
Proof.
  unfold concatenate. cbv zeta. destruct (bool_decide (length temp_videos = 1)).
  - reflexivity.
  - unfold named_temporary_file.
    unfold mbind at 1, M_bind at 1, bind. unfold mbind at 1, M_bind at 1, bind.
    cbv beta iota zeta.
    unfold mbind at 1, M_bind at 1, bind, emit at 1. cbv beta iota zeta.
    unfold mbind at 1, M_bind at 1, bind.
    rewrite run_ffmpeg_cases. cbv zeta.
    change (calls is_spawn (record_event (WriteText _ _) _)) with (calls is_spawn w).
    destruct (proc_oracle _ _) as [out|err|]; [|done..].
    simpl list.last. cbv beta iota. unfold os_unlink.
    rewrite bool_decide_eq_true_2.
    2:{ simpl. apply elem_of_union_r, elem_of_union_l. by apply elem_of_singleton. }
    reflexivity.
Qed.

Lemma cleanup_effects temp_videos : ∀ w,
  ∃ w', cleanup temp_videos w = (Ok tt, w') ∧
    fs w' = fs w ∖ list_to_set temp_videos ∧
    adds is_unlink w w'.
Proof.
  unfold cleanup. induction temp_videos as [|t l IH]; intros w.
  - exists w. split; [done|]. split; [|apply adds_refl]. simpl.
    apply set_eq. intros x. rewrite elem_of_difference, elem_of_empty. tauto.
  - cbn [for_each]. unfold mbind, M_bind, bind. rewrite unlink_if_exists_run.
    destruct (IH (if bool_decide (t ∈ fs w)
                  then World (fs w ∖ {[t]}) (Unlink t :: trace w) else w))
      as (w' & -> & Hfs & Hadds).
    exists w'. split; [done|]. split.
    + rewrite Hfs. apply set_eq. intros x. cbn [list_to_set].
      rewrite !elem_of_difference, elem_of_union, elem_of_singleton.
      destruct (bool_decide (t ∈ fs w)) eqn:Ht; simpl.
      * rewrite elem_of_difference, elem_of_singleton. tauto.
      * apply bool_decide_eq_false in Ht. split; [|tauto].
        intros [Hx Hl]. split; [done|]. intros [->|?]; tauto.
    + eapply adds_trans; [|done].
      destruct (bool_decide (t ∈ fs w)); [|apply adds_refl].
      exists [Unlink t]. split; [done|]. by repeat constructor.
Qed.

Lemma adds_rev_spawned allowed evs :
  (∀ cmd, allowed (Spawn cmd) = false) →
  Forall (fun e => allowed e = true) evs → spawned (rev evs) = [].
Proof.
  intros Hnone Hall. induction Hall as [|e evs He _ IH]; [done|].
  simpl. rewrite spawned_app, IH. destruct e; try done.
  by rewrite Hnone in He.
Qed.

Lemma adds_rev_temp_files allowed evs :
  (∀ name, allowed (TempFile name) = false) →
  Forall (fun e => allowed e = true) evs → temp_files (rev evs) = [].
Proof.
  intros Hnone Hall. induction Hall as [|e evs He _ IH]; [done|].
  simpl. rewrite temp_files_app, IH. destruct e; try done.
  by rewrite Hnone in He.
Qed.

Lemma try_encode_finally_cleanup_ok self segments output_path w p w' :
  try_encode_finally_cleanup self segments output_path w = (Ok p, w') →
  let temps := temp_names (calls is_tempfile w) (length segments) in
  let manifest := tmp_oracle (calls is_tempfile w + length segments) ".txt" in
  p = output_path ∧
  spawned (events_since w w') =
    segment_commands self segments temps ++
    (if bool_decide (length segments = 1) then []
     else [concat_command manifest output_path]) ∧
  temp_files (events_since w w') =
    temps ++ (if bool_decide (length segments = 1) then [] else [manifest]) ∧
  (length segments ≠ 1 →
   WriteText manifest (manifest_text temps) ∈ events_since w w' ∧
   fs w' = ({[output_path]} ∪ fs w) ∖ ({[manifest]} ∪ list_to_set temps)).
Proof.
  unfold try_encode_finally_cleanup.
  destruct (encode_segments self segments [] w) as [[tv r] w1] eqn:Hencode.
  unfold try_finally.
  destruct r as [u|e].
  2:{ unfold raise. destruct (cleanup_effects tv w1) as (w3 & -> & _). done. }
  apply encode_segments_ok in Hencode
    as (Htv & Hnt & Hns & Hfs1 & evs1 & Ht1 & Hsp1 & Htf1 & _).
  simpl in Htv. subst tv. rewrite concatenate_cases. cbv zeta.
  rewrite length_temp_names, Hnt, Hns.
  set (temps := temp_names (calls is_tempfile w) (length segments)) in *.
  set (manifest := tmp_oracle (calls is_tempfile w + length segments) ".txt") in *.
  destruct (bool_decide (length segments = 1)) eqn:Hone.
  - destruct (cleanup_effects temps
                (record_event (Log INFO ("Video created successfully: " +:+ output_path))
                   w1)) as (w3 & -> & Hfs3 & evs3 & Ht3 & Hall3).
    intros [= <- <-]. split; [done|].
    assert (Ht : trace w3 = (evs3 ++ [Log INFO ("Video created successfully: "
                                                 +:+ output_path)] ++ evs1) ++ trace w).
    { rewrite Ht3. simpl. rewrite Ht1. by rewrite <-app_assoc. }
    rewrite (events_since_app _ _ _ Ht), !rev_app_distr, !spawned_app, !temp_files_app.
    rewrite Hsp1, Htf1, (adds_rev_spawned is_unlink evs3), (adds_rev_temp_files is_unlink evs3)
      by done.
    simpl. rewrite !app_nil_r. split_and!; [done..|].
    apply bool_decide_eq_true in Hone. by intros ?.
  - destruct (proc_oracle _ _) as [out|err|].
    2,3: match goal with
         | |- context [cleanup ?l ?w0] =>
             destruct (cleanup_effects l w0) as (w3 & -> & _)
         end; done.
    match goal with
    | |- context [cleanup ?l ?w0] =>
        destruct (cleanup_effects l w0) as (w3 & -> & Hfs3 & evs3 & Ht3 & Hall3)
    end.
    intros [= <- <-]. split; [done|].
    assert (Ht : trace w3 =
      (evs3 ++ [Log INFO ("Video created successfully: " +:+ output_path);
                Unlink manifest; ffmpeg_ok_log;
                Spawn (concat_command manifest output_path);
                WriteText manifest (manifest_text temps);
                TempFile manifest] ++ evs1) ++ trace w).
    { rewrite Ht3. simpl. rewrite Ht1. by rewrite <-app_assoc. }
    rewrite (events_since_app _ _ _ Ht). split_and!.
    + rewrite !rev_app_distr, !spawned_app, Hsp1, (adds_rev_spawned is_unlink evs3)
        by done.
      simpl. by rewrite app_nil_r.
    + rewrite !rev_app_distr, !temp_files_app, Htf1,
        (adds_rev_temp_files is_unlink evs3) by done.
      simpl. by rewrite app_nil_r.
    + intros _. split.
      * rewrite list_elem_of_In, <-in_rev, <-list_elem_of_In.
        apply elem_of_app. right. apply elem_of_app. left.
        rewrite !elem_of_cons. do 4 right. by left.
      * rewrite Hfs3. simpl. rewrite Hfs1. apply set_eq. intros x.
        rewrite !elem_of_difference, !elem_of_union, !elem_of_singleton. tauto.
Qed.

Lemma probes_run self audio_paths : ∀ w ds w0,
  list_comp audio_paths (_get_audio_duration self) w = (Ok ds, w0) →
  length ds = length audio_paths ∧
  fs w0 = fs w ∧
  calls is_tempfile w0 = calls is_tempfile w ∧
  ∃ evs, trace w0 = evs ++ trace w ∧
    spawned (rev evs) = probe_command <$> audio_paths.
Proof.
  induction audio_paths as [|path rest IH]; intros w ds w0.
  - intros [= <- <-]. split_and!; [done..|]. by exists [].
  - cbn [list_comp]. unfold mbind at 1, M_bind at 1, bind.
    rewrite audio_duration_cases. cbv zeta. unfold mbind at 1, M_bind at 1, bind.
    unfold mret, M_ret, ret.
    assert (Hstep : ∀ d w1 evs1,
      trace w1 = evs1 ++ trace w → spawned (rev evs1) = [probe_command path] →
      fs w1 = fs w → calls is_tempfile w1 = calls is_tempfile w →
      match list_comp rest (_get_audio_duration self) w1 with
      | (Ok ys, w2) => (Ok (d :: ys), w2)
      | (Raise e, w2) => (Raise e, w2)
      end = (Ok ds, w0) →
      length ds = length (path :: rest) ∧ fs w0 = fs w ∧
      calls is_tempfile w0 = calls is_tempfile w ∧
      ∃ evs, trace w0 = evs ++ trace w ∧
        spawned (rev evs) = probe_command <$> path :: rest).
    { intros d w1 evs1 Ht1 Hsp1 Hfs1 Hnt1.
      destruct (list_comp rest _ w1) as [[ys|e] w2] eqn:Hrest; [|done].
      intros [= <- <-]. apply IH in Hrest as (Hlen & Hfs & Hnt & evs & Ht & Hsp).
      split_and!; [simpl; lia|congruence|congruence|].
      exists (evs ++ evs1). split; [by rewrite Ht, Ht1, app_assoc|].
      by rewrite rev_app_distr, spawned_app, Hsp1, Hsp. }
    destruct (probe_outcome path w) as [out|err|]; [destruct (py_float out)|..];
      [..|done].
    + by apply (Hstep _ _ [Spawn (probe_command path)]).
    + by apply (Hstep _ _ [fallback_warning path "5"; Spawn (probe_command path)]).
    + by apply (Hstep _ _ [fallback_warning path "5"; Spawn (probe_command path)]).
Qed.

(** X9.  When [create_video_from_images] returns, what it ran is this.
    Without given durations every audio path is probed once, in order,
    before anything is encoded.  The images, audios and durations are
    paired by position, up to the shortest of the three lists.  Each
    triple is encoded, in the order of the input, into a temporary video
    of its own.  Unless there is exactly one segment, a manifest naming
    the temporary videos in that order is written, one concatenation to
    the returned path is run, and afterwards the files are those from
    before plus the returned path, without the temporaries.  Nothing else
    is started. *)
Theorem segments_encoded_in_order self image_paths audio_paths output_path
    durations ds w w0 p w' :
  (match durations with
   | None => list_comp audio_paths (_get_audio_duration self)
   | Some ds => mret ds
   end) w = (Ok ds, w0) →
  create_video_from_images self image_paths audio_paths output_path durations w
    = (Ok p, w') →
  let segments := zip (zip image_paths audio_paths) ds in
  let temps := temp_names (calls is_tempfile w0) (length segments) in
  let manifest := tmp_oracle (calls is_tempfile w0 + length segments) ".txt" in
  p = chosen_path output_path "output/video/news_video_" ".mp4" w ∧
  spawned (events_since w w0) =
    match durations with
    | None => probe_command <$> audio_paths
    | Some _ => []
    end ∧
  fs w0 = fs w ∧
  spawned (events_since w0 w') =
    segment_commands self segments temps ++
    (if bool_decide (length segments = 1) then [] else [concat_command manifest p]) ∧
  temp_files (events_since w0 w') =
    temps ++ (if bool_decide (length segments = 1) then [] else [manifest]) ∧
  (length segments ≠ 1 →
   WriteText manifest (manifest_text temps) ∈ events_since w0 w' ∧
   fs w' = ({[p]} ∪ fs w0) ∖ ({[manifest]} ∪ list_to_set temps)).
Proof.
  intros Hd. unfold create_video_from_images.
  unfold mbind at 1, M_bind at 1, bind. rewrite default_path_run.
  unfold mbind at 1, M_bind at 1, bind. rewrite Hd.
  intros Hrun. apply try_encode_finally_cleanup_ok in Hrun as (-> & Hsp & Htf & Hmore).
  assert (Hprobes : spawned (events_since w w0) =
                      match durations with
                      | None => probe_command <$> audio_paths
                      | Some _ => []
                      end ∧ fs w0 = fs w).
  { destruct durations as [given|].
    - injection Hd as <- <-. by rewrite events_since_refl.
    - apply probes_run in Hd as (_ & Hfs0 & _ & evs & Ht0 & Hsp0).
      by rewrite (events_since_app _ _ _ Ht0). }
  destruct Hprobes. by split_and!.
Qed.

Lemma create_video_from_images_returns self image_paths audio_paths output_path
    durations w p w' :
  create_video_from_images self image_paths audio_paths output_path durations w
    = (Ok p, w') →
  p = chosen_path output_path "output/video/news_video_" ".mp4" w.
Proof.
  unfold create_video_from_images.
  unfold mbind at 1, M_bind at 1, bind. rewrite default_path_run.
  unfold mbind at 1, M_bind at 1, bind.
  destruct (match durations with
            | None => list_comp audio_paths (_get_audio_duration self)
            | Some ds => mret ds
            end w) as [[ds|e] w0]; [|done].
  intros Hrun. by apply try_encode_finally_cleanup_ok in Hrun as (-> & _).
Qed.

Lemma add_transition_output self video_path output_path kind w final w' :
  add_transition self video_path output_path kind w = (Ok final, w') →
  final = output_path ∧ output_path ∈ fs w'.
Proof.
  unfold add_transition. unfold mbind at 1, M_bind at 1, bind.
  destruct (bool_decide (kind = "fade")).
  - unfold mbind, M_bind, bind, mret, M_ret, ret.
    destruct (_get_video_duration self video_path w) as [[d|e] w1]; [|done].
    rewrite run_ffmpeg_cases. cbv zeta.
    destruct (proc_oracle _ _); simpl; [|done..]. intros [= <- <-].
    split; [done|]. simpl. by apply elem_of_union_l, elem_of_singleton.
  - unfold mret, M_ret, ret. rewrite run_ffmpeg_cases. cbv zeta.
    destruct (proc_oracle _ _); simpl; [|done..]. intros [= <- <-].
    split; [done|]. simpl. by apply elem_of_union_l, elem_of_singleton.
Qed.

Lemma final_differs_from_intermediate stamp stamp' :
  "output/video/final_news_" +:+ stamp +:+ ".mp4"
  ≠ "output/video/news_video_" +:+ stamp' +:+ ".mp4".
Proof. simpl. by intros [=]. Qed.

Lemma create_final_video_steps self overview_image overview_audio news_images
    news_audios output_path w final_video w' :
  create_final_video self overview_image overview_audio news_images news_audios
    output_path w = (Ok final_video, w') →
  ∃ w2,
    final_video = chosen_path output_path "output/video/final_news_" ".mp4" w ∧
    final_video ∈ fs w2 ∧
    fs w' = fs w2 ∖ {[chosen_path None "output/video/news_video_" ".mp4" w]}.
Proof.
  unfold create_final_video.
  unfold mbind at 1, M_bind at 1, bind. rewrite default_path_run.
  cbv zeta. unfold mbind at 1, M_bind at 1, bind.
  destruct (create_video_from_images _ _ _ _ _ w) as [[video_path|e] w1] eqn:Hvideo;
    [|done].
  apply create_video_from_images_returns in Hvideo. subst video_path.
  unfold mbind at 1, M_bind at 1, bind.
  destruct (add_transition self _ _ "fade" w1) as [[final|e] w2] eqn:Hadd; [|done].
  apply add_transition_output in Hadd as [-> Hexists].
  unfold mbind at 1, M_bind at 1, bind.
  destruct (unlink_if_exists _ w2) as [[[]|e] w3] eqn:Hunlink;
    [|by rewrite unlink_if_exists_run in Hunlink].
  apply unlink_if_exists_fs in Hunlink.
  unfold mbind, M_bind, bind, mret, M_ret, ret, logger_info, emit.
  intros [= <- <-]. by exists w2.
Qed.

Lemma add_transition_keeps_files self video_path output_path kind w r w' :
  add_transition self video_path output_path kind w = (r, w') →
  fs w ⊆ fs w' ∧ ∀ p, Unlink p ∉ events_since w w'.
Proof.
  assert (Hencode : ∀ cmd w0 r0 w1,
            _run_ffmpeg_command self cmd w0 = (r0, w1) →
            fs w0 ⊆ fs w1 ∧
            ∃ evs, trace w1 = evs ++ trace w0 ∧ Forall (fun e => is_unlink e = false) evs).
  { intros cmd w0 r0 w1. rewrite run_ffmpeg_cases. cbv zeta.
    destruct (proc_oracle _ _) as [out|err|].
    - intros Hrun.
      assert (Hw1 : w1 = record_event ffmpeg_ok_log
                           (foldr create_file (record_event (Spawn cmd) w0)
                              (process_output cmd))).
      { by destruct (list.last cmd); injection Hrun as _ <-. }
      subst w1. clear Hrun. unfold process_output.
      destruct (bool_decide (head cmd = Some "ffmpeg")); [destruct (list.last cmd)|];
        simpl; (split; [|eexists [_; _]; split; [reflexivity|by repeat constructor]]);
        try done.
      intros x Hx. by apply elem_of_union_r.
    - intros [= _ <-]. split; [done|].
      eexists [_; _]. split; [reflexivity|]. by repeat constructor.
    - intros [= _ <-]. split; [done|].
      eexists [_; _]. split; [reflexivity|]. by repeat constructor. }
  assert (Hprobe : ∀ path w0 r0 w1,
            _get_video_duration self path w0 = (r0, w1) →
            fs w1 = fs w0 ∧
            ∃ evs, trace w1 = evs ++ trace w0 ∧ Forall (fun e => is_unlink e = false) evs).
  { intros path w0 r0 w1. rewrite video_duration_cases. cbv zeta.
    destruct (probe_outcome path w0) as [out|err|]; [destruct (py_float out)|..];
      intros [= _ <-]; (split; [done|]).
    - eexists [_]. split; [reflexivity|]. by repeat constructor.
    - eexists [_; _]. split; [reflexivity|]. by repeat constructor.
    - eexists [_; _]. split; [reflexivity|]. by repeat constructor.
    - eexists [_]. split; [reflexivity|]. by repeat constructor. }
  assert (Hread : ∀ w0 evs,
            trace w' = evs ++ trace w0 → Forall (fun e => is_unlink e = false) evs →
            ∀ p, Unlink p ∉ events_since w0 w').
  { intros w0 evs Ht Hall p. rewrite (events_since_app _ _ _ Ht).
    rewrite list_elem_of_In, <-in_rev, <-list_elem_of_In. intros Hin.
    by apply (proj1 (list.Forall_forall _ _) Hall) in Hin. }
  unfold add_transition. unfold mbind at 1, M_bind at 1, bind.
  destruct (bool_decide (kind = "fade")).
  - unfold mbind at 1, M_bind at 1, bind.
    destruct (_get_video_duration self video_path w) as [[d|e] w1] eqn:Hd.
    + apply Hprobe in Hd as (Hfs1 & evs1 & Ht1 & Hall1).
      unfold mret, M_ret, ret. intros Hrun.
      apply Hencode in Hrun as (Hfs2 & evs2 & Ht2 & Hall2).
      split; [by rewrite <-Hfs1|].
      apply (Hread w (evs2 ++ evs1)); [by rewrite Ht2, Ht1, app_assoc|].
      by apply Forall_app.
    + apply Hprobe in Hd as (Hfs1 & evs1 & Ht1 & Hall1).
      intros [= _ <-]. split; [by rewrite Hfs1|]. by apply (Hread w evs1).
  - unfold mret, M_ret, ret. intros Hrun.
    apply Hencode in Hrun as (Hfs2 & evs2 & Ht2 & Hall2).
    split; [done|]. by apply (Hread w evs2).
Qed.

(** C5, what the code does when the transition fails.  Once
    [create_video_from_images] has returned the intermediate video, a
    transition that returns is followed by the deletion of that video
    (the files are those left by the transition without it), but a
    transition that raises ends the call there: [create_final_video]
    raises the same exception in the very state the transition left, so
    the deletion is not reached; the intermediate video is not unlinked
    and, when it was on disk, it still is. *)
Theorem failed_transition_keeps_intermediate self overview_image overview_audio
    news_images news_audios output_path w video_path w1 :
  create_video_from_images self (overview_image :: news_images)
    (overview_audio :: news_audios) None None w = (Ok video_path, w1) →
  match add_transition self video_path
          (chosen_path output_path "output/video/final_news_" ".mp4" w) "fade" w1 with
  | (Ok final_video, w2) =>
      ∃ w',
        create_final_video self overview_image overview_audio news_images
          news_audios output_path w = (Ok final_video, w') ∧
        fs w' = fs w2 ∖ {[video_path]}
  | (Raise e, w2) =>
      create_final_video self overview_image overview_audio news_images
        news_audios output_path w = (Raise e, w2) ∧
      (∀ p, Unlink p ∉ events_since w1 w2) ∧
      (video_path ∈ fs w1 → video_path ∈ fs w2)
  end.
Proof.
  intros Hvideo.
  assert (Hcall :
    create_final_video self overview_image overview_audio news_images
      news_audios output_path w
    = match add_transition self video_path
              (chosen_path output_path "output/video/final_news_" ".mp4" w)
              "fade" w1 with
      | (Ok final_video, w2) =>
          (unlink_if_exists video_path;;
           logger_info ("Final video created: " +:+ final_video);;
           mret final_video) w2
      | (Raise e, w2) => (Raise e, w2)
      end).
  { unfold create_final_video.
    unfold mbind at 1, M_bind at 1, bind. rewrite default_path_run.
    cbv zeta. unfold mbind at 1, M_bind at 1, bind. rewrite Hvideo.
    unfold mbind at 1, M_bind at 1, bind.
    by destruct (add_transition self video_path _ "fade" w1) as [[final|e] w2]. }
  rewrite Hcall. clear Hcall.
  destruct (add_transition self video_path _ "fade" w1) as [[final|e] w2] eqn:Hadd.
  - unfold mbind at 1, M_bind at 1, bind.
    destruct (unlink_if_exists video_path w2) as [[[]|e] w3] eqn:Hunlink;
      [|by rewrite unlink_if_exists_run in Hunlink].
    apply unlink_if_exists_fs in Hunlink.
    unfold mbind, M_bind, bind, mret, M_ret, ret, logger_info, emit.
    eexists. split; [reflexivity|]. exact Hunlink.
  - apply add_transition_keeps_files in Hadd as [Hfs Hunlink].
    split; [done|]. split; [exact Hunlink|]. apply Hfs.
Qed.

(** X10.  When [create_final_video] returns, the path it returns is the
    one asked for or, by default, [output/video/final_news_<timestamp>.mp4].
    The intermediate video is gone, and the returned file exists on disk
    unless the caller asked for the very path of the intermediate video:
    then the final video is deleted as the intermediate one.  With the
    default path the returned file always exists. *)
Theorem final_video_exists self overview_image overview_audio news_images
    news_audios output_path w final_video w' :
  create_final_video self overview_image overview_audio news_images news_audios
    output_path w = (Ok final_video, w') →
  let intermediate := chosen_path None "output/video/news_video_" ".mp4" w in
  final_video = chosen_path output_path "output/video/final_news_" ".mp4" w ∧
  (intermediate ∉ fs w') ∧
  (final_video ∈ fs w' ↔ final_video ≠ intermediate) ∧
  (output_path = None → final_video ∈ fs w').
Proof.
  intros Hrun intermediate.
  apply create_final_video_steps in Hrun as (w2 & Hpath & Hwritten & Hfs).
  fold intermediate in Hfs.
  assert (Hiff : final_video ∈ fs w' ↔ final_video ≠ intermediate).
  { rewrite Hfs, elem_of_difference, elem_of_singleton. tauto. }
  split; [exact Hpath|]. split; [|split; [exact Hiff|]].
  - rewrite Hfs, elem_of_difference, elem_of_singleton. tauto.
  - intros ->. apply Hiff. rewrite Hpath. apply final_differs_from_intermediate.
Qed.



End assembly.

(** ** The duration helper of the speech generator *)

Section tts_duration.
Context {env : Environment}.
Import TTSGenerator.
Variable communicate : string → option exn.
Variable failed_stdout : nat → list string → string.
Implicit Types (self : t) (w : world).

(** X13.  [TTSGenerator.get_audio_duration] never raises and never
    changes a file.  When the voice is accepted it starts exactly one
    process, the prober on the audio path, and returns the number read
    from what that process printed, whatever its exit status.  It
    returns 5.0, after exactly one ERROR record naming the exception,
    in every other case: the voice is refused (no process is started),
    what the prober printed is not a number, or the prober is not
    installed, where [VideoGenerator._get_audio_duration] raises. *)
Theorem get_audio_duration_never_raises self audio_path w :
  ∃ d w',
    get_audio_duration communicate failed_stdout self audio_path w = (Ok d, w') ∧
    fs w' = fs w ∧
    let fallback e :=
      d = 5%float ∧
      logged ERROR (events_since w w')
      = ["Error getting audio duration: " +:+ py_str_exn e] in
    let read stdout :=
      match py_float stdout with
      | Some printed => d = printed ∧ logged ERROR (events_since w w') = []
      | None => fallback (ValueError stdout)
      end in
    match communicate (voice self) with
    | Some e => fallback e ∧ spawned (events_since w w') = []
    | None =>
        spawned (events_since w w') = [VideoGenerator.probe_command audio_path] ∧
        match probe_outcome audio_path w with
        | Exited0 stdout => read stdout
        | ExitedNonZero _ =>
            read (failed_stdout (calls is_spawn w)
                    (VideoGenerator.probe_command audio_path))
        | NoSuchProgram =>
            fallback (FileNotFoundError "ffprobe") ∧
            ∀ video_generator,
              (VideoGenerator._get_audio_duration video_generator audio_path w).1
              = Raise (FileNotFoundError "ffprobe")
        end
    end.
Proof.
  unfold get_audio_duration, subprocess_run_unchecked. unfold_monad. unfold emit.
  pose proof (fun video_generator =>
                audio_duration_cases video_generator audio_path w) as Hvideo.
  unfold probe_outcome, VideoGenerator.probe_command in *. cbv zeta in Hvideo.
  destruct (communicate (voice self)) as [e|]; cbv beta iota zeta.
  - eexists _, _. split; [reflexivity|]. read_events. by split_and!.
  - destruct (proc_oracle _ _) as [out|err|]; cbv beta iota zeta.
    + destruct (py_float out) as [d|] eqn:Hd; cbv beta iota zeta;
        eexists _, _; (split; [reflexivity|]); read_events; by split_and!.
    + destruct (py_float (failed_stdout _ _)) as [d|] eqn:Hd; cbv beta iota zeta;
        eexists _, _; (split; [reflexivity|]); read_events; by split_and!.
    + eexists _, _. split; [reflexivity|]. read_events.
      split_and!; [done..|]. intros video_generator. by rewrite Hvideo.
Qed.
End tts_duration.

(** ** The run as a whole *)

Section whole_run.
Context {env : Environment}.
Import AutoVideoGenerator.
Implicit Types (self : t) (w : world).

Lemma summary_to_video_exists self news output_path w final_video w' :
  summary_to_video self news output_path w = (Ok final_video, w') →
  final_video ∈ fs w' ∨
  ∃ stamp, output_path = Some ("output/video/news_video_" +:+ stamp +:+ ".mp4").
Proof.
  unfold summary_to_video. unfold mbind at 1, M_bind at 1, bind.
  destruct (generate_content self news w) as [[[[[oi oa] ni] na]|e] w1]; [|done].
  unfold mbind at 1, M_bind at 1, bind.
  destruct (VideoGenerator.create_final_video _ _ _ _ _ _ w1) as [[final|e] w2] eqn:Hfinal;
    [|done].
  apply create_final_video_steps in Hfinal as (w3 & Hpath & Hwritten & Hfs).
  unfold mbind, M_bind, bind, mret, M_ret, ret, logger_info, emit.
  intros [= <- <-]. simpl fs. rewrite Hfs, elem_of_difference, elem_of_singleton.
  destruct (decide (final = chosen_path None "output/video/news_video_" ".mp4" w1))
    as [Hsame|Hne]; [right|by left].
  destruct output_path as [p|].
  - simpl in Hpath. subst p. rewrite Hsame. by eexists.
  - rewrite Hpath in Hsame. by apply final_differs_from_intermediate in Hsame.
Qed.

(** X14.  When [generate_from_news_list] or [generate_news_video] returns,
    the video at the returned path exists on disk, unless the caller asked
    for a path of the form [output/video/news_video_<stamp>.mp4], the
    names the pipeline gives to its intermediate video.  With the default
    path the returned video always exists. *)
Theorem returned_video_exists self news output_path w final_video w' :
  generate_from_news_list self news output_path w = (Ok final_video, w') ∨
  (∃ news_data_fetcher,
     generate_news_video self news_data_fetcher output_path w = (Ok final_video, w')) →
  final_video ∈ fs w' ∨
  ∃ stamp, output_path = Some ("output/video/news_video_" +:+ stamp +:+ ".mp4").
Proof.
  intros [Hrun|[fetcher Hrun]]; revert Hrun.
  - unfold generate_from_news_list.
    unfold try_except, mbind, M_bind, bind, logger_info at 1, emit.
    destruct (summary_to_video self news output_path _) as [[final|e] w1] eqn:Hvideo.
    + intros [= <- <-]. by apply summary_to_video_exists in Hvideo.
    + unfold logger_error, emit, raise. done.
  - unfold generate_news_video.
    unfold try_except, mbind, M_bind, bind, logger_info at 1 2 3, emit.
    destruct (fetcher _) as [[raw|e] w1]; [|by unfold logger_error, emit, raise].
    destruct (_process_news_data self raw _) as [[processed|e] w2];
      [|by unfold logger_error, emit, raise].
    destruct (summary_to_video self processed output_path w2)
      as [[final|e] w3] eqn:Hvideo.
    + intros [= <- <-]. by apply summary_to_video_exists in Hvideo.
    + unfold logger_error, emit, raise. done.
Qed.
End whole_run.

(** ** Introductions and the overview *)

Section before_the_items.
Context {env : Environment}.
Import AutoVideoGenerator.
Implicit Types (self : t) (w : world).

Lemma introductions_loop_first_failure self : ∀ news k introductions w item e,
  news !! k = Some item →
  llm_introduction (calls (is_llm Introduction) w + k) item = inl e →
  (∀ j item', j < k → news !! j = Some item' →
     ∃ s, llm_introduction (calls (is_llm Introduction) w + j) item' = inr s) →
  ∃ w',
    fold_m news (introduction_step self) introductions w = (Raise e, w') ∧
    quiet w w' ∧
    calls (is_llm Introduction) w' = calls (is_llm Introduction) w + S k.
Proof.
  induction news as [|first news IH]; intros k acc w item e; [done|].
  change (fold_m _ _ acc w) with
    ((acc1 ← introduction_step self acc first;
      fold_m news (introduction_step self) acc1) w).
  unfold mbind at 1, M_bind at 1, bind. unfold introduction_step at 1.
  unfold mbind at 1, M_bind at 1, bind.
  destruct (generate_item_introduction_cases (llm_client self) first w)
    as (w1 & Hq1 & Hn1 & ->).
  destruct k as [|k]; cbn [lookup list_lookup].
  - intros [= ->]. rewrite Nat.add_0_r. intros -> _.
    exists w1. split; [done|]. split; [done|]. lia.
  - intros Hk He Hbefore.
    destruct (Hbefore 0 first ltac:(lia) eq_refl) as [s Hs].
    rewrite Nat.add_0_r in Hs. rewrite Hs. unfold mret at 1, M_ret, ret.
    destruct (IH k (acc ++ [s]) w1 item e Hk) as (w' & -> & Hq & Hn).
    + rewrite Hn1. by replace (S (calls (is_llm Introduction) w) + k)
        with (calls (is_llm Introduction) w + S k) by lia.
    + intros j item' Hj Hitem'. rewrite Hn1.
      replace (S (calls (is_llm Introduction) w) + j)
        with (calls (is_llm Introduction) w + S j) by lia.
      apply Hbefore; [lia|done].
    + exists w'. split; [done|]. split; [by eapply quiet_trans|]. lia.
Qed.

(** X15.  The loop over the news items that asks the LLM for their
    introductions stops at the first refusal: the exception raised is the
    one of that request, the items after it are not sent to the LLM (the
    number of introduction requests is the position of the refused item),
    and no file is written. *)
Theorem introductions_stop_at_first_failure self news w k item e :
  news !! k = Some item →
  llm_introduction (calls (is_llm Introduction) w + k) item = inl e →
  (∀ j item', j < k → news !! j = Some item' →
     ∃ s, llm_introduction (calls (is_llm Introduction) w + j) item' = inr s) →
  ∃ w',
    generate_introductions self news w = (Raise e, w') ∧
    calls (is_llm Introduction) w' = calls (is_llm Introduction) w + S k ∧
    fs w' = fs w ∧
    List.filter is_production (events_since w w') = [].
Proof.
  intros Hk He Hbefore.
  destruct (introductions_loop_first_failure self news k [] w item e Hk He Hbefore)
    as (w' & Hrun & Hq & Hn).
  exists w'. split; [exact Hrun|]. split; [exact Hn|].
  split; [by destruct Hq|by apply quiet_events].
Qed.

Lemma introductions_loop_answers self first : ∀ news start introductions w result w',
  calls (is_llm Introduction) w = first + start →
  fold_m news (introduction_step self) introductions w = (Ok result, w') →
  calls (is_llm Introduction) w' = calls (is_llm Introduction) w + length news ∧
  ∃ new, result = introductions ++ new ∧
    Forall2 (fun '(k, item) s => llm_introduction (first + k) item = inr s)
      (zip (seq start (length news)) news) new.
Proof.
  induction news as [|item news IH]; intros start acc w result w' Hw.
  - intros [= <- <-]. split; [simpl; lia|]. exists []. by rewrite app_nil_r.
  - change (fold_m _ _ acc w) with
      ((acc1 ← introduction_step self acc item;
        fold_m news (introduction_step self) acc1) w).
    unfold mbind at 1, M_bind at 1, bind. unfold introduction_step at 1.
    unfold mbind at 1, M_bind at 1, bind.
    destruct (generate_item_introduction_cases (llm_client self) item w)
      as (w1 & Hq1 & Hn1 & ->).
    destruct (llm_introduction _ item) as [e|s] eqn:Hs; [done|].
    unfold mret at 1, M_ret, ret. intros Hrest.
    apply (IH (S start)) in Hrest as (Hn & new & -> & Hnew); [|rewrite Hn1, Hw; lia].
    split; [simpl; lia|]. exists (s :: new). rewrite <-app_assoc. split; [done|].
    cbn [length seq zip zip_with]. constructor; [by rewrite <-Hw|done].
Qed.

(** X16.  When the introductions of all news items are obtained, there is
    exactly one per item and in the order of the items: introduction [k]
    is the answer of the LLM to the request for item [k], and each item
    was sent to the LLM once. *)
Theorem introductions_in_order self news w introductions w' :
  generate_introductions self news w = (Ok introductions, w') →
  length introductions = length news ∧
  calls (is_llm Introduction) w' = calls (is_llm Introduction) w + length news ∧
  ∀ k item, news !! k = Some item →
    ∃ s, introductions !! k = Some s ∧
         llm_introduction (calls (is_llm Introduction) w + k) item = inr s.
Proof.
  intros Hrun.
  apply (introductions_loop_answers self (calls (is_llm Introduction) w) news 0)
    in Hrun as (Hn & new & -> & Hnew); [|lia].
  simpl. apply Forall2_length in Hnew as Hlen.
  rewrite length_zip, length_seq, Nat.min_id in Hlen.
  split; [done|]. split; [done|]. intros k item Hk.
  assert (Hpair : zip (seq 0 (length news)) news !! k = Some (k, item)).
  { apply lookup_zip_with_Some. exists k, item. split; [done|]. split; [|done].
    apply lookup_seq. split; [done|]. by apply lookup_lt_Some in Hk. }
  destruct (Forall2_lookup_l _ _ _ _ _ Hnew Hpair) as (s & Hs & Hanswer).
  by exists s.
Qed.

Lemma content_overview_aborts self news w :
  render_oracle (calls is_render w) ≠ Rendered →
  ∃ e w',
    generate_content self news w = (Raise e, w') ∧
    calls is_speech w' = calls is_speech w ∧
    calls is_render w' ≤ S (calls is_render w).
Proof.
  intros Hfail. unfold generate_content.
  unfold mbind at 1, M_bind at 1, bind, logger_info at 1, emit.
  unfold mbind at 1, M_bind at 1, bind.
  destruct (generate_summary_cases (llm_client self) news
              (record_event (Log INFO "Generating news summary...") w))
    as (w1 & Hq1 & _ & ->).
  assert (Hs1 : calls is_speech w1 = calls is_speech w).
  { by apply (quiet_calls is_speech _ _ is_speech_production) in Hq1. }
  assert (Hr1 : calls is_render w1 = calls is_render w).
  { by apply (quiet_calls is_render _ _ is_render_production) in Hq1. }
  destruct (llm_summary _ news) as [e1|summary].
  { eexists _, _. split; [reflexivity|]. split; [done|lia]. }
  unfold mbind at 1, M_bind at 1, bind, logger_info at 1, emit.
  unfold mbind at 1, M_bind at 1, bind. unfold generate_introductions.
  destruct (introductions_loop self news []
              (record_event (Log INFO "Generating item introductions...") w1))
    as (r2 & w2 & -> & Hq2 & _).
  assert (Hs2 : calls is_speech w2 = calls is_speech w).
  { apply (quiet_calls is_speech _ _ is_speech_production) in Hq2.
    by rewrite Hq2. }
  assert (Hr2 : calls is_render w2 = calls is_render w).
  { apply (quiet_calls is_render _ _ is_render_production) in Hq2.
    by rewrite Hq2. }
  destruct r2 as [introductions|e2].
  2:{ eexists _, _. split; [reflexivity|]. split; [done|lia]. }
  unfold mbind at 1, M_bind at 1, bind, logger_info at 1, emit.
  unfold mbind at 1, M_bind at 1, bind.
  unfold HTMLToImageConverter.generate_overview_image.
  unfold mbind at 1, M_bind at 1, bind. rewrite default_path_run.
  match goal with
  | |- context [(HTMLToImageConverter._generate_html_content ?c ?t ?p;; _) ?w0] =>
      destruct (render_to_image c t p w0) as (w3 & Hr3 & Hrun);
      pose proof (render_to_image_effects c t p w0 _ _ Hrun) as [Hc3 _]
  end.
  rewrite Hrun.
  change (calls is_render (record_event _ w2)) with (calls is_render w2) in *.
  rewrite Hr2 in *.
  assert (Hs3 : calls is_speech w3 = calls is_speech w).
  { apply (continues_calls render_or_log is_speech) in Hc3; [|by intros []].
    by rewrite Hc3. }
  destruct (render_oracle (calls is_render w)); [done|..];
    eexists _, _; (split; [reflexivity|]); (split; [done|lia]).
Qed.

(** X17.  A failure of the overview image is not tolerated as that of a
    news image is: when its rendering fails, [generate_from_news_list]
    raises; no news image is rendered, nothing is synthesized and no
    process is started. *)
Theorem overview_failure_aborts self news output_path w :
  render_oracle (calls is_render w) ≠ Rendered →
  ∃ e w',
    generate_from_news_list self news output_path w = (Raise e, w') ∧
    calls is_render w' ≤ S (calls is_render w) ∧
    calls is_speech w' = calls is_speech w ∧
    spawned (events_since w w') = [].
Proof.
  intros Hfail.
  destruct (content_overview_aborts self news
              (record_event
                 (Log INFO "Starting news video generation from pre-formatted items") w)
              Hfail) as (e & w' & Hrun & Hs & Hr).
  destruct (generate_content_effects _ _ _ _ _ Hrun) as [Hc _].
  unfold generate_from_news_list, summary_to_video.
  unfold try_except, mbind, M_bind, bind, logger_info at 1, emit.
  rewrite Hrun. unfold logger_error, emit, raise.
  eexists _, _. split; [reflexivity|]. split; [exact Hr|]. split; [exact Hs|].
  apply (continues_spawned is_request); [done|].
  apply continues_record_r; [done|]. eapply continues_trans; [|done].
  apply continues_record_r; [done|apply continues_refl].
Qed.
End before_the_items.

(** ** The theorems on concrete runs *)

Section concrete_runs.
Import Scenario.



(** C9, witness: the kind "wipe" is handled as "none". *)
Lemma unknown_transition_is_copy_witness :
  VideoGenerator.add_transition (env := fair_weather) hd_video "in.mp4" "out.mp4"
    "wipe" empty_world
  = VideoGenerator.add_transition (env := fair_weather) hd_video "in.mp4" "out.mp4"
      "none" empty_world.
Proof.
  assert (Hkind : "wipe" ≠ "fade") by discriminate.
  destruct (unknown_transition_is_copy (env := fair_weather) hd_video "in.mp4"
              "out.mp4" "wipe" empty_world Hkind) as [Hsame _].
  exact Hsame.
Defined.

(** C8, at the failing input: a generator at 60 frames per second gets
    the very run of the default one at 30, with the fade-in over 30
    frames. *)
Lemma fade_in_ignores_fps_witness :
  VideoGenerator.add_transition (env := fair_weather) fast_video
    "in.mp4" "out.mp4" "fade" empty_world
  = VideoGenerator.add_transition (env := fair_weather) hd_video
      "in.mp4" "out.mp4" "fade" empty_world ∧
  ∃ w',
    VideoGenerator.add_transition (env := fair_weather) fast_video
      "in.mp4" "out.mp4" "fade" empty_world = (Ok "out.mp4", w') ∧
    spawned (events_since empty_world w')
    = [VideoGenerator.probe_command "in.mp4";
       ["ffmpeg"; "-y"; "-i"; "in.mp4"; "-vf"; "fade=in:0:30,fade=out:st=3.5:d=1";
        "-c:a"; "copy"; "out.mp4"]].
Proof.
  destruct (fade_in_ignores_fps (env := fair_weather) fast_video hd_video
              "in.mp4" "out.mp4" empty_world) as (Hsame & r & w' & Hrun & Hread).
  split; [exact Hsame|].
  change (probe_outcome (env := fair_weather) "in.mp4" empty_world)
    with (Exited0 "4.5") in Hread.
  cbv zeta in Hread. destruct Hread as [Hspawned Hok].
  assert (Hr : r = Ok "out.mp4").
  { apply (f_equal fst) in Hrun. vm_compute in Hrun. congruence. }
  exists w'. split; [by rewrite Hrun, Hr|exact Hspawned].
Defined.

(** C2, witness: one pair, durations probed, every process exits with 0. *)
Lemma single_segment_not_reencoded_witness :
  ∃ w',
    VideoGenerator.create_video_from_images (env := fair_weather) hd_video
      ["a.jpg"] ["a.mp3"] (Some "out.mp4") None empty_world = (Ok "out.mp4", w') ∧
    spawned (history w')
    = [VideoGenerator.probe_command "a.mp3";
       VideoGenerator.segment_command (env := fair_weather) hd_video
         "a.jpg" "a.mp3" "/tmp/tmp0.mp4" 4.5%float] ∧
    fs w' = ∅.
Proof.
  destruct (single_segment_not_reencoded (env := fair_weather) hd_video
              "a.jpg" "a.mp3" "out.mp4" None 4.5%float empty_world
              (record_event (Spawn (VideoGenerator.probe_command "a.mp3")) empty_world)
              "4.5")
    as (w' & Hrun & _ & _ & Hfs); [reflexivity..|].
  exists w'. split; [exact Hrun|].
  split.
  - apply (f_equal snd) in Hrun. simpl in Hrun. rewrite <-Hrun.
    vm_compute. reflexivity.
  - rewrite Hfs. simpl. apply set_eq. intros x.
    rewrite elem_of_difference. split; [by intros [? _]|]. by intros ?%elem_of_empty.
Defined.

(** C3, witness: the encode of the only segment fails. *)
Lemma failed_segment_leaves_temp_file_witness :
  ∃ e w',
    VideoGenerator.create_video_from_images (env := segment_encode_fails) hd_video
      ["a.jpg"] ["a.mp3"] (Some "out.mp4") None empty_world = (Raise e, w') ∧
    "/tmp/tmp0.mp4" ∈ fs w'.
Proof.
  destruct (failed_segment_leaves_temp_file (env := segment_encode_fails) hd_video
              "a.jpg" "a.mp3" "out.mp4" None 4.5%float empty_world
              (record_event (Spawn (VideoGenerator.probe_command "a.mp3")) empty_world)
              "Conversion failed!")
    as (w' & Hrun & _ & Hleft & _); [reflexivity..|].
  eexists _, w'. split; [exact Hrun|exact Hleft].
Defined.

(** C3, on two pairs: when the concatenation fails the manifest stays. *)
Lemma failed_concat_leaves_manifest :
  let run := VideoGenerator.create_video_from_images (env := concat_fails) hd_video
               ["a.jpg"; "b.jpg"] ["a.mp3"; "b.mp3"] (Some "out.mp4") None
               empty_world in
  is_Raise run.1 ∧
  temp_files (history run.2) = ["/tmp/tmp0.mp4"; "/tmp/tmp1.mp4"; "/tmp/tmp2.txt"] ∧
  elements (fs run.2) = ["/tmp/tmp2.txt"].
Proof. vm_compute. by split_and!. Qed.
(** C4, counterexample: the LLM refuses the introduction of the second of
    three items.  The run is aborted with that exception: the third
    introduction is never requested and nothing is rendered, synthesized
    or encoded. *)
Lemma introduction_failure_stops_the_run :
  let run := AutoVideoGenerator.generate_from_news_list
               (env := second_introduction_fails) generator three_news None
               empty_world in
  run.1 = Raise (ExternalError "Rate limit exceeded") ∧
  calls (is_llm Introduction) run.2 = 2 ∧
  List.filter is_production (history run.2) = [] ∧
  logged ERROR (history run.2)
  = ["Error generating item introduction: Rate limit exceeded";
     "Error generating news video from items: Rate limit exceeded"].
Proof. vm_compute. by split_and!. Qed.

(** C4, witness: the same run, read through the theorem. *)
Lemma introduction_failure_aborts_witness :
  ∃ w',
    AutoVideoGenerator.generate_from_news_list (env := second_introduction_fails)
      generator three_news None empty_world
    = (Raise (ExternalError "Rate limit exceeded"), w') ∧
    logged ERROR (events_since empty_world w')
    = ["Error generating item introduction: Rate limit exceeded";
       "Error generating news video from items: Rate limit exceeded"] ∧
    calls (is_llm Introduction) w' = 2 ∧
    fs w' = ∅.
Proof.
  destruct (introduction_failure_aborts (env := second_introduction_fails)
              generator three_news None empty_world 1 (headline "Weather")
              (ExternalError "Rate limit exceeded") "Today's headlines")
    as [(w' & Hrun & Hlog & Hn & Hfs & _) _].
  - reflexivity.
  - reflexivity.
  - reflexivity.
  - intros j item' Hj _. exists "Introduction 0".
    assert (j = 0) as -> by lia. reflexivity.
  - exists w'. split; [exact Hrun|]. split; [exact Hlog|]. split; [exact Hn|exact Hfs].
Defined.

(** C1, witness: three news items; the screenshot of the second fails. *)
Lemma image_failure_misaligns_witness :
  ∃ news_images news_audios,
    (AutoVideoGenerator.generate_content (env := second_image_fails) generator
       three_news empty_world).1
    = Ok ("output/images/overview_20250101_120000.jpg",
          "output/audio/summary_20250101_120000.mp3", news_images, news_audios) ∧
    length news_audios = 3 ∧ length news_images < length news_audios.
Proof.
  set (run := AutoVideoGenerator.generate_content (env := second_image_fails)
                generator three_news empty_world).
  assert (Hrun : run =
    (Ok ("output/images/overview_20250101_120000.jpg",
         "output/audio/summary_20250101_120000.mp3",
         ["output/images/news_item_1_20250101_120000.jpg";
          "output/images/news_item_3_20250101_120000.jpg"],
         ["output/audio/item_1_20250101_120000.mp3";
          "output/audio/item_2_20250101_120000.mp3";
          "output/audio/item_3_20250101_120000.mp3"]), run.2)).
  { rewrite (surjective_pairing run) at 1. f_equal; vm_compute; reflexivity. }
  eexists _, _. split; [by rewrite Hrun|].
  apply (image_failure_misaligns (env := second_image_fails) generator three_news
           empty_world _ _ _ _ _ 1 Hrun).
  - simpl. lia.
  - vm_compute. discriminate.
Defined.

(** C1, on the same run: the images and audios the segments are encoded
    from.  The third item's image is shown while the second item's
    introduction is read, and the third item's audio is not used. *)
Lemma second_image_failure_shifts_the_pairs :
  let run := AutoVideoGenerator.generate_from_news_list (env := second_image_fails)
               generator three_news None empty_world in
  run.1 = Ok "output/video/final_news_20250101_120000.mp4" ∧
  omap segment_inputs (spawned (history run.2))
  = [("output/images/overview_20250101_120000.jpg",
      "output/audio/summary_20250101_120000.mp3");
     ("output/images/news_item_1_20250101_120000.jpg",
      "output/audio/item_1_20250101_120000.mp3");
     ("output/images/news_item_3_20250101_120000.jpg",
      "output/audio/item_2_20250101_120000.mp3")].
Proof. vm_compute. by split. Qed.
(** X1, witness: two pairs, every process exits with 0. *)
Lemma temporaries_deleted_on_return_witness :
  ∃ w',
    VideoGenerator.create_video_from_images (env := fair_weather) hd_video
      ["a.jpg"; "b.jpg"] ["a.mp3"; "b.mp3"] (Some "out.mp4") None empty_world
    = (Ok "out.mp4", w') ∧
    temp_files (history w') = ["/tmp/tmp0.mp4"; "/tmp/tmp1.mp4"; "/tmp/tmp2.txt"] ∧
    ("/tmp/tmp0.mp4" ∉ fs w') ∧ ("/tmp/tmp1.mp4" ∉ fs w') ∧
    ("/tmp/tmp2.txt" ∉ fs w').
Proof.
  set (run := VideoGenerator.create_video_from_images (env := fair_weather) hd_video
                ["a.jpg"; "b.jpg"] ["a.mp3"; "b.mp3"] (Some "out.mp4") None
                empty_world).
  assert (Hrun : run = (Ok "out.mp4", run.2)).
  { rewrite (surjective_pairing run) at 1. f_equal; vm_compute; reflexivity. }
  assert (Htemps : temp_files (events_since empty_world run.2)
                   = ["/tmp/tmp0.mp4"; "/tmp/tmp1.mp4"; "/tmp/tmp2.txt"]).
  { vm_compute. reflexivity. }
  pose proof (temporaries_deleted_on_return (env := fair_weather) hd_video
                ["a.jpg"; "b.jpg"] ["a.mp3"; "b.mp3"] (Some "out.mp4") None
                empty_world "out.mp4" run.2 Hrun) as Hgone.
  rewrite Htemps in Hgone.
  exists run.2. split; [exact Hrun|]. split; [vm_compute; reflexivity|].
  split_and!; apply Hgone.
  - by left.
  - right. by left.
  - right. right. by left.
Defined.

(** X2, witness: three news items, everything succeeds. *)
Lemma lists_aligned_when_images_render_witness :
  ∃ news_images news_audios,
    (AutoVideoGenerator.generate_content (env := fair_weather) generator
       three_news empty_world).1
    = Ok ("output/images/overview_20250101_120000.jpg",
          "output/audio/summary_20250101_120000.mp3", news_images, news_audios) ∧
    length news_images = 3 ∧ length news_audios = 3.
Proof.
  set (run := AutoVideoGenerator.generate_content (env := fair_weather)
                generator three_news empty_world).
  assert (Hrun : run =
    (Ok ("output/images/overview_20250101_120000.jpg",
         "output/audio/summary_20250101_120000.mp3",
         ["output/images/news_item_1_20250101_120000.jpg";
          "output/images/news_item_2_20250101_120000.jpg";
          "output/images/news_item_3_20250101_120000.jpg"],
         ["output/audio/item_1_20250101_120000.mp3";
          "output/audio/item_2_20250101_120000.mp3";
          "output/audio/item_3_20250101_120000.mp3"]), run.2)).
  { rewrite (surjective_pairing run) at 1. f_equal; vm_compute; reflexivity. }
  eexists _, _. split; [by rewrite Hrun|].
  apply (lists_aligned_when_images_render (env := fair_weather) generator three_news
           empty_world _ _ _ _ _ Hrun).
  intros k Hk. reflexivity.
Defined.

(** X5, witness: a summary and three introductions, four requests. *)
Lemma one_speech_request_per_text_witness :
  ∃ audio_files w',
    TTSGenerator.generate_all_audio (env := fair_weather)
      (AutoVideoGenerator.tts_generator generator) "Today's headlines" three_news
      ["One"; "Two"; "Three"] empty_world = (Ok audio_files, w') ∧
    calls is_speech w' = 4.
Proof.
  destruct (one_speech_request_per_text (env := fair_weather)
              (AutoVideoGenerator.tts_generator generator) "Today's headlines"
              three_news ["One"; "Two"; "Three"] empty_world eq_refl)
    as (audio_files & w' & Hrun & Hn & _).
  exists audio_files, w'. split; [exact Hrun|exact Hn].
Defined.

(** X6, witness: the provider "azure". *)
Lemma unsupported_provider_yields_nothing_witness :
  ∃ w',
    TTSGenerator.generate_all_audio (env := fair_weather) unknown_tts
      "Today's headlines" three_news ["One"; "Two"; "Three"] empty_world
    = (Ok ∅, w') ∧
    calls is_speech w' = 0 ∧ fs w' = ∅.
Proof.
  destruct (unsupported_provider_yields_nothing (env := fair_weather) unknown_tts
              "Today's headlines" three_news ["One"; "Two"; "Three"] empty_world
              eq_refl)
    as (w' & Hrun & Hn & Hfs).
  exists w'. split; [exact Hrun|]. split; [exact Hn|exact Hfs].
Defined.

(** X7, witness: three news items, everything succeeds. *)
Lemma content_outputs_exist_witness :
  let run := AutoVideoGenerator.generate_content (env := fair_weather) generator
               three_news empty_world in
  ("output/images/overview_20250101_120000.jpg" ∈ fs run.2) ∧
  ("output/audio/summary_20250101_120000.mp3" ∈ fs run.2) ∧
  ("output/images/news_item_3_20250101_120000.jpg" ∈ fs run.2) ∧
  ("output/audio/item_3_20250101_120000.mp3" ∈ fs run.2).
Proof.
  intros run.
  assert (Hrun : run =
    (Ok ("output/images/overview_20250101_120000.jpg",
         "output/audio/summary_20250101_120000.mp3",
         ["output/images/news_item_1_20250101_120000.jpg";
          "output/images/news_item_2_20250101_120000.jpg";
          "output/images/news_item_3_20250101_120000.jpg"],
         ["output/audio/item_1_20250101_120000.mp3";
          "output/audio/item_2_20250101_120000.mp3";
          "output/audio/item_3_20250101_120000.mp3"]), run.2)).
  { rewrite (surjective_pairing run) at 1. f_equal; vm_compute; reflexivity. }
  destruct (content_outputs_exist (env := fair_weather) generator three_news
              empty_world _ _ _ _ _ Hrun)
    as (Hoverview & Hsummary & Himages & Haudios & _).
  split; [exact Hoverview|]. split; [exact Hsummary|].
  split.
  - apply (proj1 (list.Forall_forall _ _) Himages). do 2 right. by left.
  - apply (proj1 (list.Forall_forall _ _) Haudios). do 2 right. by left.
Defined.

(** X8, witness: the audio of the second of three news items fails. *)
Lemma audio_failure_aborts_witness :
  ∃ e w',
    AutoVideoGenerator.generate_from_news_list (env := second_speech_fails)
      generator three_news None empty_world = (Raise e, w') ∧
    spawned (events_since empty_world w') = [].
Proof.
  destruct (audio_failure_aborts (env := second_speech_fails) generator three_news
              None empty_world 2) as [(e & w' & Hrun & Hspawned & _) _].
  - simpl. lia.
  - vm_compute. by eexists.
  - exists e, w'. split; [exact Hrun|exact Hspawned].
Defined.

(** X9, witness: three images, two audios and two durations give two
    segments and one concatenation. *)
Lemma segments_encoded_in_order_witness :
  ∃ w',
    VideoGenerator.create_video_from_images (env := fair_weather) hd_video
      ["a.jpg"; "b.jpg"; "c.jpg"] ["a.mp3"; "b.mp3"] (Some "out.mp4")
      (Some [4.5%float; 3.5%float]) empty_world = (Ok "out.mp4", w') ∧
    spawned (events_since empty_world w')
    = [VideoGenerator.segment_command (env := fair_weather) hd_video
         "a.jpg" "a.mp3" "/tmp/tmp0.mp4" 4.5%float;
       VideoGenerator.segment_command (env := fair_weather) hd_video
         "b.jpg" "b.mp3" "/tmp/tmp1.mp4" 3.5%float;
       VideoGenerator.concat_command "/tmp/tmp2.txt" "out.mp4"].
Proof.
  set (run := VideoGenerator.create_video_from_images (env := fair_weather) hd_video
                ["a.jpg"; "b.jpg"; "c.jpg"] ["a.mp3"; "b.mp3"] (Some "out.mp4")
                (Some [4.5%float; 3.5%float]) empty_world).
  assert (Hrun : run = (Ok "out.mp4", run.2)).
  { rewrite (surjective_pairing run) at 1. f_equal; vm_compute; reflexivity. }
  destruct (segments_encoded_in_order (env := fair_weather) hd_video
              ["a.jpg"; "b.jpg"; "c.jpg"] ["a.mp3"; "b.mp3"] (Some "out.mp4")
              (Some [4.5%float; 3.5%float]) [4.5%float; 3.5%float]
              empty_world empty_world "out.mp4" run.2 eq_refl Hrun)
    as (_ & _ & _ & Hspawned & _).
  exists run.2. split; [exact Hrun|exact Hspawned].
Defined.

(** X10, witness: the overview and one news item, default paths. *)
Lemma final_video_exists_witness :
  ∃ w',
    VideoGenerator.create_final_video (env := fair_weather) hd_video
      "o.jpg" "o.mp3" ["a.jpg"] ["a.mp3"] None empty_world
    = (Ok "output/video/final_news_20250101_120000.mp4", w') ∧
    "output/video/final_news_20250101_120000.mp4" ∈ fs w'.
Proof.
  set (run := VideoGenerator.create_final_video (env := fair_weather) hd_video
                "o.jpg" "o.mp3" ["a.jpg"] ["a.mp3"] None empty_world).
  assert (Hrun : run = (Ok "output/video/final_news_20250101_120000.mp4", run.2)).
  { rewrite (surjective_pairing run) at 1. f_equal; vm_compute; reflexivity. }
  destruct (final_video_exists (env := fair_weather) hd_video
              "o.jpg" "o.mp3" ["a.jpg"] ["a.mp3"] None empty_world _ _ Hrun)
    as (_ & _ & _ & Hexists).
  exists run.2. split; [exact Hrun|exact (Hexists eq_refl)].
Defined.


(** X14, witness: three news items, default path. *)
Lemma returned_video_exists_witness :
  ∃ w',
    AutoVideoGenerator.generate_from_news_list (env := fair_weather) generator
      three_news None empty_world
    = (Ok "output/video/final_news_20250101_120000.mp4", w') ∧
    "output/video/final_news_20250101_120000.mp4" ∈ fs w'.
Proof.
  set (run := AutoVideoGenerator.generate_from_news_list (env := fair_weather)
                generator three_news None empty_world).
  assert (Hrun : run = (Ok "output/video/final_news_20250101_120000.mp4", run.2)).
  { rewrite (surjective_pairing run) at 1. f_equal; vm_compute; reflexivity. }
  destruct (returned_video_exists (env := fair_weather) generator three_news None
              empty_world _ _ (or_introl Hrun)) as [Hexists|[stamp Hstamp]].
  - exists run.2. split; [exact Hrun|exact Hexists].
  - discriminate Hstamp.
Defined.

(** X15, witness: the LLM refuses the second of three introductions. *)
Lemma introductions_stop_at_first_failure_witness :
  ∃ w',
    AutoVideoGenerator.generate_introductions (env := second_introduction_fails)
      generator three_news empty_world
    = (Raise (ExternalError "Rate limit exceeded"), w') ∧
    calls (is_llm Introduction) w' = 2.
Proof.
  destruct (introductions_stop_at_first_failure (env := second_introduction_fails)
              generator three_news empty_world 1 (headline "Weather")
              (ExternalError "Rate limit exceeded"))
    as (w' & Hrun & Hn & _).
  - reflexivity.
  - reflexivity.
  - intros [|j] item' Hj; [|lia]. intros _. by eexists.
  - exists w'. split; [exact Hrun|exact Hn].
Defined.

(** X16, witness: three news items, every request answered. *)
Lemma introductions_in_order_witness :
  ∃ w',
    AutoVideoGenerator.generate_introductions (env := fair_weather) generator
      three_news empty_world
    = (Ok ["Introduction 0"; "Introduction 1"; "Introduction 2"], w') ∧
    calls (is_llm Introduction) w' = 3.
Proof.
  set (run := AutoVideoGenerator.generate_introductions (env := fair_weather)
                generator three_news empty_world).
  assert (Hrun : run = (Ok ["Introduction 0"; "Introduction 1"; "Introduction 2"],
                        run.2)).
  { rewrite (surjective_pairing run) at 1. f_equal; vm_compute; reflexivity. }
  destruct (introductions_in_order (env := fair_weather) generator three_news
              empty_world _ _ Hrun) as (_ & Hn & _).
  exists run.2. split; [exact Hrun|exact Hn].
Defined.

(** X17, witness: the screenshot of the overview fails. *)
Lemma overview_failure_aborts_witness :
  ∃ e w',
    AutoVideoGenerator.generate_from_news_list (env := overview_fails) generator
      three_news None empty_world = (Raise e, w') ∧
    calls is_speech w' = 0 ∧
    spawned (events_since empty_world w') = [].
Proof.
  destruct (overview_failure_aborts (env := overview_fails) generator three_news
              None empty_world) as (e & w' & Hrun & _ & Hs & Hspawned).
  - vm_compute. discriminate.
  - exists e, w'. split; [exact Hrun|]. split; [exact Hs|exact Hspawned].
Defined.

(** X18, witness: the image of the second of three items fails; the
    image list holds those of items 1 and 3, the audio list those of
    items 1, 2 and 3. *)
Lemma lists_follow_the_items_witness :
  ∃ news_images news_audios,
    (AutoVideoGenerator.generate_content (env := second_image_fails) generator
       three_news empty_world).1
    = Ok ("output/images/overview_20250101_120000.jpg",
          "output/audio/summary_20250101_120000.mp3", news_images, news_audios) ∧
    Forall2 (fun i p => ∃ stamp, p = item_image_path i stamp) [1; 3] news_images ∧
    Forall2 (fun i p => ∃ stamp, p = item_audio_path i stamp) [1; 2; 3] news_audios.
Proof.
  set (run := AutoVideoGenerator.generate_content (env := second_image_fails)
                generator three_news empty_world).
  assert (Hrun : run =
    (Ok ("output/images/overview_20250101_120000.jpg",
         "output/audio/summary_20250101_120000.mp3",
         ["output/images/news_item_1_20250101_120000.jpg";
          "output/images/news_item_3_20250101_120000.jpg"],
         ["output/audio/item_1_20250101_120000.mp3";
          "output/audio/item_2_20250101_120000.mp3";
          "output/audio/item_3_20250101_120000.mp3"]), run.2)).
  { rewrite (surjective_pairing run) at 1. f_equal; vm_compute; reflexivity. }
  destruct (lists_follow_the_items (env := second_image_fails) generator three_news
              empty_world _ _ _ _ _ Hrun) as [Himages Haudios].
  eexists _, _. split; [by rewrite Hrun|]. split; [exact Himages|exact Haudios].
Defined.

(** C5, at the failing input: overview and one news item; the media
    tool fails on the fade.  The call raises the error of that process
    and the intermediate video is still on disk. *)
Lemma failed_transition_keeps_intermediate_witness :
  ∃ w',
    VideoGenerator.create_final_video (env := fade_fails) hd_video
      "o.jpg" "o.mp3" ["a.jpg"] ["a.mp3"] None empty_world
    = (Raise (CalledProcessError
                (VideoGenerator.fade_command (env := fade_fails)
                   "output/video/news_video_20250101_120000.mp4"
                   "output/video/final_news_20250101_120000.mp4" 4.5%float)
                "Conversion failed!"), w') ∧
    "output/video/news_video_20250101_120000.mp4" ∈ fs w'.
Proof.
  set (made := VideoGenerator.create_video_from_images (env := fade_fails) hd_video
                 ["o.jpg"; "a.jpg"] ["o.mp3"; "a.mp3"] None None empty_world).
  assert (Hmade : made = (Ok "output/video/news_video_20250101_120000.mp4", made.2)).
  { rewrite (surjective_pairing made) at 1. f_equal; vm_compute; reflexivity. }
  assert (Hdisk : elements (fs made.2) = ["output/video/news_video_20250101_120000.mp4"]).
  { vm_compute. reflexivity. }
  pose proof (failed_transition_keeps_intermediate (env := fade_fails) hd_video
                "o.jpg" "o.mp3" ["a.jpg"] ["a.mp3"] None empty_world _ _ Hmade)
    as Hstep.
  set (faded := VideoGenerator.add_transition (env := fade_fails) hd_video
                  "output/video/news_video_20250101_120000.mp4"
                  (chosen_path (env := fade_fails) None "output/video/final_news_"
                     ".mp4" empty_world)
                  "fade" made.2) in Hstep.
  assert (Hfaded : faded =
            (Raise (CalledProcessError
                      (VideoGenerator.fade_command (env := fade_fails)
                         "output/video/news_video_20250101_120000.mp4"
                         "output/video/final_news_20250101_120000.mp4" 4.5%float)
                      "Conversion failed!"), faded.2)).
  { rewrite (surjective_pairing faded) at 1. f_equal; vm_compute; reflexivity. }
  rewrite Hfaded in Hstep. destruct Hstep as (Hrun & _ & Hkept).
  exists faded.2. split; [exact Hrun|]. apply Hkept.
  apply elem_of_elements. rewrite Hdisk. by left.
Defined.
End concrete_runs.
